(** * A shallow embedding of the finance assistant (final.py)

    The development follows the layers of the program:
    - [Py]        exceptions and results of Python calls;
    - [Text]      strings as SQLite and Python compare, slice and join them;
    - [Calendar]  the part of [datetime] the program uses;
    - [Store]     the SQLite tables and statements of [DatabaseManager];
    - [Tools]     [FinanceTools]: add_transaction, _check_budget_warning,
                  set_budget;
    - [Manager]   [DatabaseManager.get_conversation_list];
    - [Agent]     [FinanceAgent]: conversation identity, history, step;
    - [Users]     [DatabaseManager.ensure_user_exists];
    - [Reports]   [FinanceTools]: get_transactions, get_spending_summary,
                  get_budget_status;
    - [Interface] [FinanceInterface]: the history loaders, the picker of
                  conversations and the chat handlers;
    - [Advice]    the table of saving tips, get_saving_tips and
                  get_alternative_suggestion;
    - [Planning]  analyze_financial_capacity and what it feeds.

    Then come the words the statements use ([Vocabulary]), concrete stores
    and generators ([Scenarios]), and the properties, by operation.

    What the environment decides is an argument of the model: the clock
    readings, the bytes of [os.urandom], the language model behind
    [ChatAgent.step], the JSON decoder, the order [ORDER BY RANDOM()] gives,
    Python's [round], and whether the database file can be opened and
    queried.

    Amounts are SQLite REAL / Python float in the program, that is binary64
    values; here they are rationals ([Q]) with exact arithmetic.  The two
    agree where binary64 does not round: on whole amounts ([Exactness]).
    Statements that only carry amounts, compare them with a constant or
    compare two sums hold for the program as they stand; statements that
    rest on the value of a sum, a difference or a percentage are made for
    whole amounts. *)

From Stdlib Require Import ZArith QArith Qabs List String Ascii Bool Lia.
From Stdlib Require Import DecimalString Lqa.
From Stdlib Require Import Sorting.Sorted Sorting.Permutation.
From Stdlib Require PrimFloat.
Import ListNotations.
Open Scope Z_scope.

(** ** Python results and exceptions *)

Module Py.

Inductive exn_class :=
| ValueError | OverflowError | KeyError | IndexError | AttributeError
| TypeError | OperationalError | IntegrityError | ModelError.

(** An exception: its class and the text [str(e)] gives. *)
Record exn := Exn { exn_class_of : exn_class; exn_str : string }.

(** The outcome of a call: a returned value or a raised exception. *)
Inductive result (A : Type) :=
| Ret (a : A)
| Raise (e : exn).
Arguments Ret {A} a.
Arguments Raise {A} e.

Definition bind {A B} (r : result A) (k : A -> result B) : result B :=
  match r with
  | Ret a => k a
  | Raise e => Raise e
  end.

(** [try: body except cls: handler] for one exception class. *)
Definition exn_class_eqb (a b : exn_class) : bool :=
  match a, b with
  | ValueError, ValueError | OverflowError, OverflowError
  | KeyError, KeyError | IndexError, IndexError
  | AttributeError, AttributeError | TypeError, TypeError
  | OperationalError, OperationalError | IntegrityError, IntegrityError
  | ModelError, ModelError => true
  | _, _ => false
  end.

Definition try_except {A} (cls : exn_class) (body : result A)
    (handler : exn -> result A) : result A :=
  match body with
  | Ret a => Ret a
  | Raise e => if exn_class_eqb (exn_class_of e) cls then handler e else Raise e
  end.

(** [try: body except Exception as e: handler]. *)
Definition try_except_Exception {A} (body : result A)
    (handler : exn -> result A) : result A :=
  match body with
  | Ret a => Ret a
  | Raise e => handler e
  end.

End Py.
Import Py.

Notation "x <- c1 ;; c2" := (Py.bind c1 (fun x => c2))
  (at level 61, c1 at next level, right associativity).

(** ** Text *)

Module Text.

Local Open Scope string_scope.

(** SQLite compares TEXT values with the BINARY collation: byte by byte. *)
Definition text_le (a b : string) : bool := String.leb a b.

(** [x BETWEEN lo AND hi]. *)
Definition text_between (x lo hi : string) : bool :=
  text_le lo x && text_le x hi.

(** Python's [s[:n]]. *)
Definition py_prefix (n : nat) (s : string) : string := substring 0 n s.

(** Python's [sep.join(parts)]. *)
Definition join (sep : string) (parts : list string) : string :=
  String.concat sep parts.

(** The largest of a list of texts, SQL's [MAX] over a group; a group is
    never empty (the empty list gives the least text). *)
Definition text_max (l : list string) : string :=
  fold_right (fun x m => if text_le m x then x else m) "" l.

(** [ORDER BY key DESC]: a stable insertion sort, largest key first. *)
Fixpoint insert_desc {A} (key : A -> string) (x : A) (l : list A) : list A :=
  match l with
  | [] => [x]
  | y :: tl => if text_le (key y) (key x) then x :: l
               else y :: insert_desc key x tl
  end.

Definition order_by_desc {A} (key : A -> string) (l : list A) : list A :=
  fold_right (insert_desc key) [] l.

Definition newline : string := String "010"%char "".

End Text.
Import Text.

(** ** The calendar: the part of [datetime] the program relies on *)

Module Calendar.

Record date := mkdate { year : Z; month : Z; day : Z }.

Definition MINYEAR : Z := 1.
Definition MAXYEAR : Z := 9999.

Definition is_leap (y : Z) : bool :=
  (y mod 4 =? 0) && (negb (y mod 100 =? 0) || (y mod 400 =? 0)).

Definition days_in_month (y m : Z) : Z :=
  if m =? 2 then (if is_leap y then 29 else 28)
  else if (m =? 4) || (m =? 6) || (m =? 9) || (m =? 11) then 30
  else 31.

Definition valid_dateb (d : date) : bool :=
  (MINYEAR <=? year d) && (year d <=? MAXYEAR)
  && (1 <=? month d) && (month d <=? 12)
  && (1 <=? day d) && (day d <=? days_in_month (year d) (month d)).

Definition out_of_range : exn := Exn ValueError "day is out of range for month".
Definition date_overflow : exn := Exn OverflowError "date value out of range".

(** [d.replace(day=n)] and [d.replace(month=m, day=n)]: the constructor
    checks the new fields and raises ValueError. *)
Definition replace_day (d : date) (n : Z) : result date :=
  let d' := mkdate (year d) (month d) n in
  if valid_dateb d' then Ret d' else Raise out_of_range.

Definition replace_month_day (d : date) (m n : Z) : result date :=
  let d' := mkdate (year d) m n in
  if valid_dateb d' then Ret d' else Raise out_of_range.

(** [d + timedelta(days=1)] and [d - timedelta(days=1)]; leaving the range
    0001-01-01 .. 9999-12-31 raises OverflowError. *)
Definition tomorrow (d : date) : result date :=
  if day d <? days_in_month (year d) (month d)
  then Ret (mkdate (year d) (month d) (day d + 1))
  else if month d <? 12 then Ret (mkdate (year d) (month d + 1) 1)
  else if year d <? MAXYEAR then Ret (mkdate (year d + 1) 1 1)
  else Raise date_overflow.

Definition yesterday (d : date) : result date :=
  if 1 <? day d then Ret (mkdate (year d) (month d) (day d - 1))
  else if 1 <? month d
  then Ret (mkdate (year d) (month d - 1) (days_in_month (year d) (month d - 1)))
  else if MINYEAR <? year d then Ret (mkdate (year d - 1) 12 31)
  else Raise date_overflow.

(** [d + timedelta(days=n)] and [d - timedelta(days=n)] for n >= 0. *)
Fixpoint add_days (d : date) (n : nat) : result date :=
  match n with
  | O => Ret d
  | S k => d' <- tomorrow d ;; add_days d' k
  end.

Fixpoint sub_days (d : date) (n : nat) : result date :=
  match n with
  | O => Ret d
  | S k => d' <- yesterday d ;; sub_days d' k
  end.

(** A clock reading, [datetime.datetime.now()]. *)
Record datetime := mkdatetime {
  dt_date : date;
  hour : Z; minute : Z; second : Z; microsecond : Z
}.

Definition valid_datetimeb (t : datetime) : bool :=
  valid_dateb (dt_date t)
  && (0 <=? hour t) && (hour t <? 24)
  && (0 <=? minute t) && (minute t <? 60)
  && (0 <=? second t) && (second t <? 60)
  && (0 <=? microsecond t) && (microsecond t <? 1000000).

(** *** Rendering *)

Definition digit_char (k : Z) : ascii := ascii_of_N (Z.to_N (48 + k mod 10)).

Definition pad2 (n : Z) : string :=
  String (digit_char (n / 10)) (String (digit_char n) EmptyString).

Definition pad4 (n : Z) : string :=
  String (digit_char (n / 1000)) (String (digit_char (n / 100)) (pad2 n)).

Definition pad6 (n : Z) : string :=
  String (digit_char (n / 100000)) (String (digit_char (n / 10000)) (pad4 n)).

(** [strftime("%Y-%m-%d")].  The year is rendered with four digits, as
    documented; below year 1000 the C library may drop the padding, so
    statements about rendered dates are made for years from 1000 on. *)
Definition strftime_ymd (d : date) : string :=
  (pad4 (year d) ++ "-" ++ pad2 (month d) ++ "-" ++ pad2 (day d))%string.

(** [strftime('%Y%m%d%H%M%S')]. *)
Definition strftime_compact (t : datetime) : string :=
  (pad4 (year (dt_date t)) ++ pad2 (month (dt_date t)) ++ pad2 (day (dt_date t))
   ++ pad2 (hour t) ++ pad2 (minute t) ++ pad2 (second t))%string.

(** [isoformat()]: the microseconds are left out when they are zero. *)
Definition isoformat (t : datetime) : string :=
  (strftime_ymd (dt_date t) ++ "T" ++ pad2 (hour t) ++ ":" ++ pad2 (minute t)
   ++ ":" ++ pad2 (second t)
   ++ (if (microsecond t =? 0)%Z then "" else "." ++ pad6 (microsecond t)))%string.

(** *** Parsing: [strptime(s, "%Y-%m-%d")] on ASCII input

    The format compiles to the regular expression
    [(\d\d\d\d)-(1[0-2]|0[1-9]|[1-9])-(3[0-1]|[1-2]\d|0[1-9]|[1-9]| [1-9])];
    the whole string has to be consumed and the fields have to form a date. *)

Definition digit_val (c : ascii) : option Z :=
  let n := Z.of_N (N_of_ascii c) in
  if (48 <=? n) && (n <=? 57) then Some (n - 48) else None.

Definition no_match : exn := Exn ValueError "time data does not match format".

Definition parse_year (a b c d : ascii) : option Z :=
  match digit_val a, digit_val b, digit_val c, digit_val d with
  | Some x3, Some x2, Some x1, Some x0 => Some (1000 * x3 + 100 * x2 + 10 * x1 + x0)
  | _, _, _, _ => None
  end.

(** The month alternatives [1[0-2]|0[1-9]] (two characters) and [[1-9]]. *)
Definition parse_month2 (a b : ascii) : option Z :=
  match digit_val a, digit_val b with
  | Some 1, Some x => if x <=? 2 then Some (10 + x) else None
  | Some 0, Some x => if 1 <=? x then Some x else None
  | _, _ => None
  end.

Definition parse_digit19 (a : ascii) : option Z :=
  match digit_val a with
  | Some x => if 1 <=? x then Some x else None
  | None => None
  end.

(** The day alternatives, tried in order on what is left; the match has to
    reach the end of the string. *)
Definition parse_day (rest : list ascii) : option Z :=
  match rest with
  | [a] => parse_digit19 a
  | [a; b] =>
      match digit_val a, digit_val b with
      | Some 3, Some x => if x <=? 1 then Some (30 + x) else None
      | Some 1, Some x => Some (10 + x)
      | Some 2, Some x => Some (20 + x)
      | Some 0, Some x => if 1 <=? x then Some x else None
      | _, _ => if Ascii.eqb a " " then parse_digit19 b else None
      end
  | _ => None
  end.

Definition parse_month_day (rest : list ascii) : option (Z * Z) :=
  match rest with
  | a :: "-"%char :: tl =>
      match parse_digit19 a, parse_day tl with
      | Some m, Some dd => Some (m, dd)
      | _, _ => None
      end
  | a :: b :: "-"%char :: tl =>
      match parse_month2 a b, parse_day tl with
      | Some m, Some dd => Some (m, dd)
      | _, _ => None
      end
  | _ => None
  end.

Definition strptime_ymd (s : string) : result date :=
  match list_ascii_of_string s with
  | a :: b :: c :: d :: "-"%char :: rest =>
      match parse_year a b c d, parse_month_day rest with
      | Some y, Some (m, dd) =>
          let r := mkdate y m dd in
          if valid_dateb r then Ret r else Raise out_of_range
      | _, _ => Raise no_match
      end
  | _ => Raise no_match
  end.

End Calendar.
Import Calendar.

(** ** The store: the SQLite tables behind [DatabaseManager] *)

Module Store.

Record user_row := mkuser {
  u_id : Z; u_username : string; u_created_at : string
}.

Record transaction_row := mktransaction {
  t_id : Z; t_user_id : Z; t_amount : Q; t_category : string;
  t_transaction_date : string; t_description : option string;
  t_created_at : string
}.

Record budget_row := mkbudget {
  b_id : Z; b_user_id : Z; b_category : string; b_amount : Q;
  b_period_type : string; b_period_start : string; b_period_end : string;
  b_created_at : string; b_updated_at : string
}.

Record conversation_row := mkconversation {
  c_id : Z; c_user_id : Z; c_agent_type : string; c_message_type : string;
  c_content : string; c_timestamp : string; c_conversation_id : string
}.

(** What the database file can do for a caller: [Unreachable] makes
    [sqlite3.connect] fail, [StatementsFail] makes every statement raise
    [sqlite3.Error] (a locked or damaged file). *)
Inductive health := Healthy | StatementsFail | Unreachable.

(** Each table is the list of its rows in the order a scan yields them,
    with the AUTOINCREMENT counter kept in [sqlite_sequence]. *)
Record database := mkdb {
  db_health : health;
  users : list user_row;
  transactions : list transaction_row;
  seq_transactions : Z;
  budgets : list budget_row;
  seq_budgets : Z;
  conversations : list conversation_row;
  seq_conversations : Z
}.

Definition with_transactions (db : database) (rows : list transaction_row)
    (seq : Z) : database :=
  mkdb (db_health db) (users db) rows seq (budgets db) (seq_budgets db)
       (conversations db) (seq_conversations db).

Definition with_budgets (db : database) (rows : list budget_row) (seq : Z)
    : database :=
  mkdb (db_health db) (users db) (transactions db) (seq_transactions db)
       rows seq (conversations db) (seq_conversations db).

Definition with_conversations (db : database) (rows : list conversation_row)
    (seq : Z) : database :=
  mkdb (db_health db) (users db) (transactions db) (seq_transactions db)
       (budgets db) (seq_budgets db) rows seq.

Definition cannot_open : exn := Exn OperationalError "unable to open database file".
Definition statement_failed : exn := Exn OperationalError "database is locked".
Definition foreign_key_failed : exn := Exn IntegrityError "FOREIGN KEY constraint failed".

(** [DatabaseManager.get_connection]: the error is printed and raised again. *)
Definition get_connection (db : database) : result unit :=
  match db_health db with
  | Unreachable => Raise cannot_open
  | _ => Ret tt
  end.

(** [cursor.execute] on an open connection, before the statement's own work. *)
Definition execute (db : database) : result unit :=
  match db_health db with
  | StatementsFail => Raise statement_failed
  | _ => Ret tt
  end.

(** The foreign key [user_id REFERENCES users(id)], enforced because every
    connection runs PRAGMA foreign_keys = ON. *)
Definition user_exists (db : database) (user_id : Z) : bool :=
  existsb (fun u => u_id u =? user_id) (users db).

(** The rowid an AUTOINCREMENT column gives a new row: one more than the
    largest rowid the table has ever held. *)
Definition next_rowid (seq : Z) (ids : list Z) : Z :=
  Z.max seq (fold_right Z.max 0 ids) + 1.

(** INSERT INTO transactions (...) VALUES (...); returns [lastrowid]. *)
Definition insert_transaction (db : database) (user_id : Z) (amount : Q)
    (category transaction_date : string) (description : option string)
    (created_at : string) : result (database * Z) :=
  _ <- execute db ;;
  if user_exists db user_id then
    let id := next_rowid (seq_transactions db) (map t_id (transactions db)) in
    let row := mktransaction id user_id amount category transaction_date
                             description created_at in
    Ret (with_transactions db (transactions db ++ [row]) id, id)
  else Raise foreign_key_failed.

(** The UNIQUE(user_id, category, period_start, period_end) key of budgets. *)
Definition budget_key_match (user_id : Z) (category period_start period_end : string)
    (b : budget_row) : bool :=
  (b_user_id b =? user_id) && String.eqb (b_category b) category
  && String.eqb (b_period_start b) period_start
  && String.eqb (b_period_end b) period_end.

(** The scalar subqueries of set_budget's statement:
    [(SELECT id FROM budgets WHERE user_id = ? AND category = ? AND
      period_start = ? AND period_end = ?)] and the same for [created_at];
    NULL when no row matches. *)
Definition select_budget_id (db : database) (user_id : Z)
    (category period_start period_end : string) : option Z :=
  option_map b_id
    (find (budget_key_match user_id category period_start period_end) (budgets db)).

Definition select_budget_created_at (db : database) (user_id : Z)
    (category period_start period_end : string) : option string :=
  option_map b_created_at
    (find (budget_key_match user_id category period_start period_end) (budgets db)).

(** INSERT OR REPLACE INTO budgets: the rows that clash with the new one on
    the primary key or on the UNIQUE key are deleted, then the row goes in;
    a NULL id takes the next rowid. *)
Definition insert_or_replace_budget (db : database) (id : option Z)
    (user_id : Z) (category : string) (amount : Q)
    (period_type period_start period_end created_at updated_at : string)
    : result database :=
  _ <- execute db ;;
  if user_exists db user_id then
    let new_id := match id with
                  | Some i => i
                  | None => next_rowid (seq_budgets db) (map b_id (budgets db))
                  end in
    let clashes b := (b_id b =? new_id)
                     || budget_key_match user_id category period_start period_end b in
    let row := mkbudget new_id user_id category amount period_type
                        period_start period_end created_at updated_at in
    Ret (with_budgets db (filter (fun b => negb (clashes b)) (budgets db) ++ [row])
                      (Z.max (seq_budgets db) new_id))
  else Raise foreign_key_failed.

(** The turns of one conversation of one (user, agent type) pair:
    [WHERE user_id = ? AND agent_type = ? AND conversation_id = ?]. *)
Definition turn_of (user_id : Z) (agent_type conversation_id : string)
    (c : conversation_row) : bool :=
  (c_user_id c =? user_id) && String.eqb (c_agent_type c) agent_type
  && String.eqb (c_conversation_id c) conversation_id.

(** The turns of a (user, agent type) pair:
    [WHERE user_id = ? AND agent_type = ?]. *)
Definition owned_by (user_id : Z) (agent_type : string) (c : conversation_row)
    : bool :=
  (c_user_id c =? user_id) && String.eqb (c_agent_type c) agent_type.

End Store.
Import Store.

(** ** FinanceTools *)

Module Tools.

Local Open Scope string_scope.

Definition Qgtb (a b : Q) : bool := negb (Qle_bool a b).

(** What [_check_budget_warning] returns besides None; each constructor
    keeps the values its f-string interpolates:
    - "警告：{category}已超支！本月预算{budget_amount}元，已花费{total_spent}元，
       超支{total_spent - budget_amount}元"
    - "提醒：{category}已使用预算的{percentage:.0f}%，剩余{budget_amount - total_spent}元"
    - "日期格式错误，无法检查预算". *)
Inductive warning :=
| Overspend (category : string) (budget_amount total_spent overage : Q)
| Reminder (category : string) (percentage remaining : Q)
| DateFormatError.

(** [SELECT amount FROM budgets WHERE user_id = ? AND category = ? AND
     period_type = '月' AND period_start <= ? AND period_end >= ?]. *)
Definition covering_month_budget (user_id : Z) (category transaction_date : string)
    (b : budget_row) : bool :=
  (b_user_id b =? user_id)%Z && String.eqb (b_category b) category
  && String.eqb (b_period_type b) "月"
  && text_le (b_period_start b) transaction_date
  && text_le transaction_date (b_period_end b).

(** [SELECT SUM(ABS(amount)) FROM transactions WHERE user_id = ? AND
     category = ? AND amount < 0 AND transaction_date BETWEEN ? AND ?],
    followed by [or 0]. *)
Definition spent_row (user_id : Z) (category start_date end_date : string)
    (t : transaction_row) : bool :=
  (t_user_id t =? user_id)%Z && String.eqb (t_category t) category
  && Qgtb 0 (t_amount t)
  && text_between (t_transaction_date t) start_date end_date.

Definition sum_abs (rows : list transaction_row) : Q :=
  fold_right (fun t acc => Qabs (t_amount t) + acc)%Q 0%Q rows.

Definition month_spent (db : database) (user_id : Z)
    (category start_date end_date : string) : Q :=
  sum_abs (filter (spent_row user_id category start_date end_date) (transactions db)).

(** The last day of the transaction's month, as the code computes it. *)
Definition month_end (transaction_date : string) : result string :=
  parsed <- strptime_ymd transaction_date ;;
  first <- replace_day parsed 1 ;;
  later <- add_days first 32 ;;
  next_first <- replace_day later 1 ;;
  last_day <- sub_days next_first 1 ;;
  Ret (strftime_ymd last_day).

(** [(total_spent / budget_amount) * 100 if budget_amount > 0 else 0]. *)
Definition usage_percentage (total_spent budget_amount : Q) : Q :=
  if Qgtb budget_amount 0 then ((total_spent / budget_amount) * 100)%Q else 0%Q.

(** The branches on the percentage. *)
Definition budget_verdict (category : string) (budget_amount total_spent : Q)
    : option warning :=
  let percentage := usage_percentage total_spent budget_amount in
  if Qgtb percentage 100 then
    Some (Overspend category budget_amount total_spent (total_spent - budget_amount)%Q)
  else if Qgtb percentage 80 then
    Some (Reminder category percentage (budget_amount - total_spent)%Q)
  else None.

(** The two queries and the verdict, inside the second try block;
    [fetchone] takes the first row the budget query yields. *)
Definition budget_query (db : database) (user_id : Z) (category : string)
    (transaction_date start_date end_date : string) : result (option warning) :=
  _ <- execute db ;;
  match find (covering_month_budget user_id category transaction_date) (budgets db) with
  | None => Ret None
  | Some budget =>
      let budget_amount := b_amount budget in
      _ <- execute db ;;
      let total_spent := month_spent db user_id category start_date end_date in
      Ret (budget_verdict category budget_amount total_spent)
  end.

Definition _check_budget_warning (db : database) (user_id : Z)
    (category : string) (amount : Q) (transaction_date : string)
    : result (option warning) :=
  if Qgtb amount 0 then Ret None
  else
    let year_month := py_prefix 7 transaction_date in
    let start_date := year_month ++ "-01" in
    (* try: ... except ValueError: return "日期格式错误，无法检查预算" *)
    dates <- try_except ValueError
               (end_date <- month_end transaction_date ;; Ret (Some end_date))
               (fun _ => Ret None) ;;
    match dates with
    | None => Ret (Some DateFormatError)
    | Some end_date =>
        _ <- get_connection db ;;
        (* try: ... except Exception: print; return None *)
        try_except_Exception
          (budget_query db user_id category transaction_date start_date end_date)
          (fun _ => Ret None)
    end.

(** The JSON envelopes the tools return, with the values their messages
    interpolate. *)
Inductive status := Success | Error.

Inductive message :=
| Recorded (income : bool) (abs_amount : Q)      (* "已记录{收入|支出}: {abs(amount)}元" *)
| RecordFailed (reason : string)                  (* "记录失败: {str(e)}" *)
| BudgetSet (period_type category : string) (amount : Q)
                                                  (* "已设置{period_type}度预算: {category} {amount}元" *)
| BudgetFailed (reason : string).                 (* "设置预算失败: {str(e)}" *)

Record envelope := mkenvelope {
  env_status : status;
  env_message : message;
  env_record_id : option Z;
  env_warning : option warning
}.

(** [add_transaction]; [today] and [now] are the two readings of the clock
    (the first is taken only when the date is omitted). *)
Definition add_transaction (db : database) (user_id : Z) (today now : datetime)
    (amount : Q) (category : string) (transaction_date description : option string)
    : result (database * envelope) :=
  let transaction_date :=
    match transaction_date with
    | None => strftime_ymd (dt_date today)
    | Some s => s
    end in
  _ <- get_connection db ;;
  let failed db' e :=
    Ret (db', mkenvelope Error (RecordFailed (exn_str e)) None None) in
  match insert_transaction db user_id amount category transaction_date
                           description (isoformat now) with
  | Raise e => failed db e
  | Ret (db', record_id) =>
      (* committed; the budget check runs on the stored rows *)
      match _check_budget_warning db' user_id category amount transaction_date with
      | Raise e => failed db' e
      | Ret warning =>
          Ret (db', mkenvelope Success (Recorded (Qgtb amount 0) (Qabs amount))
                               (Some record_id) warning)
      end
  end.

(** The bounds [set_budget] computes from the clock when a bound is omitted. *)
Definition default_period (today : date) (period_type : string)
    : result (string * string) :=
  if String.eqb period_type "月" then
    first <- replace_day today 1 ;;
    d28 <- replace_day today 28 ;;
    next_month <- add_days d28 4 ;;
    next_first <- replace_day next_month 1 ;;
    period_end <- sub_days next_first 1 ;;
    Ret (strftime_ymd first, strftime_ymd period_end)
  else if String.eqb period_type "季" then
    first <- replace_day today 1 ;;
    period_end <- try_except ValueError
                    (d <- replace_month_day today (month today + 2) 1 ;;
                     later <- add_days d 32 ;;
                     next_first <- replace_day later 1 ;;
                     last_day <- sub_days next_first 1 ;;
                     Ret (strftime_ymd last_day))
                    (fun _ => d <- replace_month_day today 12 31 ;;
                              Ret (strftime_ymd d)) ;;
    Ret (strftime_ymd first, period_end)
  else
    first <- replace_month_day today 1 1 ;;
    last <- replace_month_day today 12 31 ;;
    Ret (strftime_ymd first, strftime_ymd last).

(** [if period_start is None or period_end is None: ...]: the bounds the
    statement is run with. *)
Definition resolve_period (today : date) (period_type : string)
    (period_start period_end : option string) : result (string * string) :=
  match period_start, period_end with
  | Some ps, Some pe => Ret (ps, pe)
  | _, _ => default_period today period_type
  end.

(** [set_budget]; an omitted [period_type] is the call with "月". *)
Definition set_budget (db : database) (user_id : Z) (today now : datetime)
    (category : string) (amount : Q) (period_type : string)
    (period_start period_end : option string) : result (database * envelope) :=
  bounds <- resolve_period (dt_date today) period_type period_start period_end ;;
  let '(period_start, period_end) := bounds in
  _ <- get_connection db ;;
  let now := isoformat now in
  let id := select_budget_id db user_id category period_start period_end in
  let created_at :=
    match select_budget_created_at db user_id category period_start period_end with
    | Some c => c
    | None => now
    end in
  match insert_or_replace_budget db id user_id category amount period_type
                                 period_start period_end created_at now with
  | Raise e => Ret (db, mkenvelope Error (BudgetFailed (exn_str e)) None None)
  | Ret db' => Ret (db', mkenvelope Success (BudgetSet period_type category amount)
                                   None None)
  end.

End Tools.
Import Tools.

(** ** DatabaseManager.get_conversation_list *)

Module Manager.

Local Open Scope string_scope.

Section ConversationList.

(** [datetime.fromisoformat(last_update).strftime("%Y-%m-%d %H:%M")], or
    "未知时间" when the timestamp does not parse. *)
Variable display_time : string -> string.

Definition pair_dec (a b : string * string) : {a = b} + {a <> b}.
Proof. decide equality; apply string_dec. Defined.

(** [GROUP BY conversation_id] with [MAX(timestamp)]: one row per
    conversation identifier of the rows, with its latest timestamp. *)
Definition group_by_conversation (rows : list conversation_row)
    : list (string * string) :=
  map (fun cid =>
         (cid, text_max (map c_timestamp
                 (filter (fun c => String.eqb (c_conversation_id c) cid) rows))))
      (nodup string_dec (map c_conversation_id rows)).

(** [SELECT DISTINCT conversation_id, MAX(timestamp) as last_update
     FROM conversations WHERE user_id = ? AND agent_type = ?
     GROUP BY conversation_id ORDER BY last_update DESC]. *)
Definition select_conversations (db : database) (user_id : Z) (agent_type : string)
    : list (string * string) :=
  order_by_desc snd
    (nodup pair_dec
       (group_by_conversation (filter (owned_by user_id agent_type) (conversations db)))).

(** The pairs (display name, conversation id) handed to the picker. *)
Definition get_conversation_list (db : database) (user_id : Z) (agent_type : string)
    : result (list (string * string)) :=
  _ <- get_connection db ;;
  try_except_Exception
    (_ <- execute db ;;
     Ret (map (fun row => ("对话 " ++ display_time (snd row), fst row))
              (select_conversations db user_id agent_type)))
    (fun _ => Ret []).

End ConversationList.

End Manager.
Import Manager.

(** ** FinanceAgent *)

Module Agent.

Local Open Scope string_scope.

Inductive role := USER | ASSISTANT.

(** [BaseMessage]: the fields the program reads. *)
Record base_message := mkmessage {
  role_name : string; role_type : role; content : string
}.

(** What [ChatAgent.step] hands back, as the program probes it; [None]
    stands for an attribute or a key that is not there. *)
Record response := mkresponse {
  msgs : option (list base_message);
  response_content : option string;
  tool_calls : option (list string);
  tool_results : option (list string)
}.

(** A decoded JSON document. *)
#[warnings="-register-all"]
Inductive json :=
| JNull
| JBool (b : bool)
| JNumber (n : Q)
| JString (s : string)
| JArray (items : list json)
| JObject (fields : list (string * json)).

(** Python's truth value of a decoded document. *)
Definition truthy (j : json) : bool :=
  match j with
  | JNull => false
  | JBool b => b
  | JNumber n => negb (Qeq_bool n 0)
  | JString s => negb (String.eqb s "")
  | JArray items => match items with [] => false | _ => true end
  | JObject fields => match fields with [] => false | _ => true end
  end.

Definition lookup (k : string) (fields : list (string * json)) : option json :=
  option_map snd (find (fun kv => String.eqb (fst kv) k) fields).

(** The session: [user_id], [agent_type], the current conversation
    identifier and the message memory of the [ChatAgent] base class. *)
Record agent := mkagent {
  user_id : Z;
  agent_type : string;
  conversation_id : string;
  memory : list base_message
}.

(** [ChatAgent.reset]. *)
Definition reset (a : agent) : agent :=
  mkagent (user_id a) (agent_type a) (conversation_id a) [].

Definition hex_digit (n : N) : ascii :=
  match n with
  | 0%N => "0" | 1%N => "1" | 2%N => "2" | 3%N => "3" | 4%N => "4"
  | 5%N => "5" | 6%N => "6" | 7%N => "7" | 8%N => "8" | 9%N => "9"
  | 10%N => "a" | 11%N => "b" | 12%N => "c" | 13%N => "d" | 14%N => "e"
  | _ => "f"
  end%char.

(** [bytes.hex()]. *)
Fixpoint hex (bs : list Byte.byte) : string :=
  match bs with
  | [] => ""
  | b :: tl =>
      String (hex_digit (Byte.to_N b / 16)) (String (hex_digit (Byte.to_N b mod 16)) (hex tl))
  end.

(** [str(n)] of an integer. *)
Definition str_int (n : Z) : string := NilZero.string_of_int (Z.to_int n).

(** [_generate_conversation_id]; [now] is the clock reading and [random]
    the bytes [os.urandom(4)] returned. *)
Definition _generate_conversation_id (a : agent) (now : datetime)
    (random : list Byte.byte) : string :=
  str_int (user_id a) ++ "_" ++ agent_type a ++ "_" ++ strftime_compact now
  ++ "_" ++ hex random.

Definition new_conversation (a : agent) (now : datetime) (random : list Byte.byte)
    : agent :=
  reset (mkagent (user_id a) (agent_type a)
                 (_generate_conversation_id a now random) (memory a)).

(** [SELECT COUNT( * ) FROM conversations WHERE user_id = ? AND
     agent_type = ? AND conversation_id = ?]. *)
Definition count_turns (db : database) (a : agent) (cid : string) : Z :=
  Z.of_nat (List.length (filter (turn_of (user_id a) (agent_type a) cid) (conversations db))).

(** [load_conversation]: the session afterwards and the boolean returned. *)
Definition load_conversation (a : agent) (db : database) (cid : string)
    : result (agent * bool) :=
  _ <- get_connection db ;;
  try_except_Exception
    (_ <- execute db ;;
     if (0 <? count_turns db a cid)%Z then
       Ret (reset (mkagent (user_id a) (agent_type a) cid (memory a)), true)
     else Ret (a, false))
    (fun _ => Ret (a, false)).

(** [SELECT message_type, content FROM conversations WHERE user_id = ? AND
     agent_type = ? AND conversation_id = ? ORDER BY timestamp DESC LIMIT 20]. *)
Definition recent_turns (db : database) (a : agent) : list conversation_row :=
  firstn 20
    (order_by_desc c_timestamp
       (filter (turn_of (user_id a) (agent_type a) (conversation_id a))
               (conversations db))).

(** The rows whose lines make up the history, oldest first. *)
Definition history_rows (db : database) (a : agent) : list conversation_row :=
  rev (recent_turns db a).

Definition history_line (c : conversation_row) : string :=
  c_message_type c ++ ": " ++ c_content c.

Definition get_history (a : agent) (db : database) : result string :=
  _ <- get_connection db ;;
  try_except_Exception
    (_ <- execute db ;;
     Ret (join newline (map history_line (history_rows db a))))
    (fun _ => Ret "").

(** INSERT INTO conversations (...), the body of [save_message]; a failure
    is printed and swallowed. *)
Definition save_message (a : agent) (db : database) (now : datetime)
    (msg_type text : string) : result database :=
  _ <- get_connection db ;;
  try_except_Exception
    (_ <- execute db ;;
     if user_exists db (user_id a) then
       let id := next_rowid (seq_conversations db) (map c_id (conversations db)) in
       let row := mkconversation id (user_id a) (agent_type a) msg_type text
                                 (isoformat now) (conversation_id a) in
       Ret (with_conversations db (conversations db ++ [row]) id)
     else Raise foreign_key_failed)
    (fun _ => Ret db).

(** The prompt [step] composes from the history and the user's message. *)
Definition full_content (history user_content : string) : string :=
  if String.eqb history "" then user_content
  else "历史对话：" ++ newline ++ history ++ newline ++ "用户现在说：" ++ user_content.

Definition missing (cls : exn_class) (what : string) : exn := Exn cls what.

(** [response.msgs[0].content if hasattr(response, 'msgs') and response.msgs
     else response.content]. *)
Definition original_content (r : response) : result string :=
  match msgs r with
  | Some (m :: _) => Ret (content m)
  | _ =>
      match response_content r with
      | Some c => Ret c
      | None => Raise (missing AttributeError "object has no attribute 'content'")
      end
  end.

(** The same with the handler's last resort '无回复内容'. *)
Definition original_content_or_default (r : response) : string :=
  match msgs r with
  | Some (m :: _) => content m
  | _ =>
      match response_content r with
      | Some c => c
      | None => "无回复内容"
      end
  end.

Section Step.

(** [json.loads] ([None]: JSONDecodeError), [str()] of a decoded value, and
    [ChatAgent.step]: from the memory and the prompt to the new memory and
    a response or an exception. *)
Variable json_loads : string -> option json.
Variable json_str : json -> string.
Variable chat_step :
  list base_message -> base_message -> list base_message * result response.

(** One pass of the loop over the tool results. *)
Definition tool_result_lines (tool_result : string) : result string :=
  match json_loads tool_result with
  | None => Ret ("工具返回: " ++ tool_result ++ newline)
  | Some (JObject data) =>
      let is_success :=
        match lookup "status" data with
        | Some (JString s) => String.eqb s "success"
        | _ => false
        end in
      if is_success then
        let line1 := match lookup "message" data with
                     | Some m => "操作成功: " ++ json_str m ++ newline
                     | None => ""
                     end in
        let line2 := match lookup "warning" data with
                     | Some w => if truthy w then "提醒: " ++ json_str w ++ newline else ""
                     | None => ""
                     end in
        Ret (line1 ++ line2)
      else
        Ret ("操作失败: "
             ++ match lookup "message" data with
                | Some m => json_str m
                | None => "未知错误"
                end ++ newline)
  | Some _ => Raise (missing AttributeError "object has no attribute 'get'")
  end.

Fixpoint tool_results_text (results : list string) : result string :=
  match results with
  | [] => Ret ""
  | r :: tl =>
      line <- tool_result_lines r ;;
      rest <- tool_results_text tl ;;
      Ret (line ++ rest)
  end.

Definition _process_tool_results (r : response) : string :=
  match
    match tool_results r with
    | None => Raise (missing KeyError "'tool_results'")
    | Some [] => original_content r
    | Some results =>
        result_str <- tool_results_text results ;;
        original <- original_content r ;;
        Ret (original ++ newline ++ newline ++ result_str)
    end
  with
  | Ret s => s
  | Raise e =>
      (* except Exception as e *)
      "处理工具结果时出错: " ++ exn_str e ++ newline ++ "原始回复: "
      ++ original_content_or_default r
  end.

(** What [step] returns: a message it built, or the response as it came. *)
Inductive reply :=
| Built (m : base_message)
| Passed (r : response).

(** The body of [step]'s try block, given the response. *)
Definition finish (r : response) : result reply :=
  match tool_calls r with
  | None => Raise (missing KeyError "'tool_calls'")
  | Some [] => Ret (Passed r)
  | Some _ =>
      let final_response := _process_tool_results r in
      match msgs r with
      | None => Raise (missing AttributeError "object has no attribute 'msgs'")
      | Some [] => Raise (missing IndexError "list index out of range")
      | Some (m :: _) =>
          Ret (Built (mkmessage (role_name m) (role_type m) final_response))
      end
  end.

(** The reply of the except branch. *)
Definition fallback (e : exn) : base_message :=
  mkmessage "系统" ASSISTANT
            ("处理请求时出错: " ++ exn_str e ++ "。请尝试重新表述您的问题。").

(** The message [step] sends to the model. *)
Definition prompt (a : agent) (db : database) (user_msg : base_message)
    : result base_message :=
  history <- get_history a db ;;
  Ret (mkmessage (role_name user_msg) USER (full_content history (content user_msg))).

(** The try block of [step]: generation and the handling of its response;
    the memory is what the base class left behind. *)
Definition generate (a : agent) (full_msg : base_message)
    : list base_message * result reply :=
  let '(memory', outcome) := chat_step (memory a) full_msg in
  (memory', r <- outcome ;; finish r).

Definition step (a : agent) (db : database) (user_msg : base_message)
    : result (agent * reply) :=
  full_msg <- prompt a db user_msg ;;
  let '(memory', outcome) := generate a full_msg in
  let a' := mkagent (user_id a) (agent_type a) (conversation_id a) memory' in
  try_except_Exception
    (r <- outcome ;; Ret (a', r))
    (fun e => Ret (a', Built (fallback e))).

End Step.

End Agent.
Import Agent.

(** ** DatabaseManager.ensure_user_exists *)

Module Users.

Definition with_users (db : database) (rows : list user_row) : database :=
  mkdb (db_health db) rows (transactions db) (seq_transactions db)
       (budgets db) (seq_budgets db) (conversations db) (seq_conversations db).

(** The UNIQUE constraint on [users.username]. *)
Definition username_taken (db : database) (username : string) : bool :=
  existsb (fun u => String.eqb (u_username u) username) (users db).

(** The classes under [sqlite3.Error]. *)
Definition is_sqlite_error (e : exn) : bool :=
  match exn_class_of e with
  | OperationalError | IntegrityError => true
  | _ => false
  end.

(** [INSERT OR IGNORE INTO users (id, username, created_at) VALUES (?, ?, ?)]:
    a row that clashes on the primary key or on the username is skipped.
    [except sqlite3.Error] prints, rolls back and returns. *)
Definition ensure_user_exists (db : database) (user_id : Z) (username : string)
    (now : datetime) : result database :=
  _ <- get_connection db ;;
  match
    (_ <- execute db ;;
     if user_exists db user_id || username_taken db username then Ret db
     else Ret (with_users db (users db ++ [mkuser user_id username (isoformat now)])))
  with
  | Ret db' => Ret db'
  | Raise e => if is_sqlite_error e then Ret db else Raise e
  end.

End Users.
Import Users.

(** ** FinanceTools: the queries over transactions and budgets *)

Module Reports.

Local Open Scope string_scope.

(** Python's [if s:] on an optional text argument: None and "" both count
    as not given. *)
Definition given (arg : option string) : option string :=
  match arg with
  | Some s => if String.eqb s "" then None else Some s
  | None => None
  end.

(** A dict with text keys, in insertion order; storing under a key that is
    there replaces its value in place. *)
Fixpoint dict_set {V : Type} (k : string) (v : V) (d : list (string * V))
    : list (string * V) :=
  match d with
  | [] => [(k, v)]
  | (k', v') :: tl =>
      if String.eqb k' k then (k, v) :: tl else (k', v') :: dict_set k v tl
  end.

(** [{row[0]: row[1] for row in rows}]. *)
Definition dict_of_rows {V : Type} (rows : list (string * V)) : list (string * V) :=
  fold_left (fun d row => dict_set (fst row) (snd row) d) rows [].

(** [ORDER BY key DESC] on a numeric key: a stable insertion sort. *)
Fixpoint insert_desc_num {A} (key : A -> Q) (x : A) (l : list A) : list A :=
  match l with
  | [] => [x]
  | y :: tl => if Qle_bool (key y) (key x) then x :: l
               else y :: insert_desc_num key x tl
  end.

Definition order_by_desc_num {A} (key : A -> Q) (l : list A) : list A :=
  fold_right (insert_desc_num key) [] l.

(** *** get_transactions *)

(** One element of the "transactions" list. *)
Record transaction_view := mkview {
  tv_id : Z; tv_amount : Q; tv_category : string; tv_date : string;
  tv_description : string
}.

(** [record[4] or ""]. *)
Definition view (t : transaction_row) : transaction_view :=
  mkview (t_id t) (t_amount t) (t_category t) (t_transaction_date t)
         (match t_description t with Some s => s | None => "" end).

Inductive transactions_reply :=
| TransactionsOk (count : nat) (transactions : list transaction_view)
| TransactionsFailed (reason : string).     (* "查询失败: {str(e)}" *)

(** The WHERE clause the function puts together:
    [user_id = ?], then [AND transaction_date >= ?], [AND transaction_date <= ?]
    and [AND category = ?] for the arguments that are given. *)
Definition listed (user_id : Z) (start_date end_date category : option string)
    (t : transaction_row) : bool :=
  (t_user_id t =? user_id)%Z
  && match given start_date with
     | Some s => text_le s (t_transaction_date t)
     | None => true
     end
  && match given end_date with
     | Some e => text_le (t_transaction_date t) e
     | None => true
     end
  && match given category with
     | Some c => String.eqb (t_category t) c
     | None => true
     end.

Definition get_transactions (db : database) (user_id : Z)
    (start_date end_date category : option string) : result transactions_reply :=
  _ <- get_connection db ;;
  match execute db with
  | Raise e => Ret (TransactionsFailed (exn_str e))
  | Ret _ =>
      let records :=
        order_by_desc t_transaction_date
          (filter (listed user_id start_date end_date category) (transactions db)) in
      let result := map view records in
      Ret (TransactionsOk (List.length result) result)
  end.

(** *** The ordinal of a date and the day of the week *)

(** [_days_before_year], [_days_before_month], [toordinal], [weekday]. *)
Definition days_before_year (y : Z) : Z :=
  let y' := (y - 1)%Z in (y' * 365 + y' / 4 - y' / 100 + y' / 400)%Z.

Definition days_before_month (y m : Z) : Z :=
  (match m with
   | 1 => 0 | 2 => 31 | 3 => 59 | 4 => 90 | 5 => 120 | 6 => 151 | 7 => 181
   | 8 => 212 | 9 => 243 | 10 => 273 | 11 => 304 | _ => 334
   end + (if (2 <? m) && is_leap y then 1 else 0))%Z.

Definition toordinal (d : date) : Z :=
  (days_before_year (year d) + days_before_month (year d) (month d) + day d)%Z.

(** Monday is 0. *)
Definition weekday (d : date) : Z := ((toordinal d + 6) mod 7)%Z.

(** *** get_spending_summary *)

(** The rows the three queries read: [user_id = ? AND amount > 0 AND
    transaction_date BETWEEN ? AND ?], and the same with [amount < 0]. *)
Definition income_row (user_id : Z) (start_date end_date : string)
    (t : transaction_row) : bool :=
  (t_user_id t =? user_id)%Z && Qgtb (t_amount t) 0
  && text_between (t_transaction_date t) start_date end_date.

Definition expense_row (user_id : Z) (start_date end_date : string)
    (t : transaction_row) : bool :=
  (t_user_id t =? user_id)%Z && Qgtb 0 (t_amount t)
  && text_between (t_transaction_date t) start_date end_date.

(** [SUM(amount)] ... [or 0]. *)
Definition sum_amount (rows : list transaction_row) : Q :=
  fold_right (fun t acc => t_amount t + acc)%Q 0%Q rows.

(** [SELECT category, SUM(ABS(amount)) ... GROUP BY category
     ORDER BY SUM(ABS(amount)) DESC]. *)
Definition expenses_by_category (rows : list transaction_row) : list (string * Q) :=
  order_by_desc_num snd
    (map (fun c => (c, sum_abs (filter (fun t => String.eqb (t_category t) c) rows)))
         (nodup string_dec (map t_category rows))).

(** The date range of the summary. *)
Definition summary_window (today : date) (period : string)
    : result (string * string) :=
  if String.eqb period "month" then
    first <- replace_day today 1 ;;
    Ret (strftime_ymd first, strftime_ymd today)
  else if String.eqb period "week" then
    monday <- sub_days today (Z.to_nat (weekday today)) ;;
    Ret (strftime_ymd monday, strftime_ymd today)
  else
    first <- replace_month_day today 1 1 ;;
    Ret (strftime_ymd first, strftime_ymd today).

Record summary := mksummary {
  sm_period : string;
  sm_start_date : string;
  sm_end_date : string;
  sm_total_income : Q;
  sm_total_expense : Q;
  sm_balance : Q;
  sm_by_category : list (string * Q)
}.

Inductive summary_reply :=
| SummaryOk (s : summary)
| SummaryDateError (reason : string)      (* "日期计算错误: {str(e)}" *)
| SummaryFailed (reason : string).        (* "获取支出汇总失败: {str(e)}" *)

Definition get_spending_summary (db : database) (user_id : Z) (today : datetime)
    (period : string) : result summary_reply :=
  match summary_window (dt_date today) period with
  | Raise e => Ret (SummaryDateError (exn_str e))
  | Ret (start_date, end_date) =>
      _ <- get_connection db ;;
      match execute db with
      | Raise e => Ret (SummaryFailed (exn_str e))
      | Ret _ =>
          let total_income :=
            sum_amount (filter (income_row user_id start_date end_date)
                               (transactions db)) in
          let expenses :=
            filter (expense_row user_id start_date end_date) (transactions db) in
          let total_expense := sum_abs expenses in
          let by_category := dict_of_rows (expenses_by_category expenses) in
          Ret (SummaryOk (mksummary period start_date end_date total_income
                            total_expense (total_income - total_expense)%Q
                            by_category))
      end
  end.

(** *** get_budget_status *)

(** [strftime("%Y-%m")]. *)
Definition strftime_ym (d : date) : string :=
  pad4 (year d) ++ "-" ++ pad2 (month d).

(** An entry of "budget_status"; the percentage is
    [(spent / budget) * 100 if budget > 0 else 0]. *)
Record budget_entry := mkentry {
  be_budget : Q; be_spent : Q; be_remaining : Q; be_percentage : Q
}.

Inductive budget_status_reply :=
| BudgetStatusOk (month : string) (budget_status : list (string * budget_entry))
| BudgetStatusFailed (reason : string).   (* "获取预算状态失败: {str(e)}" *)

(** [SELECT category, amount FROM budgets WHERE user_id = ? AND
     period_type = '月' AND period_start <= ? AND period_end >= ?]. *)
Definition month_budget_row (user_id : Z) (month_start month_end : string)
    (b : budget_row) : bool :=
  (b_user_id b =? user_id)%Z && String.eqb (b_period_type b) "月"
  && text_le (b_period_start b) month_start
  && text_le month_end (b_period_end b).

(** One pass of the loop over [budgets.items()]; storing the entry under
    the category keeps the order of the keys. *)
Definition status_entry (db : database) (user_id : Z) (month_start month_end : string)
    (item : string * Q) : string * budget_entry :=
  let '(category, budget) := item in
  let spent := month_spent db user_id category month_start month_end in
  (category,
   mkentry budget spent (budget - spent)%Q (usage_percentage spent budget)).

Definition get_budget_status (db : database) (user_id : Z) (today : datetime)
    : result budget_status_reply :=
  first <- replace_day (dt_date today) 1 ;;
  let month_start := strftime_ymd first in
  let month_end := strftime_ymd (dt_date today) in
  _ <- get_connection db ;;
  match execute db with
  | Raise e => Ret (BudgetStatusFailed (exn_str e))
  | Ret _ =>
      let budgets :=
        dict_of_rows
          (map (fun b => (b_category b, b_amount b))
               (filter (month_budget_row user_id month_start month_end) (budgets db))) in
      let budget_status :=
        dict_of_rows (map (status_entry db user_id month_start month_end) budgets) in
      Ret (BudgetStatusOk (strftime_ym (dt_date today)) budget_status)
  end.

End Reports.
Import Reports.

(** ** FinanceInterface *)

Module Interface.

Local Open Scope string_scope.

(** [ORDER BY key ASC]: a stable insertion sort, smallest key first. *)
Fixpoint insert_asc {A} (key : A -> string) (x : A) (l : list A) : list A :=
  match l with
  | [] => [x]
  | y :: tl => if text_le (key x) (key y) then x :: l
               else y :: insert_asc key x tl
  end.

Definition order_by_asc {A} (key : A -> string) (l : list A) : list A :=
  fold_right (insert_asc key) [] l.

(** An entry of the transcript the chat window shows:
    [{"role": ..., "content": ...}]. *)
Record chat_entry := mkchat { ce_role : string; ce_content : string }.

(** The loop over [(content, msg_type)] of the history loaders. *)
Definition transcript_entry (c : conversation_row) : chat_entry :=
  if String.eqb (c_message_type c) "user" then mkchat "user" (c_content c)
  else mkchat "assistant" (c_content c).

(** [SELECT content, message_type FROM conversations WHERE user_id = ? AND
     agent_type = '...' AND conversation_id = ? ORDER BY timestamp ASC]. *)
Definition transcript_rows (db : database) (user_id : Z) (label cid : string)
    : list conversation_row :=
  order_by_asc c_timestamp (filter (turn_of user_id label cid) (conversations db)).

(** [_load_recorder_history] and its three siblings: they differ in the
    agent they read the conversation identifier from and in the agent type
    [label] written in the query.  The connection is opened inside the try
    block, so every failure gives the empty transcript. *)
Definition _load_history (user_id : Z) (label : string) (a : agent) (db : database)
    : list chat_entry :=
  match (_ <- get_connection db ;;
         _ <- execute db ;;
         Ret (map transcript_entry
                  (transcript_rows db user_id label (conversation_id a))))
  with
  | Ret history => history
  | Raise _ => []
  end.

Section Window.

Variable display_time : string -> string.
Variable json_loads : string -> option json.
Variable json_str : json -> string.
Variable chat_step :
  list base_message -> base_message -> list base_message * result response.

(** [_refresh_recorder_conversations] and its siblings: the choices of the
    picker. *)
Definition _refresh_conversations (user_id : Z) (label : string) (db : database)
    : result (list (string * string)) :=
  get_conversation_list display_time db user_id label.

(** The loop that looks the selected display name up in the list. *)
Definition selected_id (selected_conv : string) (conv_list : list (string * string))
    : option string :=
  option_map snd (find (fun conv => String.eqb (fst conv) selected_conv) conv_list).

(** [_load_selected_recorder_conversation] and its siblings: the session
    afterwards and the transcript shown. *)
Definition _load_selected_conversation (user_id : Z) (label : string) (a : agent)
    (db : database) (selected_conv : option string)
    : result (agent * list chat_entry) :=
  match given selected_conv with
  | None => Ret (a, [])
  | Some selected =>
      conv_list <- get_conversation_list display_time db user_id label ;;
      match given (selected_id selected conv_list) with
      | None => Ret (a, [])
      | Some conv_id =>
          loaded <- load_conversation a db conv_id ;;
          let '(a', found) := loaded in
          if found then Ret (a', _load_history user_id label a' db)
          else Ret (a', [])
      end
  end.

(** [_clear_recorder_history] and its siblings: the session afterwards
    (the new identifier is set before the list is read) and the empty
    transcript with the refreshed choices. *)
Definition _clear_history (user_id : Z) (label : string) (a : agent)
    (db : database) (now : datetime) (random : list Byte.byte)
    : agent * result (list chat_entry * list (string * string)) :=
  let a' := new_conversation a now random in
  (a', conv_list <- _refresh_conversations user_id label db ;; Ret ([], conv_list)).

(** [response.msgs[0].content if hasattr(response, 'msgs') and
     response.msgs else response.content] on what [step] returned: a
    message has no [msgs]. *)
Definition bot_reply_of (r : reply) : result string :=
  match r with
  | Built m => Ret (content m)
  | Passed r => original_content r
  end.

(** The two entries a handler appends. *)
Definition exchange (message answer : string) : list chat_entry :=
  [mkchat "user" message; mkchat "assistant" answer].

Definition error_msg (e : exn) : string := "处理消息时出错: " ++ exn_str e.

(** [_handle_recorder_chat] and its siblings: the session and the store
    afterwards, and the pair returned (the transcript and the cleared input
    box).  [now1] and [now2] are the clock readings of the two
    [save_message] calls.  Whatever the try block raises, the user's message
    and the error text are appended. *)
Definition _handle_chat (a : agent) (db : database) (now1 now2 : datetime)
    (message : string) (chat_history : list chat_entry)
    : agent * database * (list chat_entry * string) :=
  if String.eqb message "" then (a, db, (chat_history, ""))
  else
    match save_message a db now1 "user" message with
    | Raise e => (a, db, ((chat_history ++ exchange message (error_msg e))%list, ""))
    | Ret db1 =>
        let user_msg := mkmessage "用户" USER message in
        match step json_loads json_str chat_step a db1 user_msg with
        | Raise e =>
            (a, db1, ((chat_history ++ exchange message (error_msg e))%list, ""))
        | Ret (a1, response) =>
            match bot_reply_of response with
            | Raise e =>
                (a1, db1, ((chat_history ++ exchange message (error_msg e))%list, ""))
            | Ret bot_reply =>
                match save_message a1 db1 now2 "assistant" bot_reply with
                | Raise e =>
                    (a1, db1,
                     ((chat_history ++ exchange message (error_msg e))%list, ""))
                | Ret db2 =>
                    (a1, db2,
                     ((chat_history ++ exchange message bot_reply)%list, ""))
                end
            end
        end
    end.

End Window.

End Interface.
Import Interface.

(** ** Saving tips *)

Module Advice.

Local Open Scope string_scope.

(** A row of the table [saving_tips]; the store keeps the table and its
    AUTOINCREMENT counter beside the other tables. *)
Record tip_row := mktip {
  tip_id : Z; tip_category : string; tip_text : string;
  tip_difficulty : string; tip_estimated_saving : Q
}.

Record tips_table := mktips { tips : list tip_row; seq_tips : Z }.

(** [default_tips] of [_initialize_db]. *)
Definition default_tips : list (string * string * string * Q) :=
  [ ("餐饮", "自带午餐代替外卖，每周可省100-150元", "简单", 120);
    ("交通", "使用共享单车或步行代替短途打车", "简单", 80);
    ("购物", "加入收藏夹，24小时后再决定是否购买", "中等", 200);
    ("娱乐", "利用图书馆、公园等免费资源", "简单", 150);
    ("通讯", "检查并取消不必要的订阅服务", "简单", 50) ]%Q.

(** [INSERT OR IGNORE INTO saving_tips (category, tip, difficulty,
     estimated_saving) VALUES (?, ?, ?, ?)]: the table has no constraint but
    its AUTOINCREMENT key, which the statement leaves to the table, so no
    row is ever ignored. *)
Definition insert_tip (t : tips_table) (values : string * string * string * Q)
    : tips_table :=
  let '(category, tip, difficulty, estimated_saving) := values in
  let id := next_rowid (seq_tips t) (map tip_id (tips t)) in
  mktips (tips t ++ [mktip id category tip difficulty estimated_saving]) id.

(** [_initialize_db] on a store whose tables exist with the columns of this
    version: the CREATE TABLE IF NOT EXISTS statements and the check of the
    [conversation_id] column change nothing, and [executemany] adds the
    default tips.  Nothing is caught: a failure leaves the call before the
    commit. *)
Definition _initialize_db (db : database) (t : tips_table)
    : result (database * tips_table) :=
  _ <- get_connection db ;;
  _ <- execute db ;;
  Ret (db, fold_left insert_tip default_tips t).

(** What [get_saving_tips] returns for a tip. *)
Record tip := mkadvice {
  ad_category : string; ad_tip : string; ad_difficulty : string;
  ad_estimated_saving : Q
}.

Definition tip_of_row (r : tip_row) : tip :=
  mkadvice (tip_category r) (tip_text r) (tip_difficulty r) (tip_estimated_saving r).

Inductive tips_reply :=
| TipsOk (result : list tip)
| TipsFailed (reason : string).          (* "获取省钱建议失败: {str(e)}" *)

(** [WHERE 1=1], with [AND category = ?] and [AND difficulty = ?] for the
    arguments that are given. *)
Definition tip_matches (category difficulty : option string) (r : tip_row) : bool :=
  match given category with
  | Some c => String.eqb (tip_category r) c
  | None => true
  end
  && match given difficulty with
     | Some d => String.eqb (tip_difficulty r) d
     | None => true
     end.

(** Python's [key in item] on texts. *)
Fixpoint contains (needle hay : string) : bool :=
  if String.prefix needle hay then true
  else match hay with
       | EmptyString => false
       | String _ rest => contains needle rest
       end.

(** [category_map], in the order of its keys. *)
Definition category_map : list (string * string) :=
  [ ("衣服", "购物"); ("鞋子", "购物"); ("手机", "购物"); ("电脑", "购物");
    ("外卖", "餐饮"); ("餐厅", "餐饮"); ("电影", "娱乐"); ("打车", "交通") ].

(** The loop that settles the category of an item. *)
Definition category_of_item (item : string) : string :=
  match find (fun entry => contains (fst entry) item) category_map with
  | Some entry => snd entry
  | None => "其他"
  end.

(** The suggestions of [get_alternative_suggestion]: the text of a tip, or
    one of the two general ones with the value it interpolates. *)
Inductive suggestion :=
| TipText (text : string)
| SecondHand (item : string)   (* "考虑购买二手或翻新的{item}，通常可节省30%-50%" *)
| PriceAlert (price : Q).      (* "设置{estimated_price*0.8}元的价格提醒，等待促销活动" *)

Record alternatives := mkalternatives {
  al_item : string; al_estimated_price : Q; al_suggestions : list suggestion
}.

Section Random.

(** [ORDER BY RANDOM()]: the order the query puts the matching rows in. *)
Variable random_order : list tip_row -> list tip_row.

Definition get_saving_tips (db : database) (t : tips_table)
    (category difficulty : option string) : result tips_reply :=
  _ <- get_connection db ;;
  match execute db with
  | Raise e => Ret (TipsFailed (exn_str e))
  | Ret _ =>
      let rows := firstn 3 (random_order (filter (tip_matches category difficulty)
                                                 (tips t))) in
      Ret (TipsOk (map tip_of_row rows))
  end.

(** [get_alternative_suggestion]; the bare [except] around the call of
    [get_saving_tips] turns every failure into an empty list of tips, and
    nothing after it can fail. *)
Definition get_alternative_suggestion (db : database) (t : tips_table)
    (item : string) (estimated_price : Q) : alternatives :=
  let category := category_of_item item in
  let tips :=
    match get_saving_tips db t (Some category) None with
    | Ret (TipsOk result) => result
    | Ret (TipsFailed _) => []
    | Raise _ => []
    end in
  let suggestions :=
    (map (fun tip => TipText (ad_tip tip)) tips
     ++ (if Qgtb estimated_price 100 then [SecondHand item] else [])
     ++ [PriceAlert (estimated_price * (8 # 10))%Q])%list in
  mkalternatives item estimated_price (firstn 3 suggestions).

End Random.

End Advice.
Import Advice.

(** ** Financial planning *)

Module Planning.

Local Open Scope string_scope.

(** The branches on [monthly_savings] and [savings_rate]: the health
    status and the savings rate reported. *)
Definition savings_rate_of (monthly_income monthly_savings : Q) : Q :=
  if Qgtb monthly_savings 0 then
    if Qgtb monthly_income 0 then ((monthly_savings / monthly_income) * 100)%Q
    else 0%Q
  else 0%Q.

Definition health_status_of (monthly_income monthly_savings : Q) : string :=
  if Qgtb monthly_savings 0 then
    let savings_rate := savings_rate_of monthly_income monthly_savings in
    if Qgtb savings_rate 20 then "优秀"
    else if Qgtb savings_rate 10 then "良好"
    else "一般"
  else "需要改善".

Definition _generate_financial_recommendations (goal_type : string)
    (monthly_savings savings_rate : Q) : list string :=
  ((if Qgtb 10 savings_rate
    then ["建议控制每月支出，目标储蓄率应达到10%以上";
          "可以考虑减少非必要支出，如娱乐、购物等"]
    else [])
   ++ (if String.eqb goal_type "saving" && Qgtb 1000 monthly_savings
       then ["每月储蓄金额较低，建议制定具体的储蓄计划"]
       else if String.eqb goal_type "investment" && Qgtb 15 savings_rate
       then ["投资前建议先建立3-6个月的应急基金"]
       else if String.eqb goal_type "purchase"
       then if Qgtb 500 monthly_savings
            then ["大额消费前建议先积累一定的储蓄"]
            else ["当前储蓄能力可以支持合理的消费计划"]
       else []))%list.

Record analysis := mkanalysis {
  an_analysis_period : string;
  an_monthly_income : Q;
  an_monthly_expense : Q;
  an_monthly_savings : Q;
  an_savings_rate : Q;
  an_financial_health : string;
  an_expense_by_category : list (string * Q);
  an_recommendations : list string
}.

Inductive analysis_reply :=
| AnalysisOk (a : analysis)
| AnalysisFailed (reason : string).      (* "财务能力分析失败: {str(e)}" *)

(** A recommendation of [get_goal_recommendations], named by its "type";
    the investment one carries its amount, [current_savings * 0.5]. *)
Inductive goal_recommendation :=
| EmergencyFund       (* "建立应急基金", amount 10000, priority "高" *)
| DebtRepayment       (* "偿还高息债务", amount 0, priority "高" *)
| Investment (amount : Q).  (* "开始投资", priority "中" *)

Record goal_advice := mkgoaladvice {
  ga_recommendations : list goal_recommendation;
  ga_current_savings : Q
}.

Section Rounding.

(** Python's [round(x, 2)]. *)
Variable round2 : Q -> Q.

(** The totals of the last 90 days, the monthly means and the verdict. *)
Definition analyze_financial_capacity (db : database) (user_id : Z)
    (today : datetime) (goal_type : string) : result analysis_reply :=
  _ <- get_connection db ;;
  match
    (ago <- sub_days (dt_date today) 90 ;;
     let three_months_ago := strftime_ymd ago in
     let today_text := strftime_ymd (dt_date today) in
     _ <- execute db ;;
     let total_income :=
       sum_amount (filter (income_row user_id three_months_ago today_text)
                          (transactions db)) in
     let expenses :=
       filter (expense_row user_id three_months_ago today_text) (transactions db) in
     let total_expense := sum_abs expenses in
     let monthly_income := if Qgtb total_income 0 then (total_income / 3)%Q else 0%Q in
     let monthly_expense := if Qgtb total_expense 0 then (total_expense / 3)%Q else 0%Q in
     let monthly_savings := (monthly_income - monthly_expense)%Q in
     let expense_by_category := dict_of_rows (expenses_by_category expenses) in
     let savings_rate := savings_rate_of monthly_income monthly_savings in
     let health_status := health_status_of monthly_income monthly_savings in
     Ret (mkanalysis "最近3个月" (round2 monthly_income) (round2 monthly_expense)
            (round2 monthly_savings) (round2 savings_rate) health_status
            expense_by_category
            (_generate_financial_recommendations goal_type monthly_savings
                                                 savings_rate)))
  with
  | Ret a => Ret (AnalysisOk a)
  | Raise e => Ret (AnalysisFailed (exn_str e))
  end.

(** [get_goal_recommendations]; without an argument the savings are three
    times the "monthly_savings" of the analysis, 0 when the analysis
    answered with an error. *)
Definition get_goal_recommendations (db : database) (user_id : Z)
    (today : datetime) (current_savings : option Q) : result goal_advice :=
  current <- match current_savings with
             | Some c => Ret c
             | None =>
                 capacity <- analyze_financial_capacity db user_id today "general" ;;
                 Ret (match capacity with
                      | AnalysisOk a => an_monthly_savings a
                      | AnalysisFailed _ => 0%Q
                      end * 3)%Q
             end ;;
  Ret (mkgoaladvice
         [if Qgtb 3000 current then EmergencyFund
          else if Qgtb 10000 current then DebtRepayment
          else Investment (current * (5 # 10))%Q]
         current).

End Rounding.

End Planning.
Import Planning.

(** ** Vocabulary of the statements *)

Module Vocabulary.

(** The integers lo, lo+1, ..., lo+n-1: finite checks run over them. *)
Definition Zrange (lo : Z) (n : nat) : list Z :=
  map (fun i => lo + Z.of_nat i) (seq 0 n).

(** The month after (y, m), when [datetime] has one. *)
Definition has_next_month (y m : Z) : bool := (m <? 12) || (y <? MAXYEAR).

Definition next_month (y m : Z) : Z * Z :=
  if m <? 12 then (y, m + 1) else (y + 1, 1).

(** A date the program can meet in practice: valid, rendered with a
    four-digit year, and with a following month inside [datetime]'s range
    (every date from 1000-01-01 to 9999-11-30). *)
Definition ordinary_date (d : date) : bool :=
  valid_dateb d && (1000 <=? year d) && has_next_month (year d) (month d).

Definition first_of_month (d : date) : date := mkdate (year d) (month d) 1.

Definition last_of_month (d : date) : date :=
  mkdate (year d) (month d) (days_in_month (year d) (month d)).

Local Open Scope string_scope.

(** The row a successful [set_budget] leaves in the table. *)
Definition upserted_row (db : database) (user_id : Z) (now : datetime)
    (category : string) (amount : Q) (period_type ps pe : string) : budget_row :=
  mkbudget
    (match select_budget_id db user_id category ps pe with
     | Some i => i
     | None => next_rowid (seq_budgets db) (map b_id (budgets db))
     end)
    user_id category amount period_type ps pe
    (match select_budget_created_at db user_id category ps pe with
     | Some c => c
     | None => isoformat now
     end)
    (isoformat now).

(** The check that rendering a month and a day and parsing them back
    gives the same numbers. *)
Definition month_day_roundtrip (m dd : Z) : bool :=
  match parse_month_day (list_ascii_of_string (pad2 m ++ "-" ++ pad2 dd)) with
  | Some (m', dd') => (m' =? m)%Z && (dd' =? dd)%Z
  | None => false
  end.

(** The check that two-digit renderings compare as their numbers do. *)
Definition pad2_ordered (a b : Z) : bool :=
  (b <? a)%Z || text_le (pad2 a) (pad2 b).


(** The month-to-date spend the check computes for a date [d]. *)
Definition spent_in_month (db : database) (user_id : Z) (category : string)
    (d : date) : Q :=
  month_spent db user_id category (strftime_ymd (first_of_month d))
              (strftime_ymd (last_of_month d)).


(** Ordering by a text key, as the statements read it. *)
Definition descending {A} (key : A -> string) (x y : A) : Prop :=
  text_le (key y) (key x) = true.

Definition ascending {A} (key : A -> string) (x y : A) : Prop :=
  text_le (key x) (key y) = true.

(** The persisted turns of a conversation of a (user, agent type) pair,
    and the timestamp of the most recent of them. *)
Definition turns_of (db : database) (user_id : Z) (agent_type cid : string)
    : list conversation_row :=
  filter (turn_of user_id agent_type cid) (conversations db).

Definition latest_turn (db : database) (user_id : Z) (agent_type cid : string)
    : string :=
  text_max (map c_timestamp (turns_of db user_id agent_type cid)).

(** A reading of a real clock: a valid datetime whose year is rendered
    with four digits. *)
Definition clock_reading (t : datetime) : bool :=
  valid_datetimeb t && (1000 <=? year (dt_date t))%Z.

(** Two readings that fall in the same second. *)
Definition same_second (t1 t2 : datetime) : Prop :=
  dt_date t1 = dt_date t2 /\ hour t1 = hour t2 /\ minute t1 = minute t2
  /\ second t1 = second t2.

(** The claim that two successive new conversations always get distinct
    identifiers, whatever the clock and [os.urandom] return. *)
Definition successive_ids_always_distinct : Prop :=
  forall (a : agent) (now1 now2 : datetime) (r1 r2 : list Byte.byte),
    clock_reading now1 = true -> clock_reading now2 = true ->
    List.length r1 = 4%nat -> List.length r2 = 4%nat ->
    conversation_id (new_conversation a now1 r1)
    <> conversation_id (new_conversation (new_conversation a now1 r1) now2 r2).

End Vocabulary.
Import Vocabulary.

(** ** Scenarios: concrete stores, clocks and generators *)

Module Scenarios.

Local Open Scope string_scope.

(** A store with one user and nothing else, and a clock reading. *)
Definition one_user_db : database :=
  mkdb Healthy [mkuser 1 "default_user" "2024-01-01T09:00:00"] [] 0 [] 0 [] 0.

Definition may_20 : datetime := mkdatetime (mkdate 2024 5 20) 10 30 0 0.

Definition feb_10 : datetime := mkdatetime (mkdate 2024 2 10) 8 15 30 250000.

(** Stores for the budget check: user 1 with a month budget for "餐饮"
    covering May 2024, of 500 with 470 already spent that month (and some
    rows the month query has to leave out), and of 0 with nothing spent. *)
Definition may_budget (amount : Q) : budget_row :=
  mkbudget 1 1 "餐饮" amount "月" "2024-05-01" "2024-05-31"
           "2024-04-28T09:00:00" "2024-04-28T09:00:00".

Definition spent_470_db : database :=
  mkdb Healthy [mkuser 1 "default_user" "2024-01-01T09:00:00"]
       [ mktransaction 1 1 (-300) "餐饮" "2024-05-03" None "2024-05-03T12:00:00";
         mktransaction 2 1 (-80) "交通" "2024-05-04" None "2024-05-04T08:00:00";
         mktransaction 3 1 (-170) "餐饮" "2024-05-11" (Some "聚餐") "2024-05-11T20:00:00";
         mktransaction 4 1 (-60) "餐饮" "2024-04-30" None "2024-04-30T19:00:00";
         mktransaction 5 1 8000 "餐饮" "2024-05-15" (Some "报销") "2024-05-15T10:00:00" ]
       5 [may_budget 500] 1 [] 0.

Definition nothing_spent_db (budget_amount : Q) : database :=
  mkdb Healthy [mkuser 1 "default_user" "2024-01-01T09:00:00"] [] 0
       [may_budget budget_amount] 1 [] 0.

(** A store with turns of three conversations of user 1 and agent "小账"
    (one of them with two turns), a turn of another agent and a turn of
    another user; and a session of user 1 with agent "小账". *)
Definition chat_db (h : health) : database :=
  mkdb h [mkuser 1 "default_user" "2024-01-01T09:00:00"; mkuser 2 "other" "2024-01-02T09:00:00"]
       [] 0 [] 0
       [ mkconversation 1 1 "小账" "user" "午饭35元" "2024-05-01T12:00:00.000100" "c-a";
         mkconversation 2 1 "小账" "assistant" "已记录" "2024-05-01T12:00:02.500000" "c-a";
         mkconversation 3 1 "小账" "user" "打车20元" "2024-05-03T08:00:00.000100" "c-b";
         mkconversation 4 1 "明查" "user" "本月花了多少" "2024-05-04T08:00:00.000100" "c-x";
         mkconversation 5 2 "小账" "user" "你好" "2024-05-05T08:00:00.000100" "c-z";
         mkconversation 6 1 "小账" "user" "晚饭50元" "2024-05-02T19:00:00.000100" "c-c" ]
       6.

Definition recorder (cid : string) : agent := mkagent 1 "小账" cid [].

(** A store with 25 turns of conversation "c-long", written one second
    apart, stored latest first. *)
Definition long_chat_db : database :=
  mkdb Healthy [mkuser 1 "default_user" "2024-01-01T09:00:00"] [] 0 [] 0
       (map (fun i => mkconversation (26 - i) 1 "小账" "user" (pad2 (26 - i))
                        (isoformat (mkdatetime (mkdate 2024 5 1) 10 0 (26 - i) 0))
                        "c-long")
            (Zrange 1 25))
       25.

(** Generators for the examples: a model that fails, and responses of
    several shapes. *)
Definition failing_model (mem : list base_message) (m : base_message)
    : list base_message * result response :=
  ((mem ++ [m])%list, Raise (Exn ModelError "Connection error."))%type.

Definition answering_model (r : response) (mem : list base_message)
    (m : base_message) : list base_message * result response :=
  ((mem ++ [m])%list, Ret r).

Definition no_json (s : string) : option json := None.

Definition envelope_json (s : string) : option json :=
  if String.eqb s "ok"
  then Some (JObject [("status", JString "success"); ("message", JString "已记录支出: 35元");
                      ("record_id", JNumber 6); ("warning", JNull)])
  else if String.eqb s "bad"
  then Some (JObject [("status", JString "error"); ("message", JString "记录失败")])
  else if String.eqb s "list" then Some (JArray [])
  else None.

Definition json_text (j : json) : string :=
  match j with
  | JString s => s
  | _ => "?"
  end.

Definition assistant_says (text : string) : base_message :=
  mkmessage "理财记录员 小账" ASSISTANT text.

End Scenarios.
Import Scenarios.

(** ** More vocabulary *)

Module MoreVocabulary.

Local Open Scope string_scope.

(** A text made of ASCII characters only (the input [strptime_ymd] is a
    model of [strptime] for). *)
Definition ascii_text (s : string) : bool :=
  forallb (fun c => (N_of_ascii c <? 128)%N) (list_ascii_of_string s).

(** The sum of the values of a dict, and the sum of a quantity over a list
    of keys. *)
Definition sum_values {K : Type} (d : list (K * Q)) : Q :=
  fold_right (fun kv acc => snd kv + acc)%Q 0%Q d.

Definition sum_over {K : Type} (g : K -> Q) (keys : list K) : Q :=
  fold_right (fun k acc => g k + acc)%Q 0%Q keys.

(** Largest amount first. *)
Definition amount_descending {K : Type} (a b : K * Q) : Prop := (snd b <= snd a)%Q.

(** The row a successful [save_message] adds. *)
Definition saved_row (db : database) (a : agent) (now : datetime)
    (msg_type text : string) : conversation_row :=
  mkconversation (next_rowid (seq_conversations db) (map c_id (conversations db)))
                 (user_id a) (agent_type a) msg_type text (isoformat now)
                 (conversation_id a).

(** A timestamp later than those of all the rows, and one that is not
    earlier than any of them. *)
Definition later_than_all (stamp : string) (rows : list conversation_row) : bool :=
  forallb (fun c => negb (text_le stamp (c_timestamp c))) rows.

Definition not_before_any (stamp : string) (rows : list conversation_row) : bool :=
  forallb (fun c => text_le (c_timestamp c) stamp) rows.

(** A decoded document that is a JSON object (a Python dict). *)
Definition is_object (j : json) : bool :=
  match j with
  | JObject _ => true
  | _ => false
  end.

(** What [get_saving_tips] would show for a default tip. *)
Definition default_tip (values : string * string * string * Q) : tip :=
  let '(category, text, difficulty, estimated_saving) := values in
  mkadvice category text difficulty estimated_saving.

Definition tip_dec (a b : tip) : {a = b} + {a <> b}.
Proof.
  decide equality; try apply string_dec.
  decide equality; [apply Pos.eq_dec|apply Z.eq_dec].
Defined.

(** How many rows of the table show as the tip [d]. *)
Definition copies (d : tip) (t : tips_table) : nat :=
  count_occ tip_dec (map tip_of_row (tips t)) d.

(** The program started [n] times on the same store. *)
Fixpoint restarted (n : nat) (db : database) (t : tips_table) : result tips_table :=
  match n with
  | O => Ret t
  | S n' =>
      started <- _initialize_db db t ;;
      restarted n' (fst started) (snd started)
  end.

(** The stored tips of a category the tools can reach: none when the store
    does not answer. *)
Definition reachable_tips (db : database) (t : tips_table) (category : string) : nat :=
  match db_health db with
  | Healthy =>
      List.length (filter (fun r => String.eqb (tip_category r) category) (tips t))
  | _ => 0
  end.

(** The income and the expense of a user between two dates, as the
    analysis adds them up. *)
Definition income_between (db : database) (user_id : Z) (start_date end_date : string)
    : Q :=
  sum_amount (filter (income_row user_id start_date end_date) (transactions db)).

Definition expense_between (db : database) (user_id : Z) (start_date end_date : string)
    : Q :=
  sum_abs (filter (expense_row user_id start_date end_date) (transactions db)).

(** The monthly means of the analysis. *)
Definition monthly_mean (total : Q) : Q :=
  if Qgtb total 0 then (total / 3)%Q else 0%Q.

(** The first of the two recommendations made for a low savings rate. *)
Definition spending_advice : string := "建议控制每月支出，目标储蓄率应达到10%以上".

End MoreVocabulary.
Import MoreVocabulary.

(** ** More scenarios *)

Module MoreScenarios.

Local Open Scope string_scope.

(** A store without any user, and one whose only user holds the default
    username under another id. *)
Definition no_user_db : database := mkdb Healthy [] [] 0 [] 0 [] 0.

Definition name_taken_db : database :=
  mkdb Healthy [mkuser 7 "default_user" "2023-12-31T23:00:00"] [] 0 [] 0 [] 0.

(** The display time of a timestamp written by [isoformat]: its date and
    its hour and minute. *)
Definition minute_of (stamp : string) : string :=
  substring 0 10 stamp ++ " " ++ substring 11 5 stamp.

(** A store with two conversations of user 1 and agent "小账" whose last
    turns were written within the same minute. *)
Definition same_minute_db : database :=
  mkdb Healthy [mkuser 1 "default_user" "2024-01-01T09:00:00"] [] 0 [] 0
       [ mkconversation 1 1 "小账" "user" "午饭35元" "2024-05-01T12:00:05.000100" "c-1";
         mkconversation 2 1 "小账" "user" "打车20元" "2024-05-01T12:00:40.000100" "c-2" ]
       2.

(** The tips table after the first start, and after the second. *)
Definition empty_tips : tips_table := mktips [] 0.

Definition tips_after_one_start : tips_table :=
  fold_left insert_tip default_tips empty_tips.

Definition tips_after_two_starts : tips_table :=
  fold_left insert_tip default_tips tips_after_one_start.

(** Orders for the examples: the table's own, and the reverse. *)
Definition table_order (rows : list tip_row) : list tip_row := rows.

(** A store with the income and the expenses of spring 2024 of user 1: an
    income of 9000 and expenses of 7500 within the 90 days before May 20. *)
Definition spring_db : database :=
  mkdb Healthy [mkuser 1 "default_user" "2024-01-01T09:00:00"]
       [ mktransaction 1 1 3000 "工资" "2024-03-05" None "2024-03-05T09:00:00";
         mktransaction 2 1 (-2500) "房租" "2024-03-06" None "2024-03-06T09:00:00";
         mktransaction 3 1 3000 "工资" "2024-04-05" None "2024-04-05T09:00:00";
         mktransaction 4 1 (-2500) "房租" "2024-04-06" None "2024-04-06T09:00:00";
         mktransaction 5 1 3000 "工资" "2024-05-05" None "2024-05-05T09:00:00";
         mktransaction 6 1 (-2500) "房租" "2024-05-06" None "2024-05-06T09:00:00";
         mktransaction 7 1 (-9000) "旅行" "2024-01-06" None "2024-01-06T09:00:00" ]
       7 [] 0 [] 0.

(** A rounding for the examples, exact on amounts with two decimals. *)
Definition keep (x : Q) : Q := x.

End MoreScenarios.
Import MoreScenarios.

(** ** Whole amounts and binary64 *)

Module Exactness.

Local Open Scope string_scope.

(** The program holds amounts as binary64 values (Python float, SQLite
    REAL); the model holds rationals.  The two agree on whole numbers of
    magnitude below 2^50: binary64 represents them, adds and subtracts them
    without rounding while the results stay in that range, and compares
    them as they are.  The statements whose truth rests on a sum, a
    difference or a threshold are made for such amounts. *)
Definition whole (q : Q) : bool :=
  (Qden (Qred q) =? 1)%positive && (Z.abs (Qnum (Qred q)) <? 2 ^ 50)%Z.

(** Rows whose amounts are whole and stay whole when added up. *)
Definition whole_rows (rows : list transaction_row) : bool :=
  forallb (fun t => whole (t_amount t)) rows && whole (sum_abs rows).

(** The rows of a user dated between two dates. *)
Definition rows_between (db : database) (user_id : Z) (start_date end_date : string)
    : list transaction_row :=
  filter (fun t => (t_user_id t =? user_id)%Z
                   && text_between (t_transaction_date t) start_date end_date)
         (transactions db).

(** The expenses of a category the budget check adds up for a date, and
    the condition that they, a new amount and their total are whole. *)
Definition month_rows (db : database) (user_id : Z) (category : string) (d : date)
    : list transaction_row :=
  filter (spent_row user_id category (strftime_ymd (first_of_month d))
                    (strftime_ymd (last_of_month d)))
         (transactions db).

Definition whole_month (db : database) (user_id : Z) (category : string) (d : date)
    (amount : Q) : bool :=
  whole amount
  && forallb (fun t => whole (t_amount t)) (month_rows db user_id category d)
  && whole (spent_in_month db user_id category d + Qabs amount).



(** The kind of warning the rational verdict gives: 2 for the overspend
    warning, 1 for the reminder, 0 for none. *)
Definition warning_kind (total_spent budget_amount : Q) : nat :=
  match budget_verdict "" budget_amount total_spent with
  | Some (Overspend _ _ _ _) => 2
  | Some (Reminder _ _ _) => 1
  | _ => 0
  end.

(** A whole number as a binary64 value, built by doubling; below 2^53 no
    step rounds. *)
Fixpoint of_positive (p : positive) : PrimFloat.float :=
  match p with
  | xH => PrimFloat.one
  | xO q => PrimFloat.mul PrimFloat.two (of_positive q)
  | xI q => PrimFloat.add (PrimFloat.mul PrimFloat.two (of_positive q)) PrimFloat.one
  end.

Definition of_whole (n : Z) : PrimFloat.float :=
  match n with
  | Z0 => PrimFloat.zero
  | Zpos p => of_positive p
  | Zneg p => PrimFloat.opp (of_positive p)
  end.

(** The same in binary64, as the program computes it:
    [(total_spent / budget_amount) * 100 if budget_amount > 0 else 0],
    then [> 100] and [> 80]. *)
Definition percentage64 (total_spent budget_amount : PrimFloat.float)
    : PrimFloat.float :=
  if PrimFloat.ltb (of_whole 0) budget_amount
  then PrimFloat.mul (PrimFloat.div total_spent budget_amount) (of_whole 100)
  else of_whole 0.

Definition warning_kind64 (total_spent budget_amount : PrimFloat.float) : nat :=
  let percentage := percentage64 total_spent budget_amount in
  if PrimFloat.ltb (of_whole 100) percentage then 2
  else if PrimFloat.ltb (of_whole 80) percentage then 1
  else 0.

(** The check that the two verdicts agree for the whole spends and budgets
    of a range. *)
Definition kinds_agree (spent budget : Z) : bool :=
  Nat.eqb (warning_kind (inject_Z spent) (inject_Z budget))
          (warning_kind64 (of_whole spent) (of_whole budget)).

(** A response whose shape is not the expected one: no tool-call
    information, or tool calls reported without tool-result information or
    without a message. *)
Definition malformed (r : response) : bool :=
  match tool_calls r with
  | None => true
  | Some [] => false
  | Some _ =>
      match tool_results r, msgs r with
      | Some _, Some (_ :: _) => false
      | _, _ => true
      end
  end.

(** The fixed-format reply of [step]'s except branch for an error text. *)
Definition is_apology (m : base_message) : Prop :=
  exists text,
    m = mkmessage "系统" ASSISTANT
          ("处理请求时出错: " ++ text ++ "。请尝试重新表述您的问题。").

(** The fallback claim as stated: whenever the model call raises or its
    response is malformed, [step] answers with the fixed-format reply. *)
Definition apology_for_every_generation_failure : Prop :=
  forall (json_loads : string -> option json) (json_str : json -> string)
         (chat_step : list base_message -> base_message
                      -> list base_message * result response)
         (a : agent) (db : database) (user_msg full_msg : base_message),
    prompt a db user_msg = Ret full_msg ->
    match snd (chat_step (memory a) full_msg) with
    | Raise _ => True
    | Ret r => malformed r = true
    end ->
    exists a' m,
      step json_loads json_str chat_step a db user_msg = Ret (a', Built m)
      /\ is_apology m.

End Exactness.
Import Exactness.

(** A store for the budget check with an expense dated later in the month
    than the one to record: user 1 with a month budget of 500 for "餐饮" and
    600 spent on 25 May 2024. *)
Module LaterScenario.

Local Open Scope string_scope.


(** A response that reports a tool call and lacks the tool results. *)
Definition no_tool_results : response :=
  mkresponse (Some [assistant_says "好的"]) None (Some ["add_transaction"]) None.

End LaterScenario.
Import LaterScenario.

(** * Properties *)

(** ** Calendar facts *)

Module CalendarFacts.

Lemma forallb_Zrange (P : Z -> bool) (lo : Z) (n : nat) :
  forallb P (Zrange lo n) = true ->
  forall x, lo <= x < lo + Z.of_nat n -> P x = true.
Proof.
  intros H x Hx. rewrite forallb_forall in H. apply H.
  unfold Zrange. apply in_map_iff. exists (Z.to_nat (x - lo)). split.
  - lia.
  - apply in_seq. lia.
Qed.

Lemma valid_date_bounds (d : date) :
  valid_dateb d = true ->
  1 <= year d <= 9999 /\ 1 <= month d <= 12
  /\ 1 <= day d <= days_in_month (year d) (month d).
Proof.
  unfold valid_dateb, MINYEAR, MAXYEAR. intros H.
  repeat (apply andb_prop in H; destruct H as [H ?]). lia.
Qed.

Lemma valid_date_intro (y m dd : Z) :
  1 <= y <= 9999 -> 1 <= m <= 12 -> 1 <= dd <= days_in_month y m ->
  valid_dateb (mkdate y m dd) = true.
Proof.
  intros. unfold valid_dateb, MINYEAR, MAXYEAR. simpl.
  repeat (apply andb_true_intro; split); lia.
Qed.

Lemma days_in_month_bounds (y m : Z) : 28 <= days_in_month y m <= 31.
Proof.
  unfold days_in_month.
  destruct (m =? 2); [destruct (is_leap y); lia|].
  destruct ((m =? 4) || (m =? 6) || (m =? 9) || (m =? 11)); lia.
Qed.

Lemma add_days_same_month (n : nat) : forall y m dd,
  dd + Z.of_nat n <= days_in_month y m ->
  add_days (mkdate y m dd) n = Ret (mkdate y m (dd + Z.of_nat n)).
Proof.
  induction n as [|n IH]; intros y m dd H.
  - simpl. f_equal. f_equal. lia.
  - cbn [add_days]. unfold tomorrow. cbn [year month day].
    destruct (Z.ltb_spec dd (days_in_month y m)); [|lia].
    cbn [bind]. rewrite IH by lia. f_equal. f_equal. lia.
Qed.

Lemma add_days_into_next_month (n : nat) : forall y m dd,
  has_next_month y m = true ->
  dd <= days_in_month y m ->
  days_in_month y m < dd + Z.of_nat n <= days_in_month y m + 28 ->
  add_days (mkdate y m dd) n
  = Ret (mkdate (fst (next_month y m)) (snd (next_month y m))
                (dd + Z.of_nat n - days_in_month y m)).
Proof.
  induction n as [|n IH]; intros y m dd Hnext Hdd H.
  - lia.
  - cbn [add_days]. unfold tomorrow. cbn [year month day].
    destruct (Z.ltb_spec dd (days_in_month y m)).
    + cbn [bind]. rewrite IH by (auto; lia). f_equal. f_equal. lia.
    + unfold has_next_month, MAXYEAR in Hnext. unfold next_month, MAXYEAR.
      destruct (Z.ltb_spec m 12); cbn [bind fst snd].
      * rewrite add_days_same_month.
        -- f_equal. f_equal. lia.
        -- pose proof (days_in_month_bounds y (m + 1)). lia.
      * cbn [orb] in Hnext. rewrite Hnext. cbn [bind].
        rewrite add_days_same_month.
        -- f_equal. f_equal. lia.
        -- pose proof (days_in_month_bounds (y + 1) 1). lia.
Qed.

(** The day before the first of the next month is the last of this one. *)
Lemma day_before_next_first (y m : Z) :
  1 <= y -> 1 <= m <= 12 ->
  sub_days (mkdate (fst (next_month y m)) (snd (next_month y m)) 1) 1
  = Ret (mkdate y m (days_in_month y m)).
Proof.
  intros Hy Hm. unfold next_month. cbn [sub_days]. unfold yesterday, MINYEAR.
  destruct (Z.ltb_spec m 12); cbn [fst snd year month day].
  - replace (1 <? 1) with false by reflexivity.
    destruct (Z.ltb_spec 1 (m + 1)); [|lia]. cbn [bind].
    replace (m + 1 - 1) with m by lia. reflexivity.
  - replace (1 <? 1) with false by reflexivity.
    destruct (Z.ltb_spec 1 (y + 1)); [|lia]. cbn [bind].
    replace (y + 1 - 1) with y by lia.
    assert (m = 12) by lia. subst m. reflexivity.
Qed.

Lemma next_month_valid (y m : Z) :
  1 <= y <= 9999 -> 1 <= m <= 12 -> has_next_month y m = true ->
  forall k, 1 <= k <= 28 ->
  valid_dateb (mkdate (fst (next_month y m)) (snd (next_month y m)) k) = true.
Proof.
  intros Hy Hm Hn k Hk. unfold has_next_month, MAXYEAR in Hn. unfold next_month.
  destruct (Z.ltb_spec m 12); cbn [fst snd].
  - apply valid_date_intro; try lia.
    pose proof (days_in_month_bounds y (m + 1)). lia.
  - cbn [orb] in Hn. apply Z.ltb_lt in Hn.
    apply valid_date_intro; try lia.
    pose proof (days_in_month_bounds (y + 1) 1). lia.
Qed.

(** From any day [dd] of a month, [n] days later falls in the next month
    when dd + n passes the month's end by at most 28 days; going back to
    its first day and one day further gives the month's last day. *)
Lemma last_day_via_next_month (y m dd : Z) (n : nat) :
  1 <= y <= 9999 -> 1 <= m <= 12 -> has_next_month y m = true ->
  dd <= days_in_month y m ->
  days_in_month y m < dd + Z.of_nat n <= days_in_month y m + 28 ->
  (later <- add_days (mkdate y m dd) n ;;
   next_first <- replace_day later 1 ;;
   sub_days next_first 1)
  = Ret (mkdate y m (days_in_month y m)).
Proof.
  intros Hy Hm Hn Hdd H.
  rewrite add_days_into_next_month by assumption. cbn [bind].
  unfold replace_day. cbn [year month day].
  rewrite next_month_valid by (auto; lia). cbn [bind].
  apply day_before_next_first; lia.
Qed.

End CalendarFacts.
Import CalendarFacts.

(** ** set_budget *)

Module BudgetFacts.

Local Open Scope string_scope.

Lemma ordinary_date_bounds (d : date) :
  ordinary_date d = true ->
  valid_dateb d = true /\ 1000 <= year d <= 9999 /\ 1 <= month d <= 12
  /\ 1 <= day d <= days_in_month (year d) (month d)
  /\ has_next_month (year d) (month d) = true.
Proof.
  unfold ordinary_date. intros H.
  apply andb_prop in H. destruct H as [H Hn].
  apply andb_prop in H. destruct H as [Hv Hy].
  apply Z.leb_le in Hy.
  pose proof (valid_date_bounds d Hv). intuition lia.
Qed.

Lemma replace_day_first (d : date) :
  valid_dateb d = true -> replace_day d 1 = Ret (first_of_month d).
Proof.
  intros Hv. apply valid_date_bounds in Hv. unfold replace_day, first_of_month.
  rewrite valid_date_intro; [reflexivity|lia|lia|].
  pose proof (days_in_month_bounds (year d) (month d)). lia.
Qed.

(** The bounds computed for a month budget: the first and the last day of
    the clock's month. *)
Lemma default_period_month (today : date) :
  ordinary_date today = true ->
  default_period today "月"
  = Ret (strftime_ymd (first_of_month today), strftime_ymd (last_of_month today)).
Proof.
  intros Hd. apply ordinary_date_bounds in Hd.
  destruct Hd as (Hv & Hy & Hm & Hdd & Hn).
  unfold default_period. cbn [String.eqb Ascii.eqb Bool.eqb].
  rewrite replace_day_first by assumption. cbn [bind].
  pose proof (days_in_month_bounds (year today) (month today)) as Hb.
  unfold replace_day at 1.
  rewrite valid_date_intro by lia. cbn [bind].
  assert (L := last_day_via_next_month (year today) (month today) 28 4
                 ltac:(lia) Hm Hn ltac:(lia) ltac:(cbn; lia)).
  unfold bind in L |- *.
  destruct (add_days (mkdate (year today) (month today) 28) 4) as [later|e];
    [|discriminate L].
  destruct (replace_day later 1) as [nf|e]; [|discriminate L].
  rewrite L. reflexivity.
Qed.

Lemma filter_excluded {A} (f g : A -> bool) (l : list A) :
  (forall x, f x = true -> g x = false) -> filter f (filter g l) = [].
Proof.
  intros H. induction l as [|x l IH]; [reflexivity|].
  cbn [filter]. destruct (g x) eqn:G; [|exact IH].
  cbn [filter]. destruct (f x) eqn:F; [|exact IH].
  rewrite (H x F) in G. discriminate.
Qed.


Lemma set_budget_stores (db : database) (user_id : Z) (today now : datetime)
    (category : string) (amount : Q) (period_type : string)
    (period_start period_end : option string) (ps pe : string) :
  db_health db = Healthy ->
  user_exists db user_id = true ->
  resolve_period (dt_date today) period_type period_start period_end = Ret (ps, pe) ->
  exists db',
    set_budget db user_id today now category amount period_type period_start period_end
    = Ret (db', mkenvelope Success (BudgetSet period_type category amount) None None)
    /\ filter (budget_key_match user_id category ps pe) (budgets db')
       = [upserted_row db user_id now category amount period_type ps pe]
    /\ db_health db' = Healthy
    /\ users db' = users db.
Proof.
  intros Hh Hu Hr. unfold set_budget. rewrite Hr. cbn [bind].
  unfold get_connection, insert_or_replace_budget, execute. rewrite Hh. cbn [bind].
  rewrite Hu. eexists. split; [reflexivity|].
  cbn [budgets with_budgets db_health users]. split; [|auto].
  rewrite filter_app, filter_excluded.
  - cbn [app filter]. unfold upserted_row.
    unfold budget_key_match at 1.
    cbn [b_user_id b_category b_period_start b_period_end].
    rewrite Z.eqb_refl, !String.eqb_refl. reflexivity.
  - intros b K. rewrite K, orb_true_r. reflexivity.
Qed.

End BudgetFacts.
Import BudgetFacts.

(** ** Claims about set_budget *)

Module BudgetClaims.

Local Open Scope string_scope.

(** C7.  A month budget set with both bounds omitted is stored with
    [period_start] the first calendar day and [period_end] the last
    calendar day of the clock's month, whatever the length of that month
    (28, 29, 30 or 31 days). *)
Theorem set_budget_month_defaults (db : database) (user_id : Z)
    (today now : datetime) (category : string) (amount : Q) :
  db_health db = Healthy ->
  user_exists db user_id = true ->
  ordinary_date (dt_date today) = true ->
  exists db' row,
    set_budget db user_id today now category amount "月" None None
    = Ret (db', mkenvelope Success (BudgetSet "月" category amount) None None)
    /\ In row (budgets db')
    /\ b_user_id row = user_id /\ b_category row = category
    /\ b_amount row = amount /\ b_period_type row = "月"
    /\ b_updated_at row = isoformat now
    /\ b_period_start row
       = strftime_ymd (mkdate (year (dt_date today)) (month (dt_date today)) 1)
    /\ b_period_end row
       = strftime_ymd (mkdate (year (dt_date today)) (month (dt_date today))
                              (days_in_month (year (dt_date today))
                                             (month (dt_date today)))).
Proof.
  intros Hh Hu Hd.
  destruct (set_budget_stores db user_id today now category amount "月" None None
              _ _ Hh Hu (default_period_month _ Hd)) as (db' & E & F & _).
  exists db'. eexists. split; [exact E|]. split.
  - eapply (proj1 (filter_In _ _ _)). rewrite F. left. reflexivity.
  - repeat split.
Qed.

Lemma set_budget_month_defaults_witness :
  db_health one_user_db = Healthy
  /\ user_exists one_user_db 1 = true
  /\ ordinary_date (dt_date feb_10) = true
  /\ exists db' row,
       set_budget one_user_db 1 feb_10 feb_10 "餐饮" 500 "月" None None
       = Ret (db', mkenvelope Success (BudgetSet "月" "餐饮" 500) None None)
       /\ In row (budgets db')
       /\ b_user_id row = 1 /\ b_category row = "餐饮"
       /\ b_amount row = 500%Q /\ b_period_type row = "月"
       /\ b_updated_at row = isoformat feb_10
       /\ b_period_start row = strftime_ymd (mkdate 2024 2 1)
       /\ b_period_end row = strftime_ymd (mkdate 2024 2 29).
Proof.
  split; [reflexivity|]. split; [reflexivity|]. split; [reflexivity|].
  apply (set_budget_month_defaults one_user_db 1 feb_10 feb_10 "餐饮" 500);
    reflexivity.
Defined.

Example default_period_month_lengths :
  default_period (mkdate 2023 2 14) "月" = Ret ("2023-02-01", "2023-02-28")
  /\ default_period (mkdate 2024 2 29) "月" = Ret ("2024-02-01", "2024-02-29")
  /\ default_period (mkdate 2024 4 30) "月" = Ret ("2024-04-01", "2024-04-30")
  /\ default_period (mkdate 2024 12 31) "月" = Ret ("2024-12-01", "2024-12-31")
  /\ default_period (mkdate 1900 2 1) "月" = Ret ("1900-02-01", "1900-02-28")
  /\ default_period (mkdate 2000 2 1) "月" = Ret ("2000-02-01", "2000-02-29").
Proof. repeat split. Qed.



(** Whenever one bound is omitted, both are computed from the clock: the
    bound that was supplied is not used. *)
Lemma resolve_period_one_bound (today : date) (period_type bound : string) :
  resolve_period today period_type (Some bound) None = default_period today period_type
  /\ resolve_period today period_type None (Some bound) = default_period today period_type.
Proof. split; reflexivity. Qed.

(** C4 (the code departs from it).  On 2024-05-20, [set_budget] called with
    period_start = "2024-03-15" and period_end omitted stores the period
    2024-05-01 .. 2024-05-31: the supplied start is replaced by the default,
    where independent defaulting would keep "2024-03-15" and fill in only
    the end.  The mirror call, with only period_end = "2024-08-15", stores
    the same period. *)
Theorem set_budget_overwrites_supplied_bound :
  (exists db',
     set_budget one_user_db 1 may_20 may_20 "餐饮" 500 "月" (Some "2024-03-15") None
     = Ret (db', mkenvelope Success (BudgetSet "月" "餐饮" 500) None None)
     /\ map (fun b => (b_period_start b, b_period_end b)) (budgets db')
        = [("2024-05-01", "2024-05-31")])
  /\ (exists db',
       set_budget one_user_db 1 may_20 may_20 "餐饮" 500 "月" None (Some "2024-08-15")
       = Ret (db', mkenvelope Success (BudgetSet "月" "餐饮" 500) None None)
       /\ map (fun b => (b_period_start b, b_period_end b)) (budgets db')
          = [("2024-05-01", "2024-05-31")]).
Proof. split; eexists; split; reflexivity. Qed.

End BudgetClaims.

(** ** Rendering and parsing dates *)

Module DateTextFacts.

Local Open Scope string_scope.

Lemma digit_val_digit_char (k : Z) : digit_val (digit_char k) = Some (k mod 10).
Proof.
  unfold digit_val, digit_char.
  pose proof (Z.mod_pos_bound k 10 ltac:(lia)) as B.
  rewrite N_ascii_embedding by lia.
  rewrite Z2N.id by lia.
  destruct (Z.leb_spec 48 (48 + k mod 10)); [|lia].
  destruct (Z.leb_spec (48 + k mod 10) 57); [|lia].
  cbn [andb]. f_equal. lia.
Qed.

Lemma parse_year_pad4 (y : Z) :
  0 <= y <= 9999 ->
  match list_ascii_of_string (pad4 y) with
  | [a; b; c; d] => parse_year a b c d = Some y
  | _ => False
  end.
Proof.
  intros Hy. unfold pad4, pad2. cbn [list_ascii_of_string]. unfold parse_year.
  rewrite !digit_val_digit_char. f_equal.
  Z.div_mod_to_equations. lia.
Qed.

Lemma parse_month_day_pad2 (m dd : Z) :
  1 <= m <= 12 -> 1 <= dd <= 31 ->
  parse_month_day (list_ascii_of_string (pad2 m ++ "-" ++ pad2 dd)) = Some (m, dd).
Proof.
  intros Hm Hd.
  assert (H : forallb (fun m => forallb (month_day_roundtrip m) (Zrange 1 31))
                      (Zrange 1 12) = true) by (vm_compute; reflexivity).
  pose proof (forallb_Zrange _ _ _ H m ltac:(lia)) as H1. cbv beta in H1.
  pose proof (forallb_Zrange _ _ _ H1 dd ltac:(lia)) as H2.
  unfold month_day_roundtrip in H2.
  destruct (parse_month_day _) as [[m' dd']|]; [|discriminate].
  apply andb_prop in H2. destruct H2 as [A B].
  apply Z.eqb_eq in A, B. subst. reflexivity.
Qed.

Lemma strftime_ymd_shape (d : date) :
  strftime_ymd d
  = String (digit_char (year d / 1000)) (String (digit_char (year d / 100))
      (String (digit_char (year d / 10)) (String (digit_char (year d))
        (String "-" (pad2 (month d) ++ "-" ++ pad2 (day d)))))).
Proof. reflexivity. Qed.

(** Parsing a rendered date gives the date back. *)
Lemma strptime_strftime (d : date) :
  valid_dateb d = true -> strptime_ymd (strftime_ymd d) = Ret d.
Proof.
  intros Hv. pose proof (valid_date_bounds d Hv) as (Hy & Hm & Hd).
  pose proof (days_in_month_bounds (year d) (month d)) as Hb.
  rewrite strftime_ymd_shape. unfold strptime_ymd.
  cbn [list_ascii_of_string].
  pose proof (parse_year_pad4 (year d) ltac:(lia)) as Py.
  unfold pad4, pad2 in Py. cbn [list_ascii_of_string] in Py. rewrite Py.
  rewrite parse_month_day_pad2 by lia.
  destruct d as [y m dd]. cbn [year month day] in *. rewrite Hv. reflexivity.
Qed.

End DateTextFacts.
Import DateTextFacts.

(** ** The budget check *)

Module WarningFacts.

Local Open Scope string_scope.

Lemma Qgtb_true (a b : Q) : Qgtb a b = true <-> (b < a)%Q.
Proof.
  unfold Qgtb. rewrite negb_true_iff. split.
  - intros H. apply Qnot_le_lt. intros L. apply Qle_bool_iff in L. congruence.
  - intros H. destruct (Qle_bool a b) eqn:E; [|reflexivity].
    apply Qle_bool_iff in E. exfalso. exact (Qlt_not_le _ _ H E).
Qed.

Lemma Qgtb_false (a b : Q) : Qgtb a b = false <-> (a <= b)%Q.
Proof.
  unfold Qgtb. rewrite negb_false_iff. apply Qle_bool_iff.
Qed.

Lemma usage_above (t b k : Q) :
  (0 < b)%Q -> (k * b < t * 100)%Q -> (k < usage_percentage t b)%Q.
Proof.
  intros Hb H. unfold usage_percentage.
  rewrite (proj2 (Qgtb_true b 0) Hb).
  assert (E : (t / b * 100 == t * 100 / b)%Q) by (field; intros Z; rewrite Z in Hb; discriminate).
  rewrite E. apply Qlt_shift_div_l; assumption.
Qed.

Lemma usage_at_most (t b k : Q) :
  (0 < b)%Q -> (t * 100 <= k * b)%Q -> (usage_percentage t b <= k)%Q.
Proof.
  intros Hb H. unfold usage_percentage.
  rewrite (proj2 (Qgtb_true b 0) Hb).
  assert (E : (t / b * 100 == t * 100 / b)%Q) by (field; intros Z; rewrite Z in Hb; discriminate).
  rewrite E. apply Qle_shift_div_r; assumption.
Qed.

Lemma usage_guarded (t b : Q) : (b <= 0)%Q -> usage_percentage t b = 0%Q.
Proof.
  intros Hb. unfold usage_percentage.
  rewrite (proj2 (Qgtb_false b 0) Hb). reflexivity.
Qed.

(** Spending above a positive budget gives the overspend warning, with the
    overage [total_spent - budget_amount]. *)
Lemma verdict_overspend (category : string) (b t : Q) :
  (0 < b)%Q -> (b < t)%Q ->
  budget_verdict category b t = Some (Overspend category b t (t - b)%Q).
Proof.
  intros Hb H. unfold budget_verdict.
  rewrite (proj2 (Qgtb_true _ 100)); [reflexivity|].
  apply usage_above; [assumption|]. lra.
Qed.

(** Spending of at most 80% of a positive budget gives no warning. *)
Lemma verdict_quiet (category : string) (b t : Q) :
  (0 < b)%Q -> (t <= (80 # 100) * b)%Q -> budget_verdict category b t = None.
Proof.
  intros Hb H. unfold budget_verdict.
  assert (U : (usage_percentage t b <= 80)%Q) by (apply usage_at_most; [assumption|lra]).
  rewrite (proj2 (Qgtb_false _ 100)) by lra.
  rewrite (proj2 (Qgtb_false _ 80)) by assumption. reflexivity.
Qed.

(** Between 80% and 100% of a positive budget: the reminder. *)
Lemma verdict_reminder (category : string) (b t : Q) :
  (0 < b)%Q -> ((80 # 100) * b < t)%Q -> (t <= b)%Q ->
  budget_verdict category b t
  = Some (Reminder category (usage_percentage t b) (b - t)%Q).
Proof.
  intros Hb H1 H2. unfold budget_verdict.
  assert (U : (usage_percentage t b <= 100)%Q) by (apply usage_at_most; [assumption|lra]).
  assert (L : (80 < usage_percentage t b)%Q) by (apply usage_above; [assumption|lra]).
  rewrite (proj2 (Qgtb_false _ 100)) by assumption.
  rewrite (proj2 (Qgtb_true _ 80)) by assumption. reflexivity.
Qed.

(** A budget that is not positive never warns. *)
Lemma verdict_guarded (category : string) (b t : Q) :
  (b <= 0)%Q -> budget_verdict category b t = None.
Proof.
  intros Hb. unfold budget_verdict. rewrite usage_guarded by assumption.
  reflexivity.
Qed.

End WarningFacts.
Import WarningFacts.

(** ** add_transaction *)

Module TransactionFacts.

Local Open Scope string_scope.

Lemma leb_same_head (c : ascii) (s t : string) :
  String.leb (String c s) (String c t) = String.leb s t.
Proof.
  unfold String.leb. cbn [String.compare].
  unfold Ascii.compare. rewrite N.compare_refl. reflexivity.
Qed.

Lemma pad2_monotone (a b : Z) :
  (0 <= a <= b)%Z -> (b <= 31)%Z -> text_le (pad2 a) (pad2 b) = true.
Proof.
  intros Ha Hb.
  assert (H : forallb (fun a => forallb (pad2_ordered a) (Zrange 0 32))
                      (Zrange 0 32) = true) by (vm_compute; reflexivity).
  pose proof (forallb_Zrange _ _ _ H a ltac:(lia)) as H1. cbv beta in H1.
  pose proof (forallb_Zrange _ _ _ H1 b ltac:(lia)) as H2.
  unfold pad2_ordered in H2.
  destruct (Z.ltb_spec b a); [lia|exact H2].
Qed.

(** The start of the month window, [transaction_date[:7] + "-01"], is the
    rendering of the first day of the month. *)
Lemma month_start_text (d : date) :
  py_prefix 7 (strftime_ymd d) ++ "-01" = strftime_ymd (first_of_month d).
Proof. reflexivity. Qed.

(** A rendered date lies between the renderings of the first and the last
    day of its month. *)
Lemma date_in_own_month (d : date) :
  valid_dateb d = true ->
  text_between (strftime_ymd d) (strftime_ymd (first_of_month d))
               (strftime_ymd (last_of_month d)) = true.
Proof.
  intros Hv. pose proof (valid_date_bounds d Hv) as (Hy & Hm & Hd).
  pose proof (days_in_month_bounds (year d) (month d)) as Hb.
  unfold text_between, text_le. rewrite !strftime_ymd_shape.
  unfold first_of_month, last_of_month. cbn [year month day].
  unfold pad2 at 1 3 5 7. cbn [append].
  rewrite !leb_same_head.
  apply andb_true_intro. split; apply pad2_monotone; lia.
Qed.

(** The last day of the month, as [_check_budget_warning] computes it. *)
Lemma month_end_text (d : date) :
  ordinary_date d = true ->
  month_end (strftime_ymd d) = Ret (strftime_ymd (last_of_month d)).
Proof.
  intros Hd. apply ordinary_date_bounds in Hd.
  destruct Hd as (Hv & Hy & Hm & Hdd & Hn).
  unfold month_end. rewrite strptime_strftime by assumption. cbn [bind].
  rewrite replace_day_first by assumption. cbn [bind]. unfold first_of_month.
  pose proof (days_in_month_bounds (year d) (month d)) as Hb.
  assert (L := last_day_via_next_month (year d) (month d) 1 32
                 ltac:(lia) Hm Hn ltac:(lia) ltac:(cbn; lia)).
  unfold bind in L |- *.
  destruct (add_days (mkdate (year d) (month d) 1) 32) as [later|e];
    [|discriminate L].
  destruct (replace_day later 1) as [nf|e]; [|discriminate L].
  rewrite L. reflexivity.
Qed.

(** On a store that answers, for a date in canonical form, the check is
    the verdict on the first covering month budget. *)
Lemma check_budget_warning_healthy (db : database) (user_id : Z)
    (category : string) (amount : Q) (d : date) :
  db_health db = Healthy ->
  ordinary_date d = true ->
  (amount <= 0)%Q ->
  _check_budget_warning db user_id category amount (strftime_ymd d)
  = Ret match find (covering_month_budget user_id category (strftime_ymd d))
                   (budgets db) with
        | None => None
        | Some budget =>
            budget_verdict category (b_amount budget)
                           (spent_in_month db user_id category d)
        end.
Proof.
  intros Hh Hd Ha. unfold _check_budget_warning.
  rewrite (proj2 (Qgtb_false amount 0) Ha).
  rewrite month_end_text by assumption. cbn [bind try_except].
  unfold get_connection, budget_query, execute. rewrite Hh. cbn [bind].
  rewrite month_start_text. unfold spent_in_month.
  destruct (find _ (budgets db)); reflexivity.
Qed.

(** An omitted date is the call with the clock's date rendered. *)
Lemma add_transaction_default_date (db : database) (user_id : Z)
    (today now : datetime) (amount : Q) (category : string)
    (description : option string) :
  add_transaction db user_id today now amount category None description
  = add_transaction db user_id today now amount category
                    (Some (strftime_ymd (dt_date today))) description.
Proof. reflexivity. Qed.


End TransactionFacts.
Import TransactionFacts.

(** ** Claims about the budget warning *)

Module WarningClaims.

Local Open Scope string_scope.

(** What a successful insert leaves, seen from the budget check. *)
Lemma insert_transaction_healthy (db : database) (user_id : Z) (amount : Q)
    (category transaction_date : string) (description : option string)
    (created_at : string) :
  db_health db = Healthy ->
  user_exists db user_id = true ->
  exists db' id,
    insert_transaction db user_id amount category transaction_date description
                       created_at = Ret (db', id)
    /\ db_health db' = Healthy
    /\ budgets db' = budgets db
    /\ transactions db'
       = (transactions db
          ++ [mktransaction id user_id amount category transaction_date
                            description created_at])%list.
Proof.
  intros Hh Hu. unfold insert_transaction, execute. rewrite Hh. cbn [bind].
  rewrite Hu. eexists. eexists. split; [reflexivity|].
  cbn. auto.
Qed.




(** The example of the specification: a budget of 500 with 470 spent, then
    35 more, gives a total of 505 and an overspend of 5; with nothing spent
    before there is no warning.  At 450 in total the reminder is given. *)
Example add_transaction_spec_example :
  (exists db',
     add_transaction spent_470_db 1 may_20 may_20 (-35) "餐饮" (Some "2024-05-20") None
     = Ret (db', mkenvelope Success (Recorded false 35) (Some 6)
                   (Some (Overspend "餐饮" 500 505 5))))
  /\ (exists db',
       add_transaction (nothing_spent_db 500) 1 may_20 may_20 (-35) "餐饮" None None
       = Ret (db', mkenvelope Success (Recorded false 35) (Some 1) None))
  /\ (exists db',
       add_transaction (nothing_spent_db 500) 1 may_20 may_20 (-450) "餐饮" None None
       = Ret (db', mkenvelope Success (Recorded false 450) (Some 1)
                     (Some (Reminder "餐饮" (450 / 500 * 100) 50)))).
Proof. repeat split; eexists; vm_compute; reflexivity. Qed.







(** With a date in canonical form and a store that answers, the warning is
    absent altogether. *)
Lemma nonpositive_budget_no_warning (db : database) (user_id : Z)
    (category : string) (amount : Q) (d : date) (budget : budget_row) :
  db_health db = Healthy ->
  ordinary_date d = true ->
  find (covering_month_budget user_id category (strftime_ymd d)) (budgets db)
  = Some budget ->
  (b_amount budget <= 0)%Q ->
  _check_budget_warning db user_id category amount (strftime_ymd d) = Ret None.
Proof.
  intros Hh Hd Hf Hb.
  destruct (Qgtb amount 0) eqn:G.
  - unfold _check_budget_warning. rewrite G. reflexivity.
  - rewrite check_budget_warning_healthy; auto.
    + rewrite Hf, verdict_guarded by assumption. reflexivity.
    + apply Qgtb_false. exact G.
Qed.

(** A date that does not parse makes the check return its own message,
    before any budget is looked at. *)
Example unparsable_date_message :
  _check_budget_warning (nothing_spent_db 500) 1 "餐饮" (-35) "2024-02-30"
  = Ret (Some DateFormatError).
Proof. reflexivity. Qed.

(** In December 9999 the month after does not exist: the check raises
    OverflowError, which [add_transaction] reports as a failure although
    the row is stored. *)
Example december_9999 :
  exists db',
    add_transaction (nothing_spent_db 500) 1 may_20 may_20 (-35) "餐饮"
                    (Some "9999-12-05") None
    = Ret (db', mkenvelope Error (RecordFailed "date value out of range") None None)
    /\ List.length (transactions db') = 1%nat.
Proof. eexists. split; reflexivity. Qed.

End WarningClaims.

(** ** Ordering of texts and of query results *)

Module OrderFacts.

Lemma text_le_refl (a : string) : text_le a a = true.
Proof.
  unfold text_le. destruct (String.leb_total a a); assumption.
Qed.

Lemma text_le_trans (a : string) : forall b c,
  text_le a b = true -> text_le b c = true -> text_le a c = true.
Proof.
  unfold text_le, String.leb.
  induction a as [|x a IH]; intros [|y b] [|z c]; cbn [String.compare];
    try easy.
  unfold Ascii.compare.
  destruct (N.compare_spec (N_of_ascii x) (N_of_ascii y)) as [E1|L1|G1];
    try easy;
    destruct (N.compare_spec (N_of_ascii y) (N_of_ascii z)) as [E2|L2|G2];
    try easy;
    destruct (N.compare_spec (N_of_ascii x) (N_of_ascii z)) as [E3|L3|G3];
    try easy; try lia.
  apply IH.
Qed.

Lemma text_le_total (a b : string) : text_le a b = false -> text_le b a = true.
Proof.
  unfold text_le. intros H. destruct (String.leb_total a b); congruence.
Qed.

Lemma text_le_empty (a : string) : text_le EmptyString a = true.
Proof. destruct a; reflexivity. Qed.

(** [text_max] bounds its list and, on a list that is not empty, is one of
    its elements. *)
Lemma text_max_upper (l : list string) (x : string) :
  In x l -> text_le x (text_max l) = true.
Proof.
  induction l as [|y l IH]; [easy|]. cbn [text_max fold_right].
  fold (text_max l). intros [->|H].
  - destruct (text_le (text_max l) x) eqn:E; [apply text_le_refl|].
    apply text_le_total. exact E.
  - specialize (IH H).
    destruct (text_le (text_max l) y) eqn:E; [|exact IH].
    eapply text_le_trans; eassumption.
Qed.

Lemma text_max_attained (l : list string) : l <> [] -> In (text_max l) l.
Proof.
  induction l as [|y l IH]; [easy|]. intros _. cbn [text_max fold_right].
  fold (text_max l).
  destruct (text_le (text_max l) y) eqn:E; [left; reflexivity|].
  right. apply IH. intros ->. cbn in E. rewrite text_le_empty in E. discriminate.
Qed.

Section Sorting.

Context {A : Type} (key : A -> string).

Lemma insert_desc_perm (x : A) (l : list A) :
  Permutation (insert_desc key x l) (x :: l).
Proof.
  induction l as [|y l IH]; cbn [insert_desc]; [reflexivity|].
  destruct (text_le (key y) (key x)); [reflexivity|].
  rewrite IH. apply perm_swap.
Qed.

Lemma order_by_desc_perm (l : list A) : Permutation (order_by_desc key l) l.
Proof.
  induction l as [|x l IH]; cbn [order_by_desc fold_right]; [reflexivity|].
  fold (order_by_desc key l). rewrite insert_desc_perm. constructor. exact IH.
Qed.

Lemma insert_desc_sorted (x : A) (l : list A) :
  StronglySorted (descending key) l ->
  StronglySorted (descending key) (insert_desc key x l).
Proof.
  induction 1 as [|y l S IH F]; cbn [insert_desc].
  - repeat constructor.
  - destruct (text_le (key y) (key x)) eqn:E.
    + constructor; [constructor; assumption|].
      constructor; [exact E|].
      eapply Forall_impl; [|exact F]. intros z Hz. unfold descending in *.
      eapply text_le_trans; eassumption.
    + constructor; [exact IH|].
      eapply Permutation_Forall; [symmetry; apply insert_desc_perm|].
      constructor; [|exact F]. unfold descending. apply text_le_total. exact E.
Qed.

Lemma order_by_desc_sorted (l : list A) :
  StronglySorted (descending key) (order_by_desc key l).
Proof.
  induction l as [|x l IH]; cbn [order_by_desc fold_right]; [constructor|].
  apply insert_desc_sorted. exact IH.
Qed.

Lemma sorted_app_inv (R : A -> A -> Prop) (l1 l2 : list A) :
  StronglySorted R (l1 ++ l2) ->
  StronglySorted R l1 /\ StronglySorted R l2
  /\ forall x y, In x l1 -> In y l2 -> R x y.
Proof.
  induction l1 as [|a l1 IH]; cbn [app]; intros S.
  - repeat split; [constructor|assumption|easy].
  - apply StronglySorted_inv in S. destruct S as [S F].
    destruct (IH S) as (S1 & S2 & C). rewrite Forall_app in F.
    destruct F as [F1 F2]. repeat split.
    + constructor; assumption.
    + assumption.
    + intros x y [<-|Hx] Hy; [|auto].
      rewrite Forall_forall in F2. auto.
Qed.

Lemma sorted_rev (R : A -> A -> Prop) (l : list A) :
  StronglySorted R l -> StronglySorted (fun x y => R y x) (rev l).
Proof.
  induction 1 as [|a l S IH F]; cbn [rev]; [constructor|].
  induction (rev l) as [|b r IHr] eqn:E in IH, F |- *.
  - repeat constructor.
  - assert (Hin : forall z, In z (b :: r) -> R a z).
    { intros z Hz. rewrite Forall_forall in F. apply F.
      apply in_rev. rewrite E. exact Hz. }
    clear E F IHr.
    induction IH as [|c r' S' IH' F']; cbn [app].
    + repeat constructor.
    + constructor.
      * apply IH'. intros z Hz. apply Hin. right. exact Hz.
      * rewrite Forall_app. split; [exact F'|].
        repeat constructor. apply Hin. left. reflexivity.
Qed.

End Sorting.

End OrderFacts.
Import OrderFacts.

(** ** Claims about the conversation list and the history *)

Module ConversationClaims.

Local Open Scope string_scope.

Lemma filter_filter {A} (f g : A -> bool) (l : list A) :
  filter f (filter g l) = filter (fun x => g x && f x) l.
Proof.
  induction l as [|x l IH]; [reflexivity|]. cbn [filter].
  destruct (g x); cbn [filter andb]; [destruct (f x)|]; rewrite IH; reflexivity.
Qed.

(** A group of the list query is the set of turns of that conversation. *)
Lemma group_rows (db : database) (user_id : Z) (agent_type cid : string) :
  filter (fun c => String.eqb (c_conversation_id c) cid)
         (filter (owned_by user_id agent_type) (conversations db))
  = turns_of db user_id agent_type cid.
Proof. apply filter_filter. Qed.

Lemma sorted_map_fst (f : string -> string) (l : list (string * string)) :
  StronglySorted (descending snd) l ->
  (forall p, In p l -> snd p = f (fst p)) ->
  StronglySorted (descending f) (map fst l).
Proof.
  induction 1 as [|p l S IH F]; intros H; cbn [map]; [constructor|].
  constructor.
  - apply IH. intros q Hq. apply H. right. exact Hq.
  - rewrite Forall_map. rewrite Forall_forall in F |- *.
    intros q Hq. specialize (F q Hq). unfold descending in *.
    rewrite <- (H p (or_introl eq_refl)), <- (H q (or_intror Hq)). exact F.
Qed.

Lemma group_by_conversation_ids (rows : list conversation_row) :
  map fst (group_by_conversation rows)
  = nodup string_dec (map c_conversation_id rows).
Proof.
  unfold group_by_conversation. rewrite map_map. cbn [fst]. apply map_id.
Qed.

(** C6.  The conversation list of a (user, agent type) pair names each
    conversation identifier at most once, and the identifiers come in the
    order of their most recent turn timestamp, latest first. *)
Theorem conversation_list_ordered_distinct (display_time : string -> string)
    (db : database) (user_id : Z) (agent_type : string) :
  get_connection db = Ret tt ->
  exists l,
    get_conversation_list display_time db user_id agent_type = Ret l
    /\ NoDup (map snd l)
    /\ StronglySorted (descending (latest_turn db user_id agent_type)) (map snd l)
    /\ (forall cid, In cid (map snd l) -> turns_of db user_id agent_type cid <> [])
    /\ (db_health db = Healthy ->
        forall turn, In turn (conversations db) ->
                     owned_by user_id agent_type turn = true ->
                     In (c_conversation_id turn) (map snd l)).
Proof.
  intros Hc. unfold get_conversation_list. rewrite Hc. cbn [bind].
  unfold get_connection in Hc. unfold execute.
  destruct (db_health db) eqn:Hh; try discriminate; cbn [bind try_except_Exception].
  2:{ exists []. repeat split; try constructor; try easy. }
  eexists. split; [reflexivity|].
  rewrite map_map. cbn [snd].
  set (rows := filter (owned_by user_id agent_type) (conversations db)).
  set (groups := group_by_conversation rows).
  assert (Hids : map fst groups = nodup string_dec (map c_conversation_id rows))
    by apply group_by_conversation_ids.
  assert (Hnd : NoDup (map fst groups)) by (rewrite Hids; apply NoDup_nodup).
  unfold select_conversations. fold rows. fold groups.
  rewrite (nodup_fixed_point pair_dec) by (eapply NoDup_map_inv; exact Hnd).
  pose proof (order_by_desc_perm snd groups) as P.
  pose proof (order_by_desc_sorted snd groups) as S.
  assert (Hmem : forall cid, In cid (map fst (order_by_desc snd groups))
                             <-> In cid (map c_conversation_id rows)).
  { intros cid. split; intros H.
    - apply (nodup_In string_dec). rewrite <- Hids.
      revert H. apply Permutation_in, Permutation_map, P.
    - apply (nodup_In string_dec) in H. rewrite <- Hids in H.
      revert H. apply Permutation_in, Permutation_map. symmetry. exact P. }
  split; [|split; [|split]].
  - eapply Permutation_NoDup; [symmetry; apply Permutation_map; exact P|exact Hnd].
  - apply sorted_map_fst; [exact S|].
    intros p Hp. apply (Permutation_in _ P) in Hp.
    unfold groups, group_by_conversation in Hp. apply in_map_iff in Hp.
    destruct Hp as (cid & <- & _). cbn [fst snd]. unfold latest_turn.
    unfold rows. rewrite group_rows. reflexivity.
  - intros cid Hin. apply Hmem in Hin. apply in_map_iff in Hin.
    destruct Hin as (turn & <- & Ht). unfold rows in Ht.
    apply filter_In in Ht. destruct Ht as [Ht Ho].
    intros E. assert (Hin : In turn (turns_of db user_id agent_type (c_conversation_id turn))).
    { unfold turns_of. apply filter_In. split; [exact Ht|].
      unfold turn_of. unfold owned_by in Ho. rewrite Ho.
      apply String.eqb_refl. }
    rewrite E in Hin. exact Hin.
  - intros _ turn Ht Ho. apply Hmem. apply in_map. unfold rows.
    apply filter_In. split; assumption.
Qed.

Lemma conversation_list_ordered_distinct_witness :
  get_connection (chat_db Healthy) = Ret tt
  /\ exists l,
       get_conversation_list (py_prefix 16) (chat_db Healthy) 1 "小账" = Ret l
       /\ NoDup (map snd l)
       /\ StronglySorted (descending (latest_turn (chat_db Healthy) 1 "小账")) (map snd l)
       /\ (forall cid, In cid (map snd l) -> turns_of (chat_db Healthy) 1 "小账" cid <> [])
       /\ (db_health (chat_db Healthy) = Healthy ->
           forall turn, In turn (conversations (chat_db Healthy)) ->
                        owned_by 1 "小账" turn = true ->
                        In (c_conversation_id turn) (map snd l)).
Proof.
  split; [reflexivity|].
  apply (conversation_list_ordered_distinct (py_prefix 16) (chat_db Healthy) 1 "小账").
  reflexivity.
Defined.

(** The timestamp the list is ordered by is the latest of the conversation:
    no turn of it is later, and one of its turns carries it. *)
Lemma latest_turn_is_latest (db : database) (user_id : Z) (agent_type cid : string) :
  (forall turn, In turn (turns_of db user_id agent_type cid) ->
                text_le (c_timestamp turn) (latest_turn db user_id agent_type cid) = true)
  /\ (turns_of db user_id agent_type cid <> [] ->
      exists turn, In turn (turns_of db user_id agent_type cid)
                   /\ c_timestamp turn = latest_turn db user_id agent_type cid).
Proof.
  unfold latest_turn. split.
  - intros turn H. apply text_max_upper. apply in_map. exact H.
  - intros H.
    assert (N : map c_timestamp (turns_of db user_id agent_type cid) <> []).
    { destruct (turns_of db user_id agent_type cid); [easy|discriminate]. }
    apply text_max_attained in N. apply in_map_iff in N.
    destruct N as (turn & E & Hin). exists turn. split; assumption.
Qed.

Example conversation_list_example :
  get_conversation_list (py_prefix 16) (chat_db Healthy) 1 "小账"
  = Ret [ ("对话 2024-05-03T08:00", "c-b");
          ("对话 2024-05-02T19:00", "c-c");
          ("对话 2024-05-01T12:00", "c-a") ]
  /\ get_conversation_list (py_prefix 16) (chat_db StatementsFail) 1 "小账" = Ret []
  /\ get_conversation_list (py_prefix 16) (chat_db Unreachable) 1 "小账"
     = Raise cannot_open.
Proof. repeat split. Qed.

(** The rows behind the history: the 20 latest turns of the current
    conversation (all of them when there are fewer), oldest first. *)
Lemma history_rows_spec (db : database) (a : agent) :
  let turns := turns_of db (user_id a) (agent_type a) (conversation_id a) in
  exists older,
    Permutation (older ++ history_rows db a) turns
    /\ List.length (history_rows db a) = Nat.min 20 (List.length turns)
    /\ StronglySorted (ascending c_timestamp) (history_rows db a)
    /\ forall o r, In o older -> In r (history_rows db a) ->
                   text_le (c_timestamp o) (c_timestamp r) = true.
Proof.
  intros turns. unfold history_rows, recent_turns. fold (turns_of db (user_id a) (agent_type a) (conversation_id a)). fold turns.
  set (sorted := order_by_desc c_timestamp turns).
  pose proof (order_by_desc_perm c_timestamp turns) as P. fold sorted in P.
  pose proof (order_by_desc_sorted c_timestamp turns) as S. fold sorted in S.
  rewrite <- (firstn_skipn 20 sorted) in S.
  apply sorted_app_inv in S. destruct S as (S1 & _ & C).
  exists (skipn 20 sorted). split; [|split; [|split]].
  - rewrite <- P. rewrite <- (firstn_skipn 20 sorted) at 3.
    rewrite Permutation_app_comm. apply Permutation_app_tail.
    symmetry. apply Permutation_rev.
  - rewrite length_rev, length_firstn. f_equal.
    apply Permutation_length. exact P.
  - apply (sorted_rev _ _ S1).
  - intros o r Ho Hr. apply in_rev in Hr. exact (C r o Hr Ho).
Qed.

(** C2.  The history [step] puts in front of the user's message is made of
    the lines of at most 20 turns of the current conversation identifier;
    they are its most recent turns (every turn left out is no later than
    any turn kept) and they stand in chronological order, oldest first. *)
Theorem prompt_history_recent_chronological (a : agent) (db : database)
    (user_msg : base_message) :
  get_connection db = Ret tt ->
  exists rows older,
    get_history a db = Ret (join newline (map history_line rows))
    /\ prompt a db user_msg
       = Ret (mkmessage (role_name user_msg) USER
                (full_content (join newline (map history_line rows))
                              (content user_msg)))
    /\ (List.length rows <= 20)%nat
    /\ Permutation (older ++ rows)
                   (turns_of db (user_id a) (agent_type a) (conversation_id a))
    /\ (forall o r, In o older -> In r rows ->
                    text_le (c_timestamp o) (c_timestamp r) = true)
    /\ StronglySorted (ascending c_timestamp) rows
    /\ (db_health db = Healthy ->
        List.length rows
        = Nat.min 20 (List.length (turns_of db (user_id a) (agent_type a)
                                            (conversation_id a)))).
Proof.
  intros Hc. unfold prompt, get_history. rewrite Hc. cbn [bind].
  unfold get_connection in Hc. unfold execute.
  destruct (db_health db) eqn:Hh; try discriminate; cbn [bind try_except_Exception].
  - destruct (history_rows_spec db a) as (older & P & L & S & C).
    exists (history_rows db a), older.
    repeat split; try assumption; [rewrite L; apply Nat.le_min_l|intros _; exact L].
  - exists [], (turns_of db (user_id a) (agent_type a) (conversation_id a)).
    repeat split; try easy.
    + cbn. lia.
    + rewrite app_nil_r. reflexivity.
    + constructor.
Qed.

Lemma prompt_history_recent_chronological_witness :
  get_connection (chat_db Healthy) = Ret tt
  /\ exists rows older,
       get_history (recorder "c-a") (chat_db Healthy)
       = Ret (join newline (map history_line rows))
       /\ prompt (recorder "c-a") (chat_db Healthy) (mkmessage "用户" USER "再记一笔")
          = Ret (mkmessage "用户" USER
                   (full_content (join newline (map history_line rows)) "再记一笔"))
       /\ (List.length rows <= 20)%nat
       /\ Permutation (older ++ rows) (turns_of (chat_db Healthy) 1 "小账" "c-a")
       /\ (forall o r, In o older -> In r rows ->
                       text_le (c_timestamp o) (c_timestamp r) = true)
       /\ StronglySorted (ascending c_timestamp) rows
       /\ (db_health (chat_db Healthy) = Healthy ->
           List.length rows
           = Nat.min 20 (List.length (turns_of (chat_db Healthy) 1 "小账" "c-a"))).
Proof.
  split; [reflexivity|].
  apply (prompt_history_recent_chronological (recorder "c-a") (chat_db Healthy)
           (mkmessage "用户" USER "再记一笔")).
  reflexivity.
Defined.

Example history_of_25_turns :
  map c_id (history_rows long_chat_db (recorder "c-long")) = Zrange 6 20
  /\ get_history (recorder "c-a") (chat_db Healthy)
     = Ret ("user: 午饭35元" ++ newline ++ "assistant: 已记录")
  /\ get_history (recorder "c-a") (chat_db StatementsFail) = Ret "".
Proof. repeat split. Qed.

(** C3.  Loading a conversation identifier that has no persisted turn of
    the session's (user, agent type) pair returns False and leaves the
    session as it was, current identifier included; so does a lookup that
    raises. *)
Theorem load_conversation_unknown_id (a : agent) (db : database) (cid : string) :
  get_connection db = Ret tt ->
  turns_of db (user_id a) (agent_type a) cid = [] \/ db_health db = StatementsFail ->
  load_conversation a db cid = Ret (a, false).
Proof.
  intros Hc H. unfold load_conversation. rewrite Hc. cbn [bind].
  unfold get_connection in Hc. unfold execute.
  destruct (db_health db) eqn:Hh; try discriminate; cbn [bind try_except_Exception];
    [|reflexivity].
  destruct H as [H|H]; [|discriminate].
  unfold count_turns. fold (turns_of db (user_id a) (agent_type a) cid).
  rewrite H. reflexivity.
Qed.

Lemma load_conversation_unknown_id_witness :
  get_connection (chat_db Healthy) = Ret tt
  /\ (turns_of (chat_db Healthy) (user_id (recorder "c-a"))
               (agent_type (recorder "c-a")) "c-z" = []
      \/ db_health (chat_db Healthy) = StatementsFail)
  /\ load_conversation (recorder "c-a") (chat_db Healthy) "c-z"
     = Ret (recorder "c-a", false).
Proof.
  split; [reflexivity|]. split; [left; reflexivity|].
  apply (load_conversation_unknown_id (recorder "c-a") (chat_db Healthy) "c-z");
    [reflexivity|left; reflexivity].
Defined.

(** The other outcomes of [load_conversation]: an identifier with a turn of
    the pair is adopted and the memory reset; when the database cannot be
    opened the error leaves the call and the session is untouched. *)
Lemma load_conversation_known_id (a : agent) (db : database) (cid : string) :
  db_health db = Healthy ->
  turns_of db (user_id a) (agent_type a) cid <> [] ->
  load_conversation a db cid
  = Ret (mkagent (user_id a) (agent_type a) cid [], true).
Proof.
  intros Hh H. unfold load_conversation, get_connection, execute. rewrite Hh.
  cbn [bind try_except_Exception]. unfold count_turns.
  fold (turns_of db (user_id a) (agent_type a) cid).
  destruct (turns_of db (user_id a) (agent_type a) cid); [easy|]. reflexivity.
Qed.

Example load_conversation_outcomes :
  load_conversation (recorder "c-a") (chat_db Healthy) "c-b"
  = Ret (recorder "c-b", true)
  /\ load_conversation (recorder "c-a") (chat_db Healthy) "c-x"
     = Ret (recorder "c-a", false)
  /\ load_conversation (recorder "c-a") (chat_db StatementsFail) "c-b"
     = Ret (recorder "c-a", false)
  /\ load_conversation (recorder "c-a") (chat_db Unreachable) "c-b"
     = Raise cannot_open.
Proof. repeat split. Qed.

End ConversationClaims.

(** ** Claims about the session *)

Module AgentClaims.

Local Open Scope string_scope.

Section Generation.

Variable json_loads : string -> option json.
Variable json_str : json -> string.
Variable chat_step :
  list base_message -> base_message -> list base_message * result response.

(** [step] never changes who the session is or which conversation it is in. *)
Lemma step_keeps_identity (a a' : agent) (db : database) (user_msg : base_message)
    (r : reply) :
  step json_loads json_str chat_step a db user_msg = Ret (a', r) ->
  user_id a' = user_id a /\ agent_type a' = agent_type a
  /\ conversation_id a' = conversation_id a.
Proof.
  unfold step. destruct (prompt a db user_msg) as [full_msg|e]; [|discriminate].
  cbn [bind].
  destruct (generate json_loads json_str chat_step a full_msg) as [memory' outcome].
  destruct outcome as [r'|e]; cbn [bind try_except_Exception];
    intros E; injection E as <- _; auto.
Qed.

End Generation.

(** C8, as amended.  Once the stored history has been read, [step] always
    returns and the session keeps its user, agent type and conversation
    identifier.  Whenever the model call raises, or the response lacks its
    tool-call information, or it reports tool calls and carries no message
    (in general: whenever an exception leaves the generation), the reply is
    the fixed-format message "处理请求时出错: <error>。请尝试重新表述您的问题。" of
    the role "系统".  A response that reports tool calls without the
    tool-result information is answered differently: the error is caught
    where the tool results are processed, and the reply is
    "处理工具结果时出错: 'tool_results'" followed by the text of the model,
    under the model's own role. *)
Theorem step_falls_back_on_failure (json_loads : string -> option json)
    (json_str : json -> string)
    (chat_step : list base_message -> base_message
                 -> list base_message * result response)
    (a : agent) (db : database) (user_msg : base_message) :
  get_connection db = Ret tt ->
  exists full_msg a' r,
    prompt a db user_msg = Ret full_msg
    /\ step json_loads json_str chat_step a db user_msg = Ret (a', r)
    /\ conversation_id a' = conversation_id a
    /\ user_id a' = user_id a /\ agent_type a' = agent_type a
    /\ (forall e, snd (generate json_loads json_str chat_step a full_msg) = Raise e ->
                  r = Built (mkmessage "系统" ASSISTANT
                     ("处理请求时出错: " ++ exn_str e ++ "。请尝试重新表述您的问题。")))
    /\ (forall e, snd (chat_step (memory a) full_msg) = Raise e ->
                  r = Built (mkmessage "系统" ASSISTANT
                     ("处理请求时出错: " ++ exn_str e ++ "。请尝试重新表述您的问题。")))
    /\ (forall resp, snd (chat_step (memory a) full_msg) = Ret resp ->
                     tool_calls resp = None ->
                     r = Built (mkmessage "系统" ASSISTANT
                     ("处理请求时出错: " ++ "'tool_calls'" ++ "。请尝试重新表述您的问题。")))
    /\ (forall resp call calls,
          snd (chat_step (memory a) full_msg) = Ret resp ->
          tool_calls resp = Some (call :: calls) ->
          msgs resp = Some [] ->
          r = Built (mkmessage "系统" ASSISTANT
                     ("处理请求时出错: " ++ "list index out of range" ++ "。请尝试重新表述您的问题。")))
    /\ (forall resp call calls m rest,
          snd (chat_step (memory a) full_msg) = Ret resp ->
          tool_calls resp = Some (call :: calls) ->
          msgs resp = Some (m :: rest) ->
          tool_results resp = None ->
          r = Built (mkmessage (role_name m) (role_type m)
                       ("处理工具结果时出错: 'tool_results'" ++ newline
                        ++ "原始回复: " ++ content m))).
Proof.
  intros Hc.
  assert (Hp : exists full_msg, prompt a db user_msg = Ret full_msg).
  { unfold prompt, get_history. rewrite Hc. cbn [bind].
    destruct (execute db); cbn [bind try_except_Exception]; eexists; reflexivity. }
  destruct Hp as (full_msg & Hp). exists full_msg.
  unfold step. rewrite Hp. cbn [bind]. unfold generate.
  destruct (chat_step (memory a) full_msg) as [memory' outcome] eqn:Hg.
  cbn [snd].
  destruct outcome as [resp|e]; cbn [bind].
  - destruct (finish json_loads json_str resp) as [r|e] eqn:Hf;
      cbn [bind try_except_Exception]; eexists; eexists;
      (split; [reflexivity|]); (split; [reflexivity|]);
      cbn [conversation_id user_id agent_type];
      repeat split; try discriminate.
    + intros resp' E Ht. injection E as <-. unfold finish in Hf. rewrite Ht in Hf.
      discriminate.
    + intros resp' call calls E Ht Hm. injection E as <-. unfold finish in Hf.
      rewrite Ht, Hm in Hf. discriminate.
    + intros resp' call calls m rest E Ht Hm Hr. injection E as <-.
      unfold finish in Hf. rewrite Ht, Hm in Hf. injection Hf as <-.
      unfold _process_tool_results, original_content_or_default.
      rewrite Hr, Hm. reflexivity.
    + intros e' E. injection E as <-. reflexivity.
    + intros resp' E Ht. injection E as <-. unfold finish in Hf. rewrite Ht in Hf.
      injection Hf as <-. reflexivity.
    + intros resp' call calls E Ht Hm. injection E as <-. unfold finish in Hf.
      rewrite Ht, Hm in Hf. injection Hf as <-. reflexivity.
    + intros resp' call calls m rest E Ht Hm Hr. injection E as <-.
      unfold finish in Hf. rewrite Ht, Hm in Hf. discriminate Hf.
  - cbn [try_except_Exception]. eexists; eexists.
    (split; [reflexivity|]); (split; [reflexivity|]);
      cbn [conversation_id user_id agent_type].
    repeat split; try discriminate.
    + intros e' E. injection E as <-. reflexivity.
    + intros e' E. injection E as <-. reflexivity.
Qed.

Lemma step_falls_back_on_failure_witness :
  get_connection (chat_db Healthy) = Ret tt
  /\ exists full_msg a' r,
       prompt (recorder "c-b") (chat_db Healthy) (mkmessage "用户" USER "再记一笔")
       = Ret full_msg
       /\ step no_json json_text failing_model (recorder "c-b") (chat_db Healthy)
               (mkmessage "用户" USER "再记一笔") = Ret (a', r)
       /\ conversation_id a' = conversation_id (recorder "c-b")
       /\ user_id a' = user_id (recorder "c-b")
       /\ agent_type a' = agent_type (recorder "c-b")
       /\ (forall e, snd (generate no_json json_text failing_model (recorder "c-b") full_msg) = Raise e ->
                  r = Built (mkmessage "系统" ASSISTANT
                     ("处理请求时出错: " ++ exn_str e ++ "。请尝试重新表述您的问题。")))
       /\ (forall e, snd (failing_model (memory (recorder "c-b")) full_msg) = Raise e ->
                  r = Built (mkmessage "系统" ASSISTANT
                     ("处理请求时出错: " ++ exn_str e ++ "。请尝试重新表述您的问题。")))
       /\ (forall resp, snd (failing_model (memory (recorder "c-b")) full_msg) = Ret resp ->
                     tool_calls resp = None ->
                     r = Built (mkmessage "系统" ASSISTANT
                     ("处理请求时出错: " ++ "'tool_calls'" ++ "。请尝试重新表述您的问题。")))
       /\ (forall resp call calls,
          snd (failing_model (memory (recorder "c-b")) full_msg) = Ret resp ->
          tool_calls resp = Some (call :: calls) ->
          msgs resp = Some [] ->
          r = Built (mkmessage "系统" ASSISTANT
                     ("处理请求时出错: " ++ "list index out of range" ++ "。请尝试重新表述您的问题。")))
       /\ (forall resp call calls m rest,
          snd (failing_model (memory (recorder "c-b")) full_msg) = Ret resp ->
          tool_calls resp = Some (call :: calls) ->
          msgs resp = Some (m :: rest) ->
          tool_results resp = None ->
          r = Built (mkmessage (role_name m) (role_type m)
                       ("处理工具结果时出错: 'tool_results'" ++ newline
                        ++ "原始回复: " ++ content m))).
Proof.
  split; [reflexivity|].
  apply (step_falls_back_on_failure no_json json_text failing_model
           (recorder "c-b") (chat_db Healthy) (mkmessage "用户" USER "再记一笔")).
  reflexivity.
Defined.

(** C8 as stated fails: a response that reports a tool call and lacks the
    tool results is malformed, and the reply is not the fixed-format
    message of the role "系统" but a text of the model's own role that
    starts with "处理工具结果时出错". *)
Lemma malformed_response_is_not_apologised :
  ~ apology_for_every_generation_failure.
Proof.
  intros H.
  destruct (H no_json json_text (answering_model no_tool_results) (recorder "c-b")
              (chat_db Healthy) (mkmessage "用户" USER "再记一笔")
              (mkmessage "用户" USER
                 ("历史对话：" ++ newline ++ "user: 打车20元" ++ newline
                  ++ "用户现在说：再记一笔"))
              eq_refl eq_refl)
    as (a' & m & E & text & M).
  vm_compute in E. injection E as _ <-. discriminate M.
Qed.

(** [step] on a failing model, on a response without the "tool_calls" key,
    on a response with tool calls and tool results, and on a plain answer. *)
Example step_examples :
  let ask := mkmessage "用户" USER "再记一笔" in
  let a := recorder "c-b" in
  let db := chat_db Healthy in
  let asked := mkmessage "用户" USER
                 ("历史对话：" ++ newline ++ "user: 打车20元" ++ newline
                  ++ "用户现在说：再记一笔") in
  step no_json json_text failing_model a db ask
  = Ret (mkagent 1 "小账" "c-b" [asked],
         Built (mkmessage "系统" ASSISTANT
                  "处理请求时出错: Connection error.。请尝试重新表述您的问题。"))
  /\ step no_json json_text
          (answering_model (mkresponse (Some [assistant_says "好的"]) None None None))
          a db ask
     = Ret (mkagent 1 "小账" "c-b" [asked],
            Built (mkmessage "系统" ASSISTANT
                     "处理请求时出错: 'tool_calls'。请尝试重新表述您的问题。"))
  /\ step envelope_json json_text
          (answering_model (mkresponse (Some [assistant_says "好的"]) None
                                       (Some ["add_transaction"])
                                       (Some ["ok"; "bad"; "{oops"])))
          a db ask
     = Ret (mkagent 1 "小账" "c-b" [asked],
            Built (assistant_says
                     ("好的" ++ newline ++ newline
                      ++ "操作成功: 已记录支出: 35元" ++ newline
                      ++ "操作失败: 记录失败" ++ newline
                      ++ "工具返回: {oops" ++ newline)))
  /\ step envelope_json json_text
          (answering_model (mkresponse (Some [assistant_says "好的"]) None
                                       (Some ["add_transaction"]) (Some ["list"])))
          a db ask
     = Ret (mkagent 1 "小账" "c-b" [asked],
            Built (assistant_says
                     ("处理工具结果时出错: object has no attribute 'get'" ++ newline
                      ++ "原始回复: 好的")))
  /\ step no_json json_text
          (answering_model (mkresponse (Some [assistant_says "好的"]) None (Some []) None))
          a db ask
     = Ret (mkagent 1 "小账" "c-b" [asked],
            Passed (mkresponse (Some [assistant_says "好的"]) None (Some []) None))
  /\ step no_json json_text failing_model a (chat_db Unreachable) ask
     = Raise cannot_open.
Proof. repeat split. Qed.

(** *** Conversation identifiers *)

Lemma append_same_prefix (p x y : string) : p ++ x = p ++ y -> x = y.
Proof.
  induction p as [|c p IH]; cbn [append]; [easy|].
  intros E. injection E as E. exact (IH E).
Qed.

Lemma append_same_length (x x' y y' : string) :
  String.length x = String.length x' -> x ++ y = x' ++ y' -> x = x' /\ y = y'.
Proof.
  revert x'. induction x as [|c x IH]; intros [|c' x']; cbn [String.length append];
    try discriminate.
  - auto.
  - intros L E. injection L as L. injection E as -> E.
    destruct (IH x' L E) as [-> ->]. auto.
Qed.

Lemma digit_char_inj (a b : Z) : digit_char a = digit_char b -> a mod 10 = b mod 10.
Proof.
  intros E. apply (f_equal digit_val) in E.
  rewrite !digit_val_digit_char in E. injection E as E. exact E.
Qed.

Lemma pad2_inj (a b : Z) :
  (0 <= a < 100)%Z -> (0 <= b < 100)%Z -> pad2 a = pad2 b -> a = b.
Proof.
  intros Ha Hb E. unfold pad2 in E. injection E as E1 E0.
  apply digit_char_inj in E1, E0.
  revert E1 E0. Z.div_mod_to_equations. lia.
Qed.

Lemma pad4_inj (a b : Z) :
  (0 <= a < 10000)%Z -> (0 <= b < 10000)%Z -> pad4 a = pad4 b -> a = b.
Proof.
  intros Ha Hb E. unfold pad4, pad2 in E. injection E as E3 E2 E1 E0.
  apply digit_char_inj in E3, E2, E1, E0.
  revert E3 E2 E1 E0. Z.div_mod_to_equations. lia.
Qed.

Lemma strftime_compact_length (t : datetime) :
  String.length (strftime_compact t) = 14%nat.
Proof. reflexivity. Qed.

Lemma clock_reading_bounds (t : datetime) :
  clock_reading t = true ->
  (1000 <= year (dt_date t) <= 9999 /\ 1 <= month (dt_date t) <= 12
   /\ 1 <= day (dt_date t) <= 31 /\ 0 <= hour t < 24 /\ 0 <= minute t < 60
   /\ 0 <= second t < 60)%Z.
Proof.
  unfold clock_reading, valid_datetimeb. intros H.
  repeat (apply andb_prop in H; destruct H as [H ?]).
  unfold MINYEAR, MAXYEAR in *.
  pose proof (days_in_month_bounds (year (dt_date t)) (month (dt_date t))).
  lia.
Qed.

(** Readings render alike exactly when they fall in the same second. *)
Lemma strftime_compact_inj (t1 t2 : datetime) :
  clock_reading t1 = true -> clock_reading t2 = true ->
  strftime_compact t1 = strftime_compact t2 -> same_second t1 t2.
Proof.
  intros H1 H2 E.
  apply clock_reading_bounds in H1, H2.
  unfold strftime_compact in E.
  apply append_same_length in E; [|reflexivity]. destruct E as [Ey E].
  apply append_same_length in E; [|reflexivity]. destruct E as [Em E].
  apply append_same_length in E; [|reflexivity]. destruct E as [Ed E].
  apply append_same_length in E; [|reflexivity]. destruct E as [Eh E].
  apply append_same_length in E; [|reflexivity]. destruct E as [Emi Es].
  apply pad4_inj in Ey; [|lia|lia].
  apply pad2_inj in Em, Ed, Eh, Emi, Es; try lia.
  unfold same_second. destruct t1 as [[y1 m1 d1] h1 mi1 s1 u1], t2 as [[y2 m2 d2] h2 mi2 s2 u2].
  cbn in *. subst. auto.
Qed.

Lemma same_second_renders_alike (t1 t2 : datetime) :
  same_second t1 t2 -> strftime_compact t1 = strftime_compact t2.
Proof.
  unfold same_second, strftime_compact. intros (-> & -> & -> & ->). reflexivity.
Qed.

Lemma hex_digit_inj (a b : N) :
  (a < 16)%N -> (b < 16)%N -> hex_digit a = hex_digit b -> a = b.
Proof.
  intros Ha Hb.
  assert (forall n, (n < 16)%N -> n = N.of_nat (N.to_nat n)) as R by (intros; lia).
  rewrite (R a Ha), (R b Hb).
  assert (N.to_nat a < 16)%nat as Ha' by lia.
  assert (N.to_nat b < 16)%nat as Hb' by lia.
  revert Ha' Hb'. generalize (N.to_nat a) (N.to_nat b). intros x y Hx Hy.
  do 16 (destruct x as [|x]; [do 16 (destruct y as [|y]; [cbn; try discriminate; reflexivity|]); lia|]).
  lia.
Qed.

Lemma hex_inj (r1 : list Byte.byte) : forall r2, hex r1 = hex r2 -> r1 = r2.
Proof.
  induction r1 as [|b1 r1 IH]; intros [|b2 r2]; cbn [hex]; try discriminate.
  - reflexivity.
  - intros E. injection E as Eh El E.
    pose proof (Byte.to_N_bounded b1). pose proof (Byte.to_N_bounded b2).
    apply hex_digit_inj in Eh; [|apply N.Div0.div_lt_upper_bound; lia
                                |apply N.Div0.div_lt_upper_bound; lia].
    apply hex_digit_inj in El; [|apply N.mod_lt; lia|apply N.mod_lt; lia].
    assert (Byte.to_N b1 = Byte.to_N b2) as Eb.
    { rewrite (N.div_mod' (Byte.to_N b1) 16), (N.div_mod' (Byte.to_N b2) 16).
      rewrite Eh, El. reflexivity. }
    f_equal; [|exact (IH _ E)].
    apply (f_equal Byte.of_N) in Eb. rewrite !Byte.of_to_N in Eb.
    injection Eb as Eb. exact Eb.
Qed.

Lemma string_tail_eq (c : ascii) (x y : string) : String c x = String c y -> x = y.
Proof. intros E. injection E as E. exact E. Qed.

Lemma conversation_id_inj (a : agent) (now1 now2 : datetime)
    (r1 r2 : list Byte.byte) :
  _generate_conversation_id a now1 r1 = _generate_conversation_id a now2 r2 ->
  strftime_compact now1 = strftime_compact now2 /\ r1 = r2.
Proof.
  unfold _generate_conversation_id. intros E.
  apply append_same_prefix in E. apply (string_tail_eq "_"%char) in E.
  apply append_same_prefix in E. apply (string_tail_eq "_"%char) in E.
  apply append_same_length in E; [|reflexivity].
  destruct E as [Et E]. apply (string_tail_eq "_"%char) in E.
  apply hex_inj in E. auto.
Qed.

Lemma new_conversation_id (a : agent) (now : datetime) (r : list Byte.byte) :
  conversation_id (new_conversation a now r) = _generate_conversation_id a now r.
Proof. reflexivity. Qed.

Lemma generate_after_new (a : agent) (now now' : datetime) (r r' : list Byte.byte) :
  _generate_conversation_id (new_conversation a now r) now' r'
  = _generate_conversation_id a now' r'.
Proof. reflexivity. Qed.

(** C9, as amended.  Two conversations started in succession on a session
    get the same identifier exactly when the two clock readings fall in the
    same second and [os.urandom] returns the same bytes both times; a
    difference in the random bytes, or in the second, gives distinct
    identifiers. *)
Theorem successive_ids_equal_iff (a : agent) (now1 now2 : datetime)
    (r1 r2 : list Byte.byte) :
  clock_reading now1 = true ->
  clock_reading now2 = true ->
  (conversation_id (new_conversation a now1 r1)
   = conversation_id (new_conversation (new_conversation a now1 r1) now2 r2)
   <-> same_second now1 now2 /\ r1 = r2)
  /\ (r1 <> r2 ->
      conversation_id (new_conversation a now1 r1)
      <> conversation_id (new_conversation (new_conversation a now1 r1) now2 r2)).
Proof.
  intros H1 H2.
  assert (I : conversation_id (new_conversation a now1 r1)
              = conversation_id (new_conversation (new_conversation a now1 r1) now2 r2)
              <-> same_second now1 now2 /\ r1 = r2).
  { rewrite !new_conversation_id, generate_after_new. split.
    - intros E. apply conversation_id_inj in E. destruct E as [Et Er].
      split; [apply strftime_compact_inj; assumption|exact Er].
    - intros [Hs ->]. unfold _generate_conversation_id.
      rewrite (same_second_renders_alike _ _ Hs). reflexivity. }
  split; [exact I|]. intros N E. apply I in E. destruct E as [_ E]. exact (N E).
Qed.

Lemma successive_ids_equal_iff_witness :
  clock_reading may_20 = true
  /\ clock_reading feb_10 = true
  /\ (conversation_id (new_conversation (recorder "c-a") may_20 [Byte.x00; Byte.x01; Byte.xfe; Byte.xff])
      = conversation_id
          (new_conversation
             (new_conversation (recorder "c-a") may_20 [Byte.x00; Byte.x01; Byte.xfe; Byte.xff])
             feb_10 [Byte.x00; Byte.x01; Byte.xfe; Byte.xff])
      <-> same_second may_20 feb_10
          /\ [Byte.x00; Byte.x01; Byte.xfe; Byte.xff] = [Byte.x00; Byte.x01; Byte.xfe; Byte.xff])
  /\ ([Byte.x00; Byte.x01; Byte.xfe; Byte.xff] <> [Byte.x00; Byte.x01; Byte.xfe; Byte.xff] ->
      conversation_id (new_conversation (recorder "c-a") may_20 [Byte.x00; Byte.x01; Byte.xfe; Byte.xff])
      <> conversation_id
           (new_conversation
              (new_conversation (recorder "c-a") may_20 [Byte.x00; Byte.x01; Byte.xfe; Byte.xff])
              feb_10 [Byte.x00; Byte.x01; Byte.xfe; Byte.xff])).
Proof.
  split; [reflexivity|]. split; [reflexivity|].
  apply (successive_ids_equal_iff (recorder "c-a") may_20 feb_10
           [Byte.x00; Byte.x01; Byte.xfe; Byte.xff]
           [Byte.x00; Byte.x01; Byte.xfe; Byte.xff]); reflexivity.
Defined.

Example conversation_id_example :
  conversation_id (new_conversation (recorder "c-a") may_20
                     [Byte.x00; Byte.x01; Byte.xfe; Byte.xff])
  = "1_小账_20240520103000_0001feff".
Proof. reflexivity. Qed.

(** C9 as stated fails: two calls in the same second for which
    [os.urandom] returns the same four bytes produce the same identifier. *)
Lemma successive_ids_can_collide : ~ successive_ids_always_distinct.
Proof.
  intros H.
  apply (H (recorder "c-a") may_20 may_20
           [Byte.x00; Byte.x01; Byte.xfe; Byte.xff]
           [Byte.x00; Byte.x01; Byte.xfe; Byte.xff]); reflexivity.
Qed.

End AgentClaims.

(** ** Users, and what recording needs of them *)

Module UserProperties.

Local Open Scope string_scope.

Lemma user_exists_app (db : database) (rows : list user_row) (user_id : Z) :
  user_exists (with_users db (users db ++ rows)%list) user_id
  = user_exists db user_id || existsb (fun u => (u_id u =? user_id)%Z) rows.
Proof. unfold user_exists. cbn [users with_users]. apply existsb_app. Qed.

(** Whatever the budget check does afterwards, an insert that passes
    stores its row: [add_transaction] on a store that answers, for a user
    that exists. *)
Lemma add_transaction_stores (db : database) (user_id : Z) (today now : datetime)
    (amount : Q) (category : string) (transaction_date description : option string) :
  db_health db = Healthy ->
  user_exists db user_id = true ->
  let date := match transaction_date with
              | None => strftime_ymd (dt_date today)
              | Some s => s
              end in
  let id := next_rowid (seq_transactions db) (map t_id (transactions db)) in
  exists db' env,
    add_transaction db user_id today now amount category transaction_date description
    = Ret (db', env)
    /\ transactions db'
       = (transactions db
          ++ [mktransaction id user_id amount category date description
                            (isoformat now)])%list
    /\ users db' = users db /\ budgets db' = budgets db
    /\ conversations db' = conversations db /\ db_health db' = Healthy
    /\ (env_status env = Success ->
        env_record_id env = Some id
        /\ _check_budget_warning db' user_id category amount date
           = Ret (env_warning env)).
Proof.
  intros Hh Hu date id. unfold add_transaction, get_connection. rewrite Hh.
  cbn [bind]. fold date.
  unfold insert_transaction, execute. rewrite Hh. cbn [bind]. rewrite Hu.
  fold id.
  match goal with |- context [_check_budget_warning ?d _ _ _ _] => set (db' := d) end.
  destruct (_check_budget_warning db' user_id category amount date) as [w|e] eqn:W;
    eexists; eexists; (split; [reflexivity|]);
    cbn [transactions users budgets conversations db_health with_transactions
         env_status env_record_id env_warning];
    (split; [reflexivity|]); (split; [reflexivity|]); (split; [reflexivity|]);
    (split; [reflexivity|]); (split; [exact Hh|]).
  - intros _. split; [reflexivity|exact W].
  - discriminate.
Qed.

(** X1.  When the user id is already there, or the username is still free,
    [ensure_user_exists] leaves a store in which the user exists, and a
    following [add_transaction] stores its row instead of failing on the
    foreign key. *)
Theorem ensure_user_enables_recording (db : database) (user_id : Z)
    (username : string) (now today now' : datetime) (amount : Q)
    (category : string) (transaction_date description : option string) :
  db_health db = Healthy ->
  user_exists db user_id = true \/ username_taken db username = false ->
  exists db1 db2 env,
    ensure_user_exists db user_id username now = Ret db1
    /\ user_exists db1 user_id = true
    /\ transactions db1 = transactions db
    /\ add_transaction db1 user_id today now' amount category transaction_date
                       description = Ret (db2, env)
    /\ List.length (transactions db2) = S (List.length (transactions db))
    /\ (exists row, In row (transactions db2) /\ t_user_id row = user_id
                    /\ t_amount row = amount /\ t_category row = category
                    /\ t_created_at row = isoformat now').
Proof.
  intros Hh H.
  assert (E : exists db1, ensure_user_exists db user_id username now = Ret db1
                          /\ user_exists db1 user_id = true
                          /\ transactions db1 = transactions db
                          /\ db_health db1 = Healthy).
  { unfold ensure_user_exists, get_connection, execute. rewrite Hh. cbn [bind].
    destruct (user_exists db user_id) eqn:Hu; cbn [orb].
    - exists db. auto.
    - destruct H as [H|H]; [discriminate|]. rewrite H.
      eexists. split; [reflexivity|]. split; [|split; [reflexivity|exact Hh]].
      rewrite user_exists_app. cbn [existsb u_id]. rewrite Z.eqb_refl.
      apply orb_true_r. }
  destruct E as (db1 & E1 & Hu1 & Ht1 & Hh1).
  destruct (add_transaction_stores db1 user_id today now' amount category
              transaction_date description Hh1 Hu1)
    as (db2 & env & E2 & Ht2 & _).
  exists db1, db2, env. repeat split; try assumption.
  - rewrite Ht2, length_app, Ht1. cbn. lia.
  - eexists. split; [rewrite Ht2; apply in_or_app; right; left; reflexivity|].
    repeat split.
Qed.

Lemma ensure_user_enables_recording_witness :
  db_health no_user_db = Healthy
  /\ (user_exists no_user_db 1 = true \/ username_taken no_user_db "default_user" = false)
  /\ exists db1 db2 env,
       ensure_user_exists no_user_db 1 "default_user" feb_10 = Ret db1
       /\ user_exists db1 1 = true
       /\ transactions db1 = transactions no_user_db
       /\ add_transaction db1 1 may_20 may_20 (-35) "餐饮" None None = Ret (db2, env)
       /\ List.length (transactions db2) = S (List.length (transactions no_user_db))
       /\ (exists row, In row (transactions db2) /\ t_user_id row = 1
                       /\ t_amount row = (-35)%Q /\ t_category row = "餐饮"
                       /\ t_created_at row = isoformat may_20).
Proof.
  split; [reflexivity|]. split; [right; reflexivity|].
  apply (ensure_user_enables_recording no_user_db 1 "default_user" feb_10 may_20
           may_20 (-35) "餐饮" None None); [reflexivity|right; reflexivity].
Defined.

(** X2.  [ensure_user_exists] returns whenever the database opens; calling
    it again changes nothing more; it keeps every user row and the other
    tables as they are; and when the id is new but the username belongs to
    another row, nothing is inserted and nothing is reported. *)
Theorem ensure_user_exists_idempotent (db : database) (user_id : Z)
    (username : string) (now now' : datetime) :
  get_connection db = Ret tt ->
  exists db1,
    ensure_user_exists db user_id username now = Ret db1
    /\ ensure_user_exists db1 user_id username now' = Ret db1
    /\ (forall u, In u (users db) -> In u (users db1))
    /\ transactions db1 = transactions db /\ budgets db1 = budgets db
    /\ conversations db1 = conversations db
    /\ (user_exists db user_id = false -> username_taken db username = true ->
        db1 = db).
Proof.
  intros Hc. unfold ensure_user_exists. rewrite Hc. cbn [bind].
  unfold get_connection in *. unfold execute.
  destruct (db_health db) eqn:Hh; try discriminate; cbn [bind].
  - destruct (user_exists db user_id || username_taken db username) eqn:C.
    + exists db. rewrite Hh. cbn [bind]. rewrite C. repeat split; auto.
    + apply orb_false_elim in C. destruct C as [C1 C2].
      eexists. split; [reflexivity|].
      cbn [db_health with_users bind]. rewrite Hh. cbn [bind].
      rewrite user_exists_app. cbn [existsb u_id]. rewrite Z.eqb_refl, orb_true_r.
      cbn [orb users]. repeat split; auto.
      * intros u Hu. apply in_or_app. left. exact Hu.
      * intros _ T. congruence.
  - cbn [is_sqlite_error statement_failed exn_class_of]. exists db.
    rewrite Hh. cbn. repeat split; auto.
Qed.

Lemma ensure_user_exists_idempotent_witness :
  get_connection name_taken_db = Ret tt
  /\ exists db1,
       ensure_user_exists name_taken_db 1 "default_user" feb_10 = Ret db1
       /\ ensure_user_exists db1 1 "default_user" may_20 = Ret db1
       /\ (forall u, In u (users name_taken_db) -> In u (users db1))
       /\ transactions db1 = transactions name_taken_db
       /\ budgets db1 = budgets name_taken_db
       /\ conversations db1 = conversations name_taken_db
       /\ (user_exists name_taken_db 1 = false ->
           username_taken name_taken_db "default_user" = true ->
           db1 = name_taken_db).
Proof.
  split; [reflexivity|].
  apply (ensure_user_exists_idempotent name_taken_db 1 "default_user" feb_10 may_20).
  reflexivity.
Defined.

(** The startup call on a store where "default_user" is user 7: user 1 is
    not created, and recording for user 1 then fails on the foreign key. *)
Example username_clash_leaves_user_missing :
  ensure_user_exists name_taken_db 1 "default_user" feb_10 = Ret name_taken_db
  /\ add_transaction name_taken_db 1 may_20 may_20 (-35) "餐饮" None None
     = Ret (name_taken_db,
            mkenvelope Error (RecordFailed "FOREIGN KEY constraint failed") None None).
Proof. split; reflexivity. Qed.

End UserProperties.

(** ** add_transaction: failures, dates that do not parse, record ids *)

Module RecordingProperties.

Local Open Scope string_scope.

(** X3.  When the user row is missing, or the statements of the store
    fail, [add_transaction] returns an error envelope without a record id
    or a warning, and the store is left exactly as it was. *)
Theorem add_transaction_failure_changes_nothing (db : database) (user_id : Z)
    (today now : datetime) (amount : Q) (category : string)
    (transaction_date description : option string) :
  get_connection db = Ret tt ->
  user_exists db user_id = false \/ db_health db = StatementsFail ->
  exists reason,
    add_transaction db user_id today now amount category transaction_date description
    = Ret (db, mkenvelope Error (RecordFailed reason) None None).
Proof.
  intros Hc H. unfold add_transaction. rewrite Hc. cbn [bind].
  unfold insert_transaction, execute. unfold get_connection in Hc.
  destruct (db_health db) eqn:Hh; try discriminate; cbn [bind].
  - destruct H as [H|H]; [|discriminate]. rewrite H. eexists. reflexivity.
  - eexists. reflexivity.
Qed.

Lemma add_transaction_failure_changes_nothing_witness :
  get_connection no_user_db = Ret tt
  /\ (user_exists no_user_db 1 = false \/ db_health no_user_db = StatementsFail)
  /\ exists reason,
       add_transaction no_user_db 1 may_20 may_20 (-35) "餐饮" None None
       = Ret (no_user_db, mkenvelope Error (RecordFailed reason) None None).
Proof.
  split; [reflexivity|]. split; [left; reflexivity|].
  apply (add_transaction_failure_changes_nothing no_user_db 1 may_20 may_20 (-35)
           "餐饮" None None); [reflexivity|left; reflexivity].
Defined.

Lemma month_end_unparsable (s : string) (e : exn) :
  strptime_ymd s = Raise e -> exists e', month_end s = Raise e'
                                         /\ exn_class_of e' = ValueError.
Proof.
  intros H. unfold month_end. rewrite H. cbn [bind]. exists e. split; [reflexivity|].
  unfold strptime_ymd in H.
  repeat match type of H with
         | match ?x with _ => _ end = _ => destruct x; try discriminate
         | (if ?x then _ else _) = _ => destruct x; try discriminate
         | (let '(_, _) := ?x in _) = _ => destruct x
         end;
    injection H as <-; reflexivity.
Qed.

(** X4.  The date text is not validated before the insert: an expense
    whose (ASCII) date text does not parse as YYYY-MM-DD is stored all the
    same, with the text as given, and the envelope is a success whose
    warning is the date-format message. *)
Theorem add_transaction_keeps_unparsable_date (db : database) (user_id : Z)
    (today now : datetime) (amount : Q) (category date : string)
    (description : option string) (e : exn) :
  db_health db = Healthy ->
  user_exists db user_id = true ->
  (amount <= 0)%Q ->
  ascii_text date = true ->
  strptime_ymd date = Raise e ->
  exists db' id,
    add_transaction db user_id today now amount category (Some date) description
    = Ret (db', mkenvelope Success (Recorded false (Qabs amount)) (Some id)
                           (Some DateFormatError))
    /\ transactions db'
       = (transactions db
          ++ [mktransaction id user_id amount category date description
                            (isoformat now)])%list.
Proof.
  intros Hh Hu Ha _ He.
  destruct (WarningClaims.insert_transaction_healthy db user_id amount category date
              description (isoformat now) Hh Hu) as (db' & id & Hi & _ & _ & Ht).
  exists db', id. split; [|exact Ht].
  unfold add_transaction, get_connection. rewrite Hh. cbn [bind]. rewrite Hi.
  unfold _check_budget_warning.
  rewrite (proj2 (Qgtb_false amount 0) Ha).
  destruct (month_end_unparsable date e He) as ([cls msg] & Hm & Hcls).
  cbn in Hcls. subst cls. rewrite Hm. reflexivity.
Qed.

Lemma add_transaction_keeps_unparsable_date_witness :
  db_health one_user_db = Healthy
  /\ user_exists one_user_db 1 = true
  /\ (-35 <= 0)%Q
  /\ ascii_text "2024-02-30" = true
  /\ strptime_ymd "2024-02-30" = Raise out_of_range
  /\ exists db' id,
       add_transaction one_user_db 1 may_20 may_20 (-35) "餐饮" (Some "2024-02-30") None
       = Ret (db', mkenvelope Success (Recorded false (Qabs (-35))) (Some id)
                              (Some DateFormatError))
       /\ transactions db'
          = (transactions one_user_db
             ++ [mktransaction id 1 (-35) "餐饮" "2024-02-30" None (isoformat may_20)])%list.
Proof.
  split; [reflexivity|]. split; [reflexivity|].
  split; [unfold Qle; simpl; lia|]. split; [reflexivity|]. split; [reflexivity|].
  apply (add_transaction_keeps_unparsable_date one_user_db 1 may_20 may_20 (-35)
           "餐饮" "2024-02-30" None out_of_range);
    [reflexivity|reflexivity|unfold Qle; simpl; lia|reflexivity|reflexivity].
Defined.

Lemma fold_max_upper (ids : list Z) (x : Z) :
  In x ids -> (x <= fold_right Z.max 0 ids)%Z.
Proof.
  induction ids as [|y ids IH]; [easy|]. cbn [fold_right].
  intros [->|H]; [lia|]. specialize (IH H). lia.
Qed.

(** X5.  On a store that answers, for a user that exists,
    [add_transaction] appends exactly one row, whose id is larger than every
    id of the table, and leaves the other rows and tables alone; this holds
    for every envelope it returns, so a call that reports an error because
    the budget check raised has stored its row too. *)
Theorem add_transaction_appends_fresh_row (db : database) (user_id : Z)
    (today now : datetime) (amount : Q) (category : string)
    (transaction_date description : option string) :
  db_health db = Healthy ->
  user_exists db user_id = true ->
  exists db' env row,
    add_transaction db user_id today now amount category transaction_date description
    = Ret (db', env)
    /\ transactions db' = (transactions db ++ [row])%list
    /\ Forall (fun t => (t_id t < t_id row)%Z) (transactions db)
    /\ t_user_id row = user_id /\ t_amount row = amount /\ t_category row = category
    /\ t_description row = description
    /\ budgets db' = budgets db /\ users db' = users db
    /\ conversations db' = conversations db
    /\ (env_status env = Success -> env_record_id env = Some (t_id row)).
Proof.
  intros Hh Hu.
  destruct (UserProperties.add_transaction_stores db user_id today now amount category
              transaction_date description Hh Hu)
    as (db' & env & E & Ht & Hus & Hb & Hc & _ & Hs).
  exists db', env. eexists. split; [exact E|]. split; [exact Ht|].
  cbn [t_id t_user_id t_amount t_category t_description].
  split.
  - apply Forall_forall. intros t Hin. unfold next_rowid.
    pose proof (fold_max_upper (map t_id (transactions db)) (t_id t)
                  (in_map t_id _ _ Hin)). lia.
  - repeat split; auto. intros S. apply Hs. exact S.
Qed.

Lemma add_transaction_appends_fresh_row_witness :
  db_health spent_470_db = Healthy
  /\ user_exists spent_470_db 1 = true
  /\ exists db' env row,
       add_transaction spent_470_db 1 may_20 may_20 (-35) "餐饮" (Some "9999-12-05") None
       = Ret (db', env)
       /\ transactions db' = (transactions spent_470_db ++ [row])%list
       /\ Forall (fun t => (t_id t < t_id row)%Z) (transactions spent_470_db)
       /\ t_user_id row = 1 /\ t_amount row = (-35)%Q /\ t_category row = "餐饮"
       /\ t_description row = None
       /\ budgets db' = budgets spent_470_db /\ users db' = users spent_470_db
       /\ conversations db' = conversations spent_470_db
       /\ (env_status env = Success -> env_record_id env = Some (t_id row)).
Proof.
  split; [reflexivity|]. split; [reflexivity|].
  apply (add_transaction_appends_fresh_row spent_470_db 1 may_20 may_20 (-35) "餐饮"
           (Some "9999-12-05") None); reflexivity.
Defined.

End RecordingProperties.

(** ** set_budget: the other default periods, failures, and the check
       that follows *)

Module PeriodProperties.

Local Open Scope string_scope.

(** The table after a successful [set_budget]: the rows that do not clash
    with the new one, then the new one. *)
Lemma set_budget_table (db : database) (user_id : Z) (today now : datetime)
    (category : string) (amount : Q) (period_type : string)
    (period_start period_end : option string) (ps pe : string) :
  db_health db = Healthy ->
  user_exists db user_id = true ->
  resolve_period (dt_date today) period_type period_start period_end = Ret (ps, pe) ->
  exists db' kept,
    set_budget db user_id today now category amount period_type period_start period_end
    = Ret (db', mkenvelope Success (BudgetSet period_type category amount) None None)
    /\ budgets db'
       = (kept ++ [upserted_row db user_id now category amount period_type ps pe])%list
    /\ (forall b, In b kept -> In b (budgets db))
    /\ db_health db' = Healthy /\ users db' = users db
    /\ transactions db' = transactions db.
Proof.
  intros Hh Hu Hr. unfold set_budget. rewrite Hr. cbn [bind].
  unfold get_connection, insert_or_replace_budget, execute. rewrite Hh. cbn [bind].
  rewrite Hu. eexists. eexists. split; [reflexivity|].
  cbn [budgets with_budgets db_health users transactions].
  split; [reflexivity|]. split; [|auto].
  intros b Hb. apply filter_In in Hb. tauto.
Qed.

Lemma default_period_quarter (today : date) :
  valid_dateb today = true ->
  (year today < 9999)%Z ->
  default_period today "季"
  = Ret (strftime_ymd (first_of_month today),
         strftime_ymd (if (month today <=? 10)%Z
                       then last_of_month (mkdate (year today) (month today + 2) 1)
                       else mkdate (year today) 12 31)).
Proof.
  intros Hv Hy. pose proof (valid_date_bounds today Hv) as (By & Bm & Bd).
  unfold default_period. cbn [String.eqb Ascii.eqb Bool.eqb].
  rewrite replace_day_first by assumption. cbn [bind].
  unfold replace_month_day at 1.
  destruct (Z.leb_spec (month today) 10) as [L|L].
  - pose proof (days_in_month_bounds (year today) (month today + 2)) as Hb.
    rewrite valid_date_intro by lia. cbn [bind try_except].
    assert (Hn : has_next_month (year today) (month today + 2) = true).
    { unfold has_next_month, MAXYEAR. apply orb_true_iff. right. apply Z.ltb_lt. lia. }
    assert (E := last_day_via_next_month (year today) (month today + 2) 1 32
                   ltac:(lia) ltac:(lia) Hn ltac:(lia) ltac:(cbn; lia)).
    unfold bind in E |- *.
    destruct (add_days (mkdate (year today) (month today + 2) 1) 32) as [later|e];
      [|discriminate E].
    destruct (replace_day later 1) as [nf|e]; [|discriminate E].
    rewrite E. reflexivity.
  - assert (V : valid_dateb (mkdate (year today) (month today + 2) 1) = false).
    { unfold valid_dateb. cbn [year month day].
      destruct (Z.leb_spec (month today + 2) 12); [lia|].
      rewrite !andb_false_r. reflexivity. }
    rewrite V. cbn [bind try_except out_of_range exn_class_of exn_class_eqb].
    unfold replace_month_day. rewrite valid_date_intro; [reflexivity|lia|lia|].
    cbn. lia.
Qed.

Lemma default_period_year (today : date) (period_type : string) :
  valid_dateb today = true ->
  String.eqb period_type "月" = false ->
  String.eqb period_type "季" = false ->
  default_period today period_type
  = Ret (strftime_ymd (mkdate (year today) 1 1),
         strftime_ymd (mkdate (year today) 12 31)).
Proof.
  intros Hv H1 H2. pose proof (valid_date_bounds today Hv) as (By & Bm & Bd).
  unfold default_period. rewrite H1, H2. unfold replace_month_day.
  rewrite !valid_date_intro; try lia; try (cbn; lia). reflexivity.
Qed.

Lemma stored_row_of_default (db : database) (user_id : Z) (today now : datetime)
    (category : string) (amount : Q) (period_type ps pe : string) :
  db_health db = Healthy ->
  user_exists db user_id = true ->
  default_period (dt_date today) period_type = Ret (ps, pe) ->
  exists db' row,
    set_budget db user_id today now category amount period_type None None
    = Ret (db', mkenvelope Success (BudgetSet period_type category amount) None None)
    /\ In row (budgets db')
    /\ b_user_id row = user_id /\ b_category row = category
    /\ b_amount row = amount /\ b_period_type row = period_type
    /\ b_updated_at row = isoformat now
    /\ b_period_start row = ps /\ b_period_end row = pe.
Proof.
  intros Hh Hu Hd.
  destruct (set_budget_table db user_id today now category amount period_type
              None None ps pe Hh Hu Hd) as (db' & kept & E & T & _).
  exists db'. eexists. split; [exact E|]. split.
  - rewrite T. apply in_or_app. right. left. reflexivity.
  - repeat split.
Qed.

(** X6.  A quarter budget ("季") set without bounds runs from the first
    day of the clock's month to the last day of the month two months later;
    in November and December, where that month would be past December, it
    ends on 31 December of the same year instead. *)
Theorem set_budget_quarter_defaults (db : database) (user_id : Z)
    (today now : datetime) (category : string) (amount : Q) :
  db_health db = Healthy ->
  user_exists db user_id = true ->
  valid_dateb (dt_date today) = true ->
  (1000 <= year (dt_date today) < 9999)%Z ->
  exists db' row,
    set_budget db user_id today now category amount "季" None None
    = Ret (db', mkenvelope Success (BudgetSet "季" category amount) None None)
    /\ In row (budgets db')
    /\ b_user_id row = user_id /\ b_category row = category
    /\ b_amount row = amount /\ b_period_type row = "季"
    /\ b_period_start row
       = strftime_ymd (mkdate (year (dt_date today)) (month (dt_date today)) 1)
    /\ b_period_end row
       = strftime_ymd
           (if (month (dt_date today) <=? 10)%Z
            then mkdate (year (dt_date today)) (month (dt_date today) + 2)
                        (days_in_month (year (dt_date today))
                                       (month (dt_date today) + 2))
            else mkdate (year (dt_date today)) 12 31).
Proof.
  intros Hh Hu Hv Hy.
  destruct (stored_row_of_default db user_id today now category amount "季" _ _
              Hh Hu (default_period_quarter _ Hv ltac:(lia)))
    as (db' & row & E & Hin & A & B & C & D & _ & F & G).
  exists db', row. repeat split; assumption.
Qed.

Lemma set_budget_quarter_defaults_witness :
  db_health one_user_db = Healthy
  /\ user_exists one_user_db 1 = true
  /\ valid_dateb (dt_date feb_10) = true
  /\ (1000 <= year (dt_date feb_10) < 9999)%Z
  /\ exists db' row,
       set_budget one_user_db 1 feb_10 feb_10 "餐饮" 1500 "季" None None
       = Ret (db', mkenvelope Success (BudgetSet "季" "餐饮" 1500) None None)
       /\ In row (budgets db')
       /\ b_user_id row = 1 /\ b_category row = "餐饮"
       /\ b_amount row = 1500%Q /\ b_period_type row = "季"
       /\ b_period_start row
          = strftime_ymd (mkdate (year (dt_date feb_10)) (month (dt_date feb_10)) 1)
       /\ b_period_end row
          = strftime_ymd
              (if (month (dt_date feb_10) <=? 10)%Z
               then mkdate (year (dt_date feb_10)) (month (dt_date feb_10) + 2)
                           (days_in_month (year (dt_date feb_10))
                                          (month (dt_date feb_10) + 2))
               else mkdate (year (dt_date feb_10)) 12 31).
Proof.
  split; [reflexivity|]. split; [reflexivity|]. split; [reflexivity|].
  split; [simpl; lia|].
  apply (set_budget_quarter_defaults one_user_db 1 feb_10 feb_10 "餐饮" 1500);
    [reflexivity|reflexivity|reflexivity|simpl; lia].
Defined.

Example default_period_quarter_examples :
  default_period (mkdate 2024 2 10) "季" = Ret ("2024-02-01", "2024-04-30")
  /\ default_period (mkdate 2023 12 31) "季" = Ret ("2023-12-01", "2023-12-31")
  /\ default_period (mkdate 2024 10 5) "季" = Ret ("2024-10-01", "2024-12-31")
  /\ default_period (mkdate 2024 11 5) "季" = Ret ("2024-11-01", "2024-12-31")
  /\ default_period (mkdate 2024 11 5) "年" = Ret ("2024-01-01", "2024-12-31")
  /\ default_period (mkdate 2024 11 5) "week" = Ret ("2024-01-01", "2024-12-31")
  /\ default_period (mkdate 9999 12 5) "月" = Raise date_overflow.
Proof. repeat split. Qed.

(** X7.  Every period type other than "月" and "季" (the year "年", but
    also any text the caller makes up) set without bounds is stored with the
    calendar year of the clock as its period, under the period type given. *)
Theorem set_budget_other_types_get_the_year (db : database) (user_id : Z)
    (today now : datetime) (category period_type : string) (amount : Q) :
  db_health db = Healthy ->
  user_exists db user_id = true ->
  valid_dateb (dt_date today) = true ->
  (1000 <= year (dt_date today))%Z ->
  String.eqb period_type "月" = false ->
  String.eqb period_type "季" = false ->
  exists db' row,
    set_budget db user_id today now category amount period_type None None
    = Ret (db', mkenvelope Success (BudgetSet period_type category amount) None None)
    /\ In row (budgets db')
    /\ b_user_id row = user_id /\ b_category row = category
    /\ b_amount row = amount /\ b_period_type row = period_type
    /\ b_period_start row = strftime_ymd (mkdate (year (dt_date today)) 1 1)
    /\ b_period_end row = strftime_ymd (mkdate (year (dt_date today)) 12 31).
Proof.
  intros Hh Hu Hv _ H1 H2.
  destruct (stored_row_of_default db user_id today now category amount period_type
              _ _ Hh Hu (default_period_year _ _ Hv H1 H2))
    as (db' & row & E & Hin & A & B & C & D & _ & F & G).
  exists db', row. repeat split; assumption.
Qed.

Lemma set_budget_other_types_get_the_year_witness :
  db_health one_user_db = Healthy
  /\ user_exists one_user_db 1 = true
  /\ valid_dateb (dt_date may_20) = true
  /\ (1000 <= year (dt_date may_20))%Z
  /\ String.eqb "week" "月" = false
  /\ String.eqb "week" "季" = false
  /\ exists db' row,
       set_budget one_user_db 1 may_20 may_20 "交通" 300 "week" None None
       = Ret (db', mkenvelope Success (BudgetSet "week" "交通" 300) None None)
       /\ In row (budgets db')
       /\ b_user_id row = 1 /\ b_category row = "交通"
       /\ b_amount row = 300%Q /\ b_period_type row = "week"
       /\ b_period_start row = strftime_ymd (mkdate (year (dt_date may_20)) 1 1)
       /\ b_period_end row = strftime_ymd (mkdate (year (dt_date may_20)) 12 31).
Proof.
  split; [reflexivity|]. split; [reflexivity|]. split; [reflexivity|].
  split; [simpl; lia|]. split; [reflexivity|]. split; [reflexivity|].
  apply (set_budget_other_types_get_the_year one_user_db 1 may_20 may_20 "交通"
           "week" 300); try reflexivity. simpl; lia.
Defined.

(** X8.  When the user row is missing, or the statements of the store
    fail, [set_budget] returns an error envelope and leaves the store as it
    was. *)
Theorem set_budget_failure_changes_nothing (db : database) (user_id : Z)
    (today now : datetime) (category : string) (amount : Q) (period_type : string)
    (period_start period_end : option string) (ps pe : string) :
  get_connection db = Ret tt ->
  resolve_period (dt_date today) period_type period_start period_end = Ret (ps, pe) ->
  user_exists db user_id = false \/ db_health db = StatementsFail ->
  exists reason,
    set_budget db user_id today now category amount period_type period_start period_end
    = Ret (db, mkenvelope Error (BudgetFailed reason) None None).
Proof.
  intros Hc Hr H. unfold set_budget. rewrite Hr. cbn [bind]. rewrite Hc. cbn [bind].
  unfold insert_or_replace_budget, execute. unfold get_connection in Hc.
  destruct (db_health db) eqn:Hh; try discriminate; cbn [bind].
  - destruct H as [H|H]; [|discriminate]. rewrite H. eexists. reflexivity.
  - eexists. reflexivity.
Qed.

Lemma set_budget_failure_changes_nothing_witness :
  get_connection no_user_db = Ret tt
  /\ resolve_period (dt_date may_20) "月" None None = Ret ("2024-05-01", "2024-05-31")
  /\ (user_exists no_user_db 1 = false \/ db_health no_user_db = StatementsFail)
  /\ exists reason,
       set_budget no_user_db 1 may_20 may_20 "餐饮" 500 "月" None None
       = Ret (no_user_db, mkenvelope Error (BudgetFailed reason) None None).
Proof.
  split; [reflexivity|]. split; [reflexivity|]. split; [left; reflexivity|].
  apply (set_budget_failure_changes_nothing no_user_db 1 may_20 may_20 "餐饮" 500
           "月" None None "2024-05-01" "2024-05-31");
    [reflexivity|reflexivity|left; reflexivity].
Defined.

Lemma find_app_skip {A} (f : A -> bool) (l1 l2 : list A) :
  (forall x, In x l1 -> f x = false) -> find f (l1 ++ l2)%list = find f l2.
Proof.
  induction l1 as [|x l1 IH]; intros H; cbn [app find]; [reflexivity|].
  rewrite (H x (or_introl eq_refl)). apply IH. intros y Hy. apply H. right. exact Hy.
Qed.

(** X9.  Setting a month budget without bounds and then recording an
    expense dated in the clock's month work together: when no older month
    budget of the category covers that date, the check of [add_transaction]
    runs against the amount just set.  For whole amounts (the budget, the
    expense and the expenses of the category already dated in that month,
    with their total) it warns of an overspend when the month's spend
    passes the budget and stays silent up to 80% of it. *)
Theorem month_budget_then_expense (db : database) (user_id : Z)
    (today now today' now' : datetime) (category : string) (budget_amount amount : Q)
    (d : date) (description : option string) :
  db_health db = Healthy ->
  user_exists db user_id = true ->
  ordinary_date (dt_date today) = true ->
  valid_dateb d = true ->
  year d = year (dt_date today) /\ month d = month (dt_date today) ->
  (forall b, In b (budgets db) ->
             covering_month_budget user_id category (strftime_ymd d) b = false) ->
  (0 < budget_amount)%Q ->
  (amount < 0)%Q ->
  whole budget_amount = true ->
  whole_month db user_id category d amount = true ->
  exists db1 db2 record_id warning,
    set_budget db user_id today now category budget_amount "月" None None
    = Ret (db1, mkenvelope Success (BudgetSet "月" category budget_amount) None None)
    /\ add_transaction db1 user_id today' now' amount category
                       (Some (strftime_ymd d)) description
       = Ret (db2, mkenvelope Success (Recorded false (Qabs amount))
                              (Some record_id) warning)
    /\ ((budget_amount < spent_in_month db2 user_id category d)%Q ->
        warning
        = Some (Overspend category budget_amount
                  (spent_in_month db2 user_id category d)
                  (spent_in_month db2 user_id category d - budget_amount)%Q))
    /\ ((spent_in_month db2 user_id category d <= (80 # 100) * budget_amount)%Q ->
        warning = None).
Proof.
  intros Hh Hu Hd Hv [Ey Em] Hold Hb Ha _ _.
  destruct (set_budget_table db user_id today now category budget_amount "月"
              None None _ _ Hh Hu (default_period_month _ Hd))
    as (db1 & kept & E1 & T1 & K & Hh1 & Hu1 & _).
  assert (Hu1' : user_exists db1 user_id = true)
    by (unfold user_exists in *; rewrite Hu1; exact Hu).
  assert (Od : ordinary_date d = true).
  { destruct d as [y m dd]. cbn [year month] in Ey, Em. subst y m.
    unfold ordinary_date in *. cbn [year month] in *.
    apply andb_prop in Hd. destruct Hd as [Hd Hn].
    apply andb_prop in Hd. destruct Hd as [_ Hy].
    rewrite Hv, Hy, Hn. reflexivity. }
  destruct (WarningClaims.insert_transaction_healthy db1 user_id amount category
              (strftime_ymd d) description (isoformat now') Hh1 Hu1')
    as (db2 & id & Hi & Hh2 & Hbud & _).
  exists db1, db2, id. eexists. split; [exact E1|].
  unfold add_transaction, get_connection. rewrite Hh1. cbn [bind]. rewrite Hi.
  rewrite check_budget_warning_healthy by (auto; apply Qlt_le_weak; assumption).
  rewrite Hbud, T1.
  rewrite find_app_skip by (intros b Hin; apply Hold, K, Hin).
  cbn [find].
  assert (C : covering_month_budget user_id category (strftime_ymd d)
                (upserted_row db user_id now category budget_amount "月"
                   (strftime_ymd (first_of_month (dt_date today)))
                   (strftime_ymd (last_of_month (dt_date today)))) = true).
  { unfold covering_month_budget, upserted_row.
    cbn [b_user_id b_category b_period_type b_period_start b_period_end].
    rewrite Z.eqb_refl, !String.eqb_refl. cbn [andb].
    pose proof (date_in_own_month d Hv) as B. unfold text_between in B.
    unfold first_of_month, last_of_month in *. rewrite <- Ey, <- Em. exact B. }
  rewrite C. cbn [b_amount upserted_row].
  rewrite (proj2 (Qgtb_false amount 0)) by (apply Qlt_le_weak; assumption).
  split; [reflexivity|]. split.
  - intros H. apply verdict_overspend; assumption.
  - intros H. apply verdict_quiet; assumption.
Qed.

Lemma month_budget_then_expense_witness :
  db_health one_user_db = Healthy
  /\ user_exists one_user_db 1 = true
  /\ ordinary_date (dt_date may_20) = true
  /\ valid_dateb (mkdate 2024 5 28) = true
  /\ (year (mkdate 2024 5 28) = year (dt_date may_20)
      /\ month (mkdate 2024 5 28) = month (dt_date may_20))
  /\ (forall b, In b (budgets one_user_db) ->
                covering_month_budget 1 "餐饮" (strftime_ymd (mkdate 2024 5 28)) b = false)
  /\ (0 < 500)%Q
  /\ (-600 < 0)%Q
  /\ whole 500 = true
  /\ whole_month one_user_db 1 "餐饮" (mkdate 2024 5 28) (-600) = true
  /\ exists db1 db2 record_id warning,
       set_budget one_user_db 1 may_20 may_20 "餐饮" 500 "月" None None
       = Ret (db1, mkenvelope Success (BudgetSet "月" "餐饮" 500) None None)
       /\ add_transaction db1 1 may_20 may_20 (-600) "餐饮"
                          (Some (strftime_ymd (mkdate 2024 5 28))) None
          = Ret (db2, mkenvelope Success (Recorded false (Qabs (-600)))
                                 (Some record_id) warning)
       /\ ((500 < spent_in_month db2 1 "餐饮" (mkdate 2024 5 28))%Q ->
           warning
           = Some (Overspend "餐饮" 500
                     (spent_in_month db2 1 "餐饮" (mkdate 2024 5 28))
                     (spent_in_month db2 1 "餐饮" (mkdate 2024 5 28) - 500)%Q))
       /\ ((spent_in_month db2 1 "餐饮" (mkdate 2024 5 28) <= (80 # 100) * 500)%Q ->
           warning = None).
Proof.
  split; [reflexivity|]. split; [reflexivity|]. split; [reflexivity|].
  split; [reflexivity|]. split; [split; reflexivity|].
  split; [intros b Hb; destruct Hb|].
  split; [reflexivity|]. split; [reflexivity|].
  split; [reflexivity|]. split; [vm_compute; reflexivity|].
  apply (month_budget_then_expense one_user_db 1 may_20 may_20 may_20 may_20 "餐饮"
           500 (-600) (mkdate 2024 5 28) None);
    try reflexivity; [split; reflexivity|intros b Hb; destruct Hb].
Defined.

End PeriodProperties.

(** ** get_transactions *)

Module ListingProperties.

Local Open Scope string_scope.

Lemma get_transactions_healthy (db : database) (user_id : Z)
    (start_date end_date category : option string) :
  db_health db = Healthy ->
  get_transactions db user_id start_date end_date category
  = Ret (let rows := order_by_desc t_transaction_date
                       (filter (listed user_id start_date end_date category)
                               (transactions db)) in
         TransactionsOk (List.length rows) (map view rows)).
Proof.
  intros Hh. unfold get_transactions, get_connection, execute. rewrite Hh.
  cbn [bind]. rewrite length_map. reflexivity.
Qed.

(** X10.  [get_transactions] lists exactly the stored rows of the user
    that pass the filters given (an empty text counts as no filter), each
    once, latest date first, and its count is the length of the list. *)
Theorem get_transactions_lists_matching (db : database) (user_id : Z)
    (start_date end_date category : option string) :
  db_health db = Healthy ->
  exists rows,
    get_transactions db user_id start_date end_date category
    = Ret (TransactionsOk (List.length rows) (map view rows))
    /\ Permutation rows
         (filter (fun t =>
                    (t_user_id t =? user_id)%Z
                    && match start_date with
                       | Some (String _ _ as s) => text_le s (t_transaction_date t)
                       | _ => true
                       end
                    && match end_date with
                       | Some (String _ _ as e) => text_le (t_transaction_date t) e
                       | _ => true
                       end
                    && match category with
                       | Some (String _ _ as c) => String.eqb (t_category t) c
                       | _ => true
                       end)
                 (transactions db))
    /\ StronglySorted (descending t_transaction_date) rows.
Proof.
  intros Hh. rewrite (get_transactions_healthy _ _ _ _ _ Hh). cbv zeta.
  eexists. split; [reflexivity|]. split; [|apply order_by_desc_sorted].
  rewrite order_by_desc_perm.
  erewrite filter_ext; [reflexivity|].
  intros t. unfold listed, given.
  destruct start_date as [[|]|], end_date as [[|]|], category as [[|]|]; reflexivity.
Qed.

(** X11.  A transaction recorded by [add_transaction] is found again by
    [get_transactions]: the unfiltered listing of the user grows by one,
    keeps what it had, and shows the new record with the amount and the
    category given and the id the envelope reports. *)
Theorem recorded_transaction_is_listed (db : database) (user_id : Z)
    (today now : datetime) (amount : Q) (category : string)
    (transaction_date description : option string) :
  db_health db = Healthy ->
  user_exists db user_id = true ->
  exists db' env n before after shown,
    add_transaction db user_id today now amount category transaction_date description
    = Ret (db', env)
    /\ get_transactions db user_id None None None = Ret (TransactionsOk n before)
    /\ get_transactions db' user_id None None None = Ret (TransactionsOk (S n) after)
    /\ (forall v, In v before -> In v after)
    /\ In shown after
    /\ tv_amount shown = amount /\ tv_category shown = category
    /\ (env_status env = Success -> env_record_id env = Some (tv_id shown)).
Proof.
  intros Hh Hu.
  destruct (UserProperties.add_transaction_stores db user_id today now amount category
              transaction_date description Hh Hu)
    as (db' & env & E & Ht & _ & _ & _ & Hh' & Hs).
  exists db', env. do 3 eexists.
  match type of Ht with _ = (_ ++ [?r])%list => exists (view r); set (row := r) in * end.
  split; [exact E|].
  rewrite (get_transactions_healthy _ _ _ _ _ Hh),
          (get_transactions_healthy _ _ _ _ _ Hh'). cbv zeta.
  rewrite Ht, filter_app. cbn [filter].
  assert (L : listed user_id None None None row = true).
  { unfold listed, row. cbn. rewrite Z.eqb_refl. reflexivity. }
  rewrite L.
  set (old := filter (listed user_id None None None) (transactions db)).
  pose proof (order_by_desc_perm t_transaction_date old) as P0.
  pose proof (order_by_desc_perm t_transaction_date (old ++ [row])%list) as P1.
  assert (Len : List.length (order_by_desc t_transaction_date (old ++ [row])%list)
                = S (List.length (order_by_desc t_transaction_date old))).
  { rewrite (Permutation_length P1), (Permutation_length P0), length_app. cbn. lia. }
  split; [reflexivity|]. split.
  - rewrite Len. reflexivity.
  - split; [|split; [|split; [reflexivity|split; [reflexivity|]]]].
    + intros v Hv. apply in_map_iff in Hv. destruct Hv as (t & <- & Hin).
      apply in_map. apply (Permutation_in _ (Permutation_sym P1)).
      apply in_or_app. left. apply (Permutation_in _ P0). exact Hin.
    + apply in_map. apply (Permutation_in _ (Permutation_sym P1)).
      apply in_or_app. right. left. reflexivity.
    + intros S. apply Hs in S. destruct S as [S _]. exact S.
Qed.

Lemma recorded_transaction_is_listed_witness :
  db_health spent_470_db = Healthy
  /\ user_exists spent_470_db 1 = true
  /\ exists db' env n before after shown,
       add_transaction spent_470_db 1 may_20 may_20 (-35) "餐饮" None (Some "午饭")
       = Ret (db', env)
       /\ get_transactions spent_470_db 1 None None None = Ret (TransactionsOk n before)
       /\ get_transactions db' 1 None None None = Ret (TransactionsOk (S n) after)
       /\ (forall v, In v before -> In v after)
       /\ In shown after
       /\ tv_amount shown = (-35)%Q /\ tv_category shown = "餐饮"
       /\ (env_status env = Success -> env_record_id env = Some (tv_id shown)).
Proof.
  split; [reflexivity|]. split; [reflexivity|].
  apply (recorded_transaction_is_listed spent_470_db 1 may_20 may_20 (-35) "餐饮"
           None (Some "午饭")); reflexivity.
Defined.

Lemma get_transactions_lists_matching_witness :
  db_health spent_470_db = Healthy
  /\ exists rows,
       get_transactions spent_470_db 1 (Some "2024-05-01") (Some "") (Some "餐饮")
       = Ret (TransactionsOk (List.length rows) (map view rows))
       /\ Permutation rows
            (filter (fun t =>
                       (t_user_id t =? 1)%Z
                       && text_le "2024-05-01" (t_transaction_date t)
                       && true
                       && String.eqb (t_category t) "餐饮")
                    (transactions spent_470_db))
       /\ StronglySorted (descending t_transaction_date) rows.
Proof.
  split; [reflexivity|].
  apply (get_transactions_lists_matching spent_470_db 1 (Some "2024-05-01") (Some "")
           (Some "餐饮")). reflexivity.
Defined.

Example get_transactions_example :
  get_transactions spent_470_db 1 (Some "2024-05-01") None (Some "餐饮")
  = Ret (TransactionsOk 3
           [ mkview 5 8000 "餐饮" "2024-05-15" "报销";
             mkview 3 (-170) "餐饮" "2024-05-11" "聚餐";
             mkview 1 (-300) "餐饮" "2024-05-03" "" ])
  /\ get_transactions (chat_db StatementsFail) 1 None None None
     = Ret (TransactionsFailed "database is locked").
Proof. split; reflexivity. Qed.

End ListingProperties.

(** ** get_spending_summary *)

Module SummaryProperties.

Local Open Scope string_scope.

Section NumericOrder.

Context {A : Type} (key : A -> Q).

Lemma insert_desc_num_perm (x : A) (l : list A) :
  Permutation (insert_desc_num key x l) (x :: l).
Proof.
  induction l as [|y l IH]; cbn [insert_desc_num]; [reflexivity|].
  destruct (Qle_bool (key y) (key x)); [reflexivity|].
  rewrite IH. apply perm_swap.
Qed.

Lemma order_by_desc_num_perm (l : list A) : Permutation (order_by_desc_num key l) l.
Proof.
  induction l as [|x l IH]; cbn [order_by_desc_num fold_right]; [reflexivity|].
  fold (order_by_desc_num key l). rewrite insert_desc_num_perm. constructor. exact IH.
Qed.

Lemma insert_desc_num_sorted (x : A) (l : list A) :
  StronglySorted (fun a b => (key b <= key a)%Q) l ->
  StronglySorted (fun a b => (key b <= key a)%Q) (insert_desc_num key x l).
Proof.
  induction 1 as [|y l S IH F]; cbn [insert_desc_num].
  - repeat constructor.
  - destruct (Qle_bool (key y) (key x)) eqn:E.
    + apply Qle_bool_iff in E.
      constructor; [constructor; assumption|].
      constructor; [exact E|].
      eapply Forall_impl; [|exact F]. intros z Hz. cbv beta in *.
      eapply Qle_trans; eassumption.
    + constructor; [exact IH|].
      eapply Permutation_Forall; [symmetry; apply insert_desc_num_perm|].
      constructor; [|exact F]. cbv beta.
      destruct (Qlt_le_dec (key y) (key x)) as [L|L]; [|exact L].
      apply Qlt_le_weak in L. apply Qle_bool_iff in L. congruence.
Qed.

Lemma order_by_desc_num_sorted (l : list A) :
  StronglySorted (fun a b => (key b <= key a)%Q) (order_by_desc_num key l).
Proof.
  induction l as [|x l IH]; cbn [order_by_desc_num fold_right]; [constructor|].
  apply insert_desc_num_sorted. exact IH.
Qed.

End NumericOrder.

(** *** Dicts *)

Lemma dict_set_new {V} (k : string) (v : V) (d : list (string * V)) :
  ~ In k (map fst d) -> dict_set k v d = (d ++ [(k, v)])%list.
Proof.
  induction d as [|[k' v'] d IH]; cbn [dict_set map fst app In]; [reflexivity|].
  intros N. destruct (String.eqb_spec k' k) as [E|E]; [tauto|].
  rewrite IH by tauto. reflexivity.
Qed.

Lemma dict_of_distinct_rows_from {V} (rows acc : list (string * V)) :
  NoDup (map fst (acc ++ rows)%list) ->
  fold_left (fun d row => dict_set (fst row) (snd row) d) rows acc
  = (acc ++ rows)%list.
Proof.
  revert acc. induction rows as [|[k v] rows IH]; intros acc N; cbn [fold_left].
  - rewrite app_nil_r. reflexivity.
  - cbn [fst snd]. rewrite dict_set_new.
    + rewrite IH; rewrite <- app_assoc; [reflexivity|exact N].
    + rewrite map_app in N. cbn [map fst] in N.
      apply NoDup_remove_2 in N. intros H. apply N. apply in_or_app. left. exact H.
Qed.

(** A dict made from rows with distinct keys is those rows, in order. *)
Lemma dict_of_distinct_rows {V} (rows : list (string * V)) :
  NoDup (map fst rows) -> dict_of_rows rows = rows.
Proof. intros N. apply (dict_of_distinct_rows_from rows []). exact N. Qed.

(** *** Sums *)

Lemma sum_values_perm {K} (l l' : list (K * Q)) :
  Permutation l l' -> (sum_values l == sum_values l')%Q.
Proof.
  induction 1; cbn [sum_values fold_right]; try reflexivity.
  - fold (@sum_values K l) (@sum_values K l'). rewrite IHPermutation. reflexivity.
  - ring.
  - etransitivity; eassumption.
Qed.

Lemma sum_values_of_map {K} (g : K -> Q) (keys : list K) :
  sum_values (map (fun k => (k, g k)) keys) = sum_over g keys.
Proof.
  induction keys as [|k keys IH]; [reflexivity|].
  cbn [map sum_values sum_over fold_right snd].
  fold (sum_values (map (fun k => (k, g k)) keys)) (sum_over g keys).
  rewrite IH. reflexivity.
Qed.

Lemma sum_over_zero {K} (g : K -> Q) (keys : list K) :
  (forall k, In k keys -> g k == 0)%Q -> (sum_over g keys == 0)%Q.
Proof.
  induction keys as [|k keys IH]; intros H; cbn [sum_over fold_right]; [reflexivity|].
  fold (sum_over g keys). rewrite (H k (or_introl eq_refl)), IH; [ring|].
  intros k' Hk. apply H. right. exact Hk.
Qed.

Lemma sum_over_plus {K} (g h : K -> Q) (keys : list K) :
  (sum_over (fun k => g k + h k) keys == sum_over g keys + sum_over h keys)%Q.
Proof.
  induction keys as [|k keys IH]; cbn [sum_over fold_right]; [ring|].
  fold (sum_over (fun k => g k + h k)%Q keys) (sum_over g keys) (sum_over h keys).
  rewrite IH. ring.
Qed.

Lemma sum_over_ext {K} (g h : K -> Q) (keys : list K) :
  (forall k, In k keys -> g k == h k)%Q -> (sum_over g keys == sum_over h keys)%Q.
Proof.
  induction keys as [|k keys IH]; intros H; cbn [sum_over fold_right]; [reflexivity|].
  fold (sum_over g keys) (sum_over h keys).
  rewrite (H k (or_introl eq_refl)), IH; [reflexivity|].
  intros k' Hk. apply H. right. exact Hk.
Qed.

(** Picking one key out of a list without repeats. *)
Lemma sum_over_indicator (x : string) (a : Q) (keys : list string) :
  NoDup keys ->
  (sum_over (fun c => if String.eqb x c then a else 0) keys
   == if in_dec string_dec x keys then a else 0)%Q.
Proof.
  induction 1 as [|k keys Nk N IH]; cbn [sum_over fold_right]; [reflexivity|].
  fold (sum_over (fun c => if String.eqb x c then a else 0%Q) keys).
  rewrite IH. destruct (String.eqb_spec x k) as [E|E].
  - subst k. destruct (in_dec string_dec x keys) as [I|I]; [tauto|].
    destruct (in_dec string_dec x (x :: keys)) as [I'|I']; [ring|].
    exfalso. apply I'. left. reflexivity.
  - destruct (in_dec string_dec x keys) as [I|I];
      destruct (in_dec string_dec x (k :: keys)) as [I'|I']; try ring.
    + exfalso. apply I'. right. exact I.
    + exfalso. destruct I' as [I'|I']; [congruence|tauto].
Qed.

(** The sums of the groups add up to the sum of all rows. *)
Lemma group_sums_add_up (rows : list transaction_row) (keys : list string) :
  NoDup keys ->
  (forall t, In t rows -> In (t_category t) keys) ->
  (sum_over (fun c => sum_abs (filter (fun t => String.eqb (t_category t) c) rows)) keys
   == sum_abs rows)%Q.
Proof.
  intros N. induction rows as [|t rows IH]; intros H.
  - cbn [filter sum_abs fold_right]. apply sum_over_zero. intros; reflexivity.
  - rewrite (sum_over_ext _
               (fun c => (if String.eqb (t_category t) c then Qabs (t_amount t) else 0)
                         + sum_abs (filter (fun t => String.eqb (t_category t) c) rows))%Q).
    + rewrite sum_over_plus, sum_over_indicator by exact N.
      rewrite IH by (intros t' Ht'; apply H; right; exact Ht').
      destruct (in_dec string_dec (t_category t) keys) as [I|I].
      * cbn [sum_abs fold_right]. reflexivity.
      * exfalso. apply I, H. left. reflexivity.
    + intros c _. cbn [filter].
      destruct (String.eqb (t_category t) c); cbn [sum_abs fold_right]; [reflexivity|].
      fold (sum_abs (filter (fun t0 => String.eqb (t_category t0) c) rows)). ring.
Qed.

Lemma sum_abs_nonneg (rows : list transaction_row) : (0 <= sum_abs rows)%Q.
Proof.
  induction rows as [|t rows IH]; cbn [sum_abs fold_right]; [apply Qle_refl|].
  fold (sum_abs rows). pose proof (Qabs_nonneg (t_amount t)). lra.
Qed.

Lemma sum_abs_positive (rows : list transaction_row) :
  rows <> [] -> (forall t, In t rows -> (t_amount t < 0)%Q) -> (0 < sum_abs rows)%Q.
Proof.
  destruct rows as [|t rows]; [easy|]. intros _ H. cbn [sum_abs fold_right].
  fold (sum_abs rows). pose proof (sum_abs_nonneg rows).
  assert (t_amount t < 0)%Q as L by (apply H; left; reflexivity).
  rewrite (Qabs_neg (t_amount t)) by lra. lra.
Qed.

Lemma sum_amount_nonneg (rows : list transaction_row) :
  (forall t, In t rows -> (0 < t_amount t)%Q) -> (0 <= sum_amount rows)%Q.
Proof.
  induction rows as [|t rows IH]; intros H; cbn [sum_amount fold_right];
    [apply Qle_refl|].
  fold (sum_amount rows).
  assert (0 < t_amount t)%Q by (apply H; left; reflexivity).
  assert (0 <= sum_amount rows)%Q by (apply IH; intros; apply H; right; assumption).
  lra.
Qed.

Lemma expenses_by_category_spec (rows : list transaction_row) :
  (forall t, In t rows -> (t_amount t < 0)%Q) ->
  NoDup (map fst (expenses_by_category rows))
  /\ StronglySorted amount_descending (expenses_by_category rows)
  /\ (sum_values (expenses_by_category rows) == sum_abs rows)%Q
  /\ (forall c v, In (c, v) (expenses_by_category rows) ->
                  (0 < v)%Q /\ exists t, In t rows /\ t_category t = c).
Proof.
  intros Hneg. unfold expenses_by_category.
  set (keys := nodup string_dec (map t_category rows)).
  set (g := fun c => sum_abs (filter (fun t => String.eqb (t_category t) c) rows)).
  set (groups := map (fun c => (c, g c)) keys).
  pose proof (order_by_desc_num_perm snd groups) as P.
  assert (Hk : map fst groups = keys).
  { unfold groups. rewrite map_map. cbn [fst]. apply map_id. }
  split; [|split; [|split]].
  - eapply Permutation_NoDup; [symmetry; apply Permutation_map; exact P|].
    rewrite Hk. apply NoDup_nodup.
  - apply (order_by_desc_num_sorted snd).
  - etransitivity; [apply sum_values_perm; exact P|].
    unfold groups. rewrite sum_values_of_map.
    apply group_sums_add_up; [apply NoDup_nodup|].
    intros t Ht. apply nodup_In. apply in_map. exact Ht.
  - intros c v Hin. apply (Permutation_in _ P) in Hin. unfold groups in Hin.
    apply in_map_iff in Hin. destruct Hin as (c' & E & Hc). injection E as -> <-.
    apply nodup_In in Hc. apply in_map_iff in Hc. destruct Hc as (t & Et & Ht).
    split; [|exists t; auto].
    apply sum_abs_positive.
    + intros E. assert (I : In t (filter (fun t0 => String.eqb (t_category t0) c) rows)).
      { apply filter_In. split; [exact Ht|]. rewrite Et. apply String.eqb_refl. }
      rewrite E in I. exact I.
    + intros t' Ht'. apply filter_In in Ht'. apply Hneg. tauto.
Qed.

Lemma spending_summary_healthy (db : database) (user_id : Z) (today : datetime)
    (period start_date end_date : string) :
  db_health db = Healthy ->
  summary_window (dt_date today) period = Ret (start_date, end_date) ->
  get_spending_summary db user_id today period
  = Ret (SummaryOk
           (let expenses := filter (expense_row user_id start_date end_date)
                                   (transactions db) in
            let total_income :=
              sum_amount (filter (income_row user_id start_date end_date)
                                 (transactions db)) in
            mksummary period start_date end_date total_income (sum_abs expenses)
                      (total_income - sum_abs expenses)%Q
                      (dict_of_rows (expenses_by_category expenses)))).
Proof.
  intros Hh Hw. unfold get_spending_summary. rewrite Hw.
  unfold get_connection, execute. rewrite Hh. reflexivity.
Qed.

(** X12.  In a spending summary over whole amounts (the rows of the user
    dated in the range, with their total) the balance is income minus
    expense, both totals are non-negative, every category is named once
    with a positive amount, largest first, and the per-category amounts add
    up to the total expense. *)
Theorem spending_summary_adds_up (db : database) (user_id : Z) (today : datetime)
    (period start_date end_date : string) :
  db_health db = Healthy ->
  summary_window (dt_date today) period = Ret (start_date, end_date) ->
  whole_rows (rows_between db user_id start_date end_date) = true ->
  exists s,
    get_spending_summary db user_id today period = Ret (SummaryOk s)
    /\ sm_period s = period
    /\ sm_start_date s = start_date /\ sm_end_date s = end_date
    /\ sm_balance s = (sm_total_income s - sm_total_expense s)%Q
    /\ (0 <= sm_total_income s)%Q /\ (0 <= sm_total_expense s)%Q
    /\ NoDup (map fst (sm_by_category s))
    /\ StronglySorted amount_descending (sm_by_category s)
    /\ (sum_values (sm_by_category s) == sm_total_expense s)%Q
    /\ (forall c v, In (c, v) (sm_by_category s) -> (0 < v)%Q).
Proof.
  intros Hh Hw _. unfold get_spending_summary. rewrite Hw.
  unfold get_connection, execute. rewrite Hh. cbn [bind].
  set (expenses := filter (expense_row user_id start_date end_date) (transactions db)).
  assert (Hneg : forall t, In t expenses -> (t_amount t < 0)%Q).
  { intros t Ht. apply filter_In in Ht. destruct Ht as [_ Ht].
    unfold expense_row in Ht. apply andb_prop in Ht. destruct Ht as [Ht _].
    apply andb_prop in Ht. destruct Ht as [_ Ht]. apply Qgtb_true in Ht. exact Ht. }
  destruct (expenses_by_category_spec expenses Hneg) as (N & S & E & Pos).
  rewrite (dict_of_distinct_rows _ N).
  eexists. split; [reflexivity|].
  cbn [sm_period sm_start_date sm_end_date sm_balance sm_total_income
       sm_total_expense sm_by_category].
  repeat split; try assumption.
  - apply sum_amount_nonneg. intros t Ht. apply filter_In in Ht.
    destruct Ht as [_ Ht]. unfold income_row in Ht.
    apply andb_prop in Ht. destruct Ht as [Ht _].
    apply andb_prop in Ht. destruct Ht as [_ Ht]. apply Qgtb_true in Ht. exact Ht.
  - apply sum_abs_nonneg.
  - intros c v Hin. apply (Pos c v Hin).
Qed.

Lemma spending_summary_adds_up_witness :
  db_health spent_470_db = Healthy
  /\ summary_window (dt_date may_20) "month" = Ret ("2024-05-01", "2024-05-20")
  /\ whole_rows (rows_between spent_470_db 1 "2024-05-01" "2024-05-20") = true
  /\ exists s,
       get_spending_summary spent_470_db 1 may_20 "month" = Ret (SummaryOk s)
       /\ sm_period s = "month"
       /\ sm_start_date s = "2024-05-01" /\ sm_end_date s = "2024-05-20"
       /\ sm_balance s = (sm_total_income s - sm_total_expense s)%Q
       /\ (0 <= sm_total_income s)%Q /\ (0 <= sm_total_expense s)%Q
       /\ NoDup (map fst (sm_by_category s))
       /\ StronglySorted amount_descending (sm_by_category s)
       /\ (sum_values (sm_by_category s) == sm_total_expense s)%Q
       /\ (forall c v, In (c, v) (sm_by_category s) -> (0 < v)%Q).
Proof.
  split; [reflexivity|]. split; [reflexivity|]. split; [vm_compute; reflexivity|].
  apply (spending_summary_adds_up spent_470_db 1 may_20 "month" "2024-05-01"
           "2024-05-20"); [reflexivity|reflexivity|vm_compute; reflexivity].
Defined.

Example spending_summary_example :
  get_spending_summary spent_470_db 1 may_20 "month"
  = Ret (SummaryOk (mksummary "month" "2024-05-01" "2024-05-20" 8000 550 7450
                      [("餐饮", 470%Q); ("交通", 80%Q)])).
Proof. vm_compute. reflexivity. Qed.

(** *** The week *)

Lemma days_before_month_step (y m : Z) :
  (2 <= m <= 12)%Z ->
  days_before_month y m
  = (days_before_month y (m - 1) + days_in_month y (m - 1))%Z.
Proof.
  intros Hm.
  assert (m = 2 \/ m = 3 \/ m = 4 \/ m = 5 \/ m = 6 \/ m = 7 \/ m = 8 \/ m = 9
          \/ m = 10 \/ m = 11 \/ m = 12)%Z as C by lia.
  unfold days_before_month, days_in_month.
  repeat (destruct C as [C|C]; [subst m; cbn; destruct (is_leap y); reflexivity|]).
  subst m; cbn; destruct (is_leap y); reflexivity.
Qed.

Lemma days_before_year_step (y : Z) :
  (2 <= y)%Z ->
  days_before_year y
  = (days_before_year (y - 1) + 365 + (if is_leap (y - 1) then 1 else 0))%Z.
Proof.
  intros Hy. unfold days_before_year, is_leap. cbv zeta.
  replace (y - 1 - 1)%Z with (y - 2)%Z by lia.
  destruct (Z.eqb_spec ((y - 1) mod 4) 0) as [A|A];
    destruct (Z.eqb_spec ((y - 1) mod 100) 0) as [B|B];
    destruct (Z.eqb_spec ((y - 1) mod 400) 0) as [C|C];
    cbn [andb orb negb]; revert A B C; Z.div_mod_to_equations; lia.
Qed.

Lemma toordinal_lower (d : date) :
  valid_dateb d = true -> (1 <= toordinal d)%Z.
Proof.
  intros Hv. pose proof (valid_date_bounds d Hv) as (By & Bm & Bd).
  unfold toordinal.
  assert (0 <= days_before_year (year d))%Z.
  { unfold days_before_year. cbv zeta. Z.div_mod_to_equations. lia. }
  assert (0 <= days_before_month (year d) (month d))%Z.
  { unfold days_before_month.
    destruct (month d) as [|p|p]; try lia.
    destruct ((2 <? Z.pos p)%Z && is_leap (year d));
      repeat (destruct p as [p|p|]; try lia). }
  lia.
Qed.

(** [d - timedelta(days=1)] lowers the ordinal by one. *)
Lemma yesterday_ordinal (d : date) :
  valid_dateb d = true -> (1 < toordinal d)%Z ->
  exists d', yesterday d = Ret d' /\ valid_dateb d' = true
             /\ toordinal d' = (toordinal d - 1)%Z.
Proof.
  intros Hv Ho. pose proof (valid_date_bounds d Hv) as (By & Bm & Bd).
  destruct d as [y m dd]. cbn [year month day] in *.
  unfold yesterday, MINYEAR. cbn [year month day].
  destruct (Z.ltb_spec 1 dd) as [L|L].
  - eexists. split; [reflexivity|]. split.
    + apply valid_date_intro; lia.
    + unfold toordinal. cbn [year month day]. lia.
  - assert (dd = 1)%Z by lia. subst dd.
    destruct (Z.ltb_spec 1 m) as [M|M].
    + eexists. split; [reflexivity|].
      pose proof (days_in_month_bounds y (m - 1)). split.
      * apply valid_date_intro; lia.
      * unfold toordinal. cbn [year month day].
        rewrite (days_before_month_step y m) by lia. lia.
    + assert (m = 1)%Z by lia. subst m.
      destruct (Z.ltb_spec 1 y) as [Y|Y].
      * eexists. split; [reflexivity|]. split.
        -- apply valid_date_intro; try lia. cbn. lia.
        -- unfold toordinal. cbn [year month day].
           rewrite (days_before_year_step y) by lia.
           unfold days_before_month. cbn [Z.ltb andb].
           replace (2 <? 12)%Z with true by reflexivity.
           replace (2 <? 1)%Z with false by reflexivity. cbn [andb].
           destruct (is_leap (y - 1)); lia.
      * assert (y = 1)%Z by lia. subst y. cbn in Ho. lia.
Qed.

Lemma sub_days_ordinal (n : nat) : forall d,
  valid_dateb d = true -> (Z.of_nat n < toordinal d)%Z ->
  exists d', sub_days d n = Ret d' /\ valid_dateb d' = true
             /\ toordinal d' = (toordinal d - Z.of_nat n)%Z.
Proof.
  induction n as [|n IH]; intros d Hv Ho.
  - exists d. cbn [sub_days]. repeat split; [assumption|lia].
  - destruct (yesterday_ordinal d Hv ltac:(lia)) as (d1 & E1 & V1 & O1).
    destruct (IH d1 V1 ltac:(lia)) as (d' & E & V & O).
    exists d'. cbn [sub_days]. rewrite E1. cbn [bind]. repeat split; [assumption..|lia].
Qed.

(** The start of the week summary: the Monday on or before today. *)
Lemma monday_of_week (today : date) :
  valid_dateb today = true ->
  exists monday,
    sub_days today (Z.to_nat (weekday today)) = Ret monday
    /\ valid_dateb monday = true /\ weekday monday = 0%Z
    /\ (0 <= toordinal today - toordinal monday <= 6)%Z.
Proof.
  intros Hv. pose proof (toordinal_lower today Hv) as L.
  assert (W : (0 <= weekday today < 7)%Z) by (apply Z.mod_pos_bound; lia).
  assert (W' : (weekday today < toordinal today)%Z).
  { unfold weekday in *. revert L. generalize (toordinal today). intros t L.
    Z.div_mod_to_equations. lia. }
  destruct (sub_days_ordinal (Z.to_nat (weekday today)) today Hv ltac:(lia))
    as (monday & E & V & O).
  exists monday. repeat split; try assumption; try lia.
  unfold weekday in *. rewrite O. rewrite Z2Nat.id by lia.
  revert W. generalize (toordinal today). intros t W.
  Z.div_mod_to_equations. lia.
Qed.

(** X13.  The date computation of a spending summary never fails for a
    valid clock.  The range always ends today; it starts on the first day
    of the month for "month", on the Monday of the current week (today
    itself on a Monday, never more than six days back) for "week", and on
    1 January for every other period text. *)
Theorem spending_summary_window (db : database) (user_id : Z) (today : datetime)
    (period : string) :
  db_health db = Healthy ->
  valid_dateb (dt_date today) = true ->
  (1000 <= year (dt_date today))%Z ->
  exists s monday,
    get_spending_summary db user_id today period = Ret (SummaryOk s)
    /\ sm_end_date s = strftime_ymd (dt_date today)
    /\ valid_dateb monday = true /\ weekday monday = 0%Z
    /\ (0 <= toordinal (dt_date today) - toordinal monday <= 6)%Z
    /\ sm_start_date s
       = strftime_ymd
           (if String.eqb period "month"
            then mkdate (year (dt_date today)) (month (dt_date today)) 1
            else if String.eqb period "week" then monday
            else mkdate (year (dt_date today)) 1 1).
Proof.
  intros Hh Hv Hy.
  destruct (monday_of_week (dt_date today) Hv) as (monday & E & V & W & O).
  pose proof (valid_date_bounds _ Hv) as (By & Bm & Bd).
  assert (Hw : summary_window (dt_date today) period
               = Ret (strftime_ymd
                        (if String.eqb period "month"
                         then mkdate (year (dt_date today)) (month (dt_date today)) 1
                         else if String.eqb period "week" then monday
                         else mkdate (year (dt_date today)) 1 1),
                      strftime_ymd (dt_date today))).
  { unfold summary_window.
    destruct (String.eqb period "month").
    - rewrite replace_day_first by assumption. reflexivity.
    - destruct (String.eqb period "week").
      + rewrite E. reflexivity.
      + unfold replace_month_day. rewrite valid_date_intro; [reflexivity|lia|lia|].
        cbn. lia. }
  eexists. exists monday.
  rewrite (spending_summary_healthy db user_id today period _ _ Hh Hw).
  split; [reflexivity|]. cbn [sm_end_date sm_start_date].
  repeat split; try assumption; lia.
Qed.

Lemma spending_summary_window_witness :
  db_health spent_470_db = Healthy
  /\ valid_dateb (dt_date feb_10) = true
  /\ (1000 <= year (dt_date feb_10))%Z
  /\ exists s monday,
       get_spending_summary spent_470_db 1 feb_10 "week" = Ret (SummaryOk s)
       /\ sm_end_date s = strftime_ymd (dt_date feb_10)
       /\ valid_dateb monday = true /\ weekday monday = 0%Z
       /\ (0 <= toordinal (dt_date feb_10) - toordinal monday <= 6)%Z
       /\ sm_start_date s
          = strftime_ymd
              (if String.eqb "week" "month"
               then mkdate (year (dt_date feb_10)) (month (dt_date feb_10)) 1
               else if String.eqb "week" "week" then monday
               else mkdate (year (dt_date feb_10)) 1 1).
Proof.
  split; [reflexivity|]. split; [reflexivity|]. split; [simpl; lia|].
  apply (spending_summary_window spent_470_db 1 feb_10 "week");
    [reflexivity|reflexivity|simpl; lia].
Defined.

(** 10 February 2024 was a Saturday, 20 May 2024 a Monday. *)
Example week_window_examples :
  weekday (mkdate 2024 2 10) = 5%Z
  /\ weekday (mkdate 2024 5 20) = 0%Z
  /\ summary_window (mkdate 2024 2 10) "week" = Ret ("2024-02-05", "2024-02-10")
  /\ summary_window (mkdate 2024 5 20) "week" = Ret ("2024-05-20", "2024-05-20")
  /\ summary_window (mkdate 2024 3 2) "week" = Ret ("2024-02-26", "2024-03-02")
  /\ summary_window (mkdate 2024 3 2) "quarter" = Ret ("2024-01-01", "2024-03-02")
  /\ summary_window (mkdate 1 1 2) "week" = Ret ("0001-01-01", "0001-01-02").
Proof. repeat split. Qed.

End SummaryProperties.

(** ** get_budget_status *)

Module BudgetStatusProperties.

Local Open Scope string_scope.

Lemma dict_set_in {V} (k : string) (v : V) (d : list (string * V)) (k' : string) (v' : V) :
  In (k', v') (dict_set k v d) -> (k', v') = (k, v) \/ In (k', v') d.
Proof.
  induction d as [|[k0 v0] d IH]; cbn [dict_set In].
  - intros [E|[]]. left. symmetry. exact E.
  - destruct (String.eqb k0 k); cbn [In]; intros [E|H]; auto.
    destruct (IH H); auto.
Qed.

Lemma dict_set_keys {V} (k : string) (v : V) (d : list (string * V)) (k' : string) :
  In k' (map fst (dict_set k v d)) <-> k' = k \/ In k' (map fst d).
Proof.
  induction d as [|[k0 v0] d IH]; cbn [dict_set map fst In].
  - intuition.
  - destruct (String.eqb_spec k0 k) as [E|E]; cbn [map fst In].
    + subst. intuition.
    + rewrite IH. intuition.
Qed.

Lemma dict_set_nodup {V} (k : string) (v : V) (d : list (string * V)) :
  NoDup (map fst d) -> NoDup (map fst (dict_set k v d)).
Proof.
  induction d as [|[k0 v0] d IH]; cbn [dict_set map fst]; intros N.
  - repeat constructor. easy.
  - apply NoDup_cons_iff in N. destruct N as [N1 N2].
    destruct (String.eqb_spec k0 k) as [E|E]; cbn [map fst].
    + subst. constructor; assumption.
    + constructor; [|apply IH; exact N2].
      rewrite dict_set_keys. intros [H|H]; [congruence|tauto].
Qed.

(** A dict made from rows: its keys are the keys of the rows, each once,
    and every item is one of the rows. *)
Lemma dict_of_rows_spec {V} (rows : list (string * V)) :
  NoDup (map fst (dict_of_rows rows))
  /\ (forall k, In k (map fst (dict_of_rows rows)) <-> In k (map fst rows))
  /\ (forall k v, In (k, v) (dict_of_rows rows) -> In (k, v) rows).
Proof.
  unfold dict_of_rows.
  assert (G : forall acc : list (string * V),
             NoDup (map fst acc) ->
             let d := fold_left (fun d row => dict_set (fst row) (snd row) d) rows acc in
             NoDup (map fst d)
             /\ (forall k, In k (map fst d) <-> In k (map fst acc) \/ In k (map fst rows))
             /\ (forall k v, In (k, v) d -> In (k, v) acc \/ In (k, v) rows)).
  { induction rows as [|[k0 v0] rows IH]; intros acc N; cbn [fold_left].
    - cbn. repeat split; auto; tauto.
    - cbn [fst snd].
      destruct (IH (dict_set k0 v0 acc) (dict_set_nodup k0 v0 acc N)) as (A & B & C).
      cbv zeta in *. split; [exact A|]. split.
      + intros k. rewrite B, dict_set_keys. cbn [map fst In]. intuition.
      + intros k v H. destruct (C k v H) as [H'|H']; [|right; right; exact H'].
        destruct (dict_set_in _ _ _ _ _ H') as [E|E]; [right; left; congruence|auto]. }
  destruct (G [] (NoDup_nil _)) as (A & B & C). cbv zeta in *.
  split; [exact A|]. split.
  - intros k. rewrite B. cbn. tauto.
  - intros k v H. destruct (C k v H) as [[]|H']. exact H'.
Qed.

(** The budget status on a store that answers. *)
Lemma budget_status_healthy (db : database) (user_id : Z) (today : datetime) :
  db_health db = Healthy ->
  valid_dateb (dt_date today) = true ->
  let month_start := strftime_ymd (first_of_month (dt_date today)) in
  let month_end := strftime_ymd (dt_date today) in
  get_budget_status db user_id today
  = Ret (BudgetStatusOk (strftime_ym (dt_date today))
           (map (status_entry db user_id month_start month_end)
                (dict_of_rows
                   (map (fun b => (b_category b, b_amount b))
                        (filter (month_budget_row user_id month_start month_end)
                                (budgets db)))))).
Proof.
  intros Hh Hv. cbv zeta. unfold get_budget_status.
  rewrite replace_day_first by assumption. cbn [bind].
  unfold get_connection, execute. rewrite Hh. cbn [bind].
  rewrite SummaryProperties.dict_of_distinct_rows; [reflexivity|].
  rewrite map_map.
  match goal with |- NoDup (map _ ?d) => pose proof (dict_of_rows_spec
    (map (fun b => (b_category b, b_amount b))
         (filter (month_budget_row user_id
                    (strftime_ymd (first_of_month (dt_date today)))
                    (strftime_ymd (dt_date today))) (budgets db)))) as (N & _) end.
  erewrite map_ext; [exact N|]. intros [c b]. reflexivity.
Qed.

Lemma month_budget_row_spec (user_id : Z) (month_start month_end : string)
    (b : budget_row) :
  month_budget_row user_id month_start month_end b = true
  <-> b_user_id b = user_id /\ b_period_type b = "月"
      /\ text_le (b_period_start b) month_start = true
      /\ text_le month_end (b_period_end b) = true.
Proof.
  unfold month_budget_row. rewrite !andb_true_iff, Z.eqb_eq, String.eqb_eq. tauto.
Qed.

(** X14.  The budget status names every category that has a month budget
    of the user covering the month so far (a period that starts on or
    before the first of the month and ends today or later), each once,
    however many such rows the category has; an entry carries the amount of
    one of these rows, a spend that is never negative, and the percentage
    0, without a division, when that amount is not positive. *)
Theorem budget_status_entries (db : database) (user_id : Z) (today : datetime) :
  db_health db = Healthy ->
  valid_dateb (dt_date today) = true ->
  (1000 <= year (dt_date today))%Z ->
  let month_start := strftime_ymd (first_of_month (dt_date today)) in
  let month_end := strftime_ymd (dt_date today) in
  let covers (b : budget_row) :=
    b_user_id b = user_id /\ b_period_type b = "月"
    /\ text_le (b_period_start b) month_start = true
    /\ text_le month_end (b_period_end b) = true in
  exists status,
    get_budget_status db user_id today
    = Ret (BudgetStatusOk (strftime_ym (dt_date today)) status)
    /\ NoDup (map fst status)
    /\ (forall c, In c (map fst status)
                  <-> exists b, In b (budgets db) /\ covers b /\ b_category b = c)
    /\ (forall c e, In (c, e) status ->
          (exists b, In b (budgets db) /\ covers b /\ b_category b = c
                     /\ b_amount b = be_budget e)
          /\ (0 <= be_spent e)%Q
          /\ ((be_budget e <= 0)%Q -> be_percentage e = 0%Q)).
Proof.
  intros Hh Hv _ month_start month_end covers.
  rewrite (budget_status_healthy db user_id today Hh Hv). cbv zeta.
  fold month_start month_end.
  set (rows := map (fun b => (b_category b, b_amount b))
                   (filter (month_budget_row user_id month_start month_end) (budgets db))).
  destruct (dict_of_rows_spec rows) as (N & K & I).
  assert (Hrow : forall c a, In (c, a) rows <->
                   exists b, In b (budgets db) /\ covers b
                             /\ b_category b = c /\ b_amount b = a).
  { intros c a. unfold rows. rewrite in_map_iff. split.
    - intros (b & E & Hb). injection E as <- <-. apply filter_In in Hb.
      destruct Hb as [Hb M]. apply month_budget_row_spec in M. exists b. unfold covers. tauto.
    - intros (b & Hb & M & <- & <-). exists b. split; [reflexivity|].
      apply filter_In. split; [exact Hb|]. apply month_budget_row_spec. exact M. }
  assert (Hfst : map fst (map (status_entry db user_id month_start month_end)
                              (dict_of_rows rows)) = map fst (dict_of_rows rows)).
  { rewrite map_map. apply map_ext. intros [c a]. reflexivity. }
  eexists. split; [reflexivity|]. rewrite Hfst. split; [exact N|]. split.
  - intros c. rewrite K. unfold rows. rewrite map_map. cbn [fst]. rewrite in_map_iff.
    split.
    + intros (b & <- & Hb). apply filter_In in Hb. destruct Hb as [Hb M].
      apply month_budget_row_spec in M. exists b. unfold covers. tauto.
    + intros (b & Hb & M & <-). exists b. split; [reflexivity|].
      apply filter_In. split; [exact Hb|]. apply month_budget_row_spec. exact M.
  - intros c e Hin. apply in_map_iff in Hin. destruct Hin as ([c' a] & E & Hd).
    cbn [status_entry] in E. injection E as -> <-.
    cbn [be_budget be_spent be_remaining be_percentage].
    split; [apply Hrow, I, Hd|]. split.
    + apply SummaryProperties.sum_abs_nonneg.
    + intros L. apply usage_guarded. exact L.
Qed.

Lemma budget_status_entries_witness :
  db_health spent_470_db = Healthy
  /\ valid_dateb (dt_date may_20) = true
  /\ (1000 <= year (dt_date may_20))%Z
  /\ let month_start := strftime_ymd (first_of_month (dt_date may_20)) in
     let month_end := strftime_ymd (dt_date may_20) in
     let covers (b : budget_row) :=
       b_user_id b = 1%Z /\ b_period_type b = "月"
       /\ text_le (b_period_start b) month_start = true
       /\ text_le month_end (b_period_end b) = true in
     exists status,
       get_budget_status spent_470_db 1 may_20
       = Ret (BudgetStatusOk (strftime_ym (dt_date may_20)) status)
       /\ NoDup (map fst status)
       /\ (forall c, In c (map fst status)
                     <-> exists b, In b (budgets spent_470_db) /\ covers b
                                   /\ b_category b = c)
       /\ (forall c e, In (c, e) status ->
             (exists b, In b (budgets spent_470_db) /\ covers b /\ b_category b = c
                        /\ b_amount b = be_budget e)
             /\ (0 <= be_spent e)%Q
             /\ ((be_budget e <= 0)%Q -> be_percentage e = 0%Q)).
Proof.
  split; [reflexivity|]. split; [reflexivity|]. split; [simpl; lia|].
  apply (budget_status_entries spent_470_db 1 may_20);
    [reflexivity|reflexivity|simpl; lia].
Defined.

Example budget_status_example :
  get_budget_status spent_470_db 1 may_20
  = Ret (BudgetStatusOk "2024-05"
           [("餐饮", mkentry 500 470 30 (470 / 500 * 100))])
  /\ get_budget_status (nothing_spent_db 0) 1 may_20
     = Ret (BudgetStatusOk "2024-05" [("餐饮", mkentry 0 0 0 0)]).
Proof. split; vm_compute; reflexivity. Qed.

Lemma sum_abs_filter_mono (f g : transaction_row -> bool) (l : list transaction_row) :
  (forall t, f t = true -> g t = true) ->
  (sum_abs (filter f l) <= sum_abs (filter g l))%Q.
Proof.
  intros H. induction l as [|t l IH]; cbn [filter]; [apply Qle_refl|].
  destruct (f t) eqn:F.
  - rewrite (H t F). cbn [sum_abs fold_right]. fold (sum_abs (filter f l)).
    fold (sum_abs (filter g l)). lra.
  - destruct (g t); [|exact IH]. cbn [sum_abs fold_right].
    fold (sum_abs (filter g l)). pose proof (Qabs_nonneg (t_amount t)). lra.
Qed.

(** X15.  The budget status and the budget check of [add_transaction]
    look at the same month differently: the status adds up the expenses
    from the first of the month to today, the check those of the whole
    month.  So for every category the status lists, the spend it shows is
    at most the spend the check uses for a transaction dated today, and the
    check finds a month budget for that category. *)
Theorem budget_status_spent_at_most_checked (db : database) (user_id : Z)
    (today : datetime) :
  db_health db = Healthy ->
  valid_dateb (dt_date today) = true ->
  exists status,
    get_budget_status db user_id today
    = Ret (BudgetStatusOk (strftime_ym (dt_date today)) status)
    /\ forall c e, In (c, e) status ->
         (be_spent e <= spent_in_month db user_id c (dt_date today))%Q
         /\ find (covering_month_budget user_id c (strftime_ymd (dt_date today)))
                 (budgets db) <> None.
Proof.
  intros Hh Hv.
  rewrite (budget_status_healthy db user_id today Hh Hv). cbv zeta.
  eexists. split; [reflexivity|]. intros c e Hin.
  pose proof (date_in_own_month (dt_date today) Hv) as Hb.
  unfold text_between in Hb. apply andb_prop in Hb. destruct Hb as [Hlo Hhi].
  apply in_map_iff in Hin. destruct Hin as ([c' a] & E & Hd).
  cbn [status_entry] in E. injection E as -> <-. cbn [be_spent]. split.
  - unfold spent_in_month, month_spent. apply sum_abs_filter_mono.
    intros t. unfold spent_row, text_between. intros H.
    apply andb_prop in H. destruct H as [H1 H2]. rewrite H1. cbn [andb].
    apply andb_prop in H2. destruct H2 as [H2 H3]. rewrite H2. cbn [andb].
    exact (text_le_trans _ _ _ H3 Hhi).
  - destruct (dict_of_rows_spec
                (map (fun b => (b_category b, b_amount b))
                   (filter (month_budget_row user_id
                              (strftime_ymd (first_of_month (dt_date today)))
                              (strftime_ymd (dt_date today))) (budgets db))))
      as (_ & _ & I).
    apply I in Hd. apply in_map_iff in Hd. destruct Hd as (b & E & Hb).
    injection E as <- _. apply filter_In in Hb. destruct Hb as [Hb M].
    unfold month_budget_row in M.
    apply andb_prop in M. destruct M as [M M4].
    apply andb_prop in M. destruct M as [M M3].
    apply andb_prop in M. destruct M as [M1 M2].
    intros F. apply (find_none _ _ F) in Hb.
    unfold covering_month_budget in Hb.
    rewrite M1, M2, M4, String.eqb_refl in Hb. cbn [andb] in Hb.
    rewrite (text_le_trans _ _ _ M3 Hlo) in Hb. discriminate Hb.
Qed.

Lemma budget_status_spent_at_most_checked_witness :
  db_health spent_470_db = Healthy
  /\ valid_dateb (dt_date may_20) = true
  /\ exists status,
       get_budget_status spent_470_db 1 may_20
       = Ret (BudgetStatusOk (strftime_ym (dt_date may_20)) status)
       /\ forall c e, In (c, e) status ->
            (be_spent e <= spent_in_month spent_470_db 1 c (dt_date may_20))%Q
            /\ find (covering_month_budget 1 c (strftime_ymd (dt_date may_20)))
                    (budgets spent_470_db) <> None.
Proof.
  split; [reflexivity|]. split; [reflexivity|].
  apply (budget_status_spent_at_most_checked spent_470_db 1 may_20); reflexivity.
Defined.

End BudgetStatusProperties.

(** ** save_message and what reads the turns back *)

Module SessionProperties.

Local Open Scope string_scope.

Lemma save_message_healthy (a : agent) (db : database) (now : datetime)
    (msg_type text : string) :
  db_health db = Healthy ->
  user_exists db (user_id a) = true ->
  save_message a db now msg_type text
  = Ret (with_conversations db
           (conversations db ++ [saved_row db a now msg_type text])%list
           (c_id (saved_row db a now msg_type text))).
Proof.
  intros Hh Hu. unfold save_message, get_connection, execute. rewrite Hh.
  cbn [bind try_except_Exception]. rewrite Hu. reflexivity.
Qed.

Lemma turn_of_saved_row (db : database) (a : agent) (now : datetime)
    (msg_type text : string) :
  turn_of (user_id a) (agent_type a) (conversation_id a)
          (saved_row db a now msg_type text) = true.
Proof.
  unfold turn_of, saved_row. cbn. rewrite Z.eqb_refl, !String.eqb_refl. reflexivity.
Qed.

Lemma turns_after_save (db : database) (a : agent) (now : datetime)
    (msg_type text : string) (seq : Z) :
  turns_of (with_conversations db
              (conversations db ++ [saved_row db a now msg_type text])%list seq)
           (user_id a) (agent_type a) (conversation_id a)
  = (turns_of db (user_id a) (agent_type a) (conversation_id a)
     ++ [saved_row db a now msg_type text])%list.
Proof.
  unfold turns_of. cbn [conversations with_conversations].
  rewrite filter_app. cbn [filter]. rewrite turn_of_saved_row. reflexivity.
Qed.

Section Newest.

Context {A : Type} (key : A -> string).

Lemma order_by_desc_newest (x : A) (l : list A) :
  (forall y, In y l -> text_le (key x) (key y) = false) ->
  order_by_desc key (l ++ [x]) = x :: order_by_desc key l.
Proof.
  unfold order_by_desc. induction l as [|y l IH]; intros H; [reflexivity|].
  cbn [app fold_right]. rewrite IH by (intros z Hz; apply H; right; exact Hz).
  cbn [insert_desc]. rewrite (H y (or_introl eq_refl)). reflexivity.
Qed.

Lemma insert_asc_before_last (y x : A) (l : list A) :
  text_le (key y) (key x) = true ->
  insert_asc key y (l ++ [x]) = (insert_asc key y l ++ [x])%list.
Proof.
  intros H. induction l as [|z l IH]; cbn [app insert_asc].
  - rewrite H. reflexivity.
  - destruct (text_le (key y) (key z)); [reflexivity|]. rewrite IH. reflexivity.
Qed.

Lemma order_by_asc_latest (x : A) (l : list A) :
  (forall y, In y l -> text_le (key y) (key x) = true) ->
  order_by_asc key (l ++ [x]) = (order_by_asc key l ++ [x])%list.
Proof.
  unfold order_by_asc. induction l as [|y l IH]; intros H; [reflexivity|].
  cbn [app fold_right]. rewrite IH by (intros z Hz; apply H; right; exact Hz).
  apply insert_asc_before_last. apply H. left. reflexivity.
Qed.

End Newest.

(** X16.  A message saved on a store that answers, for a user with a row,
    makes its conversation loadable: [load_conversation] with the
    identifier it was saved under returns True, adopts the identifier and
    empties the memory, for every session of the same user and agent
    type. *)
Theorem saved_conversation_can_be_loaded (a b : agent) (db : database)
    (now : datetime) (msg_type text : string) :
  db_health db = Healthy ->
  user_exists db (user_id a) = true ->
  user_id b = user_id a ->
  agent_type b = agent_type a ->
  exists db',
    save_message a db now msg_type text = Ret db'
    /\ load_conversation b db' (conversation_id a)
       = Ret (mkagent (user_id b) (agent_type b) (conversation_id a) [], true).
Proof.
  intros Hh Hu Eu Et. rewrite (save_message_healthy a db now msg_type text Hh Hu).
  eexists. split; [reflexivity|].
  apply ConversationClaims.load_conversation_known_id; [exact Hh|].
  rewrite Eu, Et, turns_after_save. intros E.
  apply app_eq_nil in E. destruct E as [_ E]. discriminate E.
Qed.

Lemma saved_conversation_can_be_loaded_witness :
  db_health (chat_db Healthy) = Healthy
  /\ user_exists (chat_db Healthy) (user_id (recorder "c-new")) = true
  /\ user_id (recorder "c-a") = user_id (recorder "c-new")
  /\ agent_type (recorder "c-a") = agent_type (recorder "c-new")
  /\ exists db',
       save_message (recorder "c-new") (chat_db Healthy) may_20 "user" "早饭8元"
       = Ret db'
       /\ load_conversation (recorder "c-a") db' (conversation_id (recorder "c-new"))
          = Ret (mkagent (user_id (recorder "c-a")) (agent_type (recorder "c-a"))
                         (conversation_id (recorder "c-new")) [], true).
Proof.
  split; [reflexivity|]. split; [reflexivity|]. split; [reflexivity|].
  split; [reflexivity|].
  apply (saved_conversation_can_be_loaded (recorder "c-new") (recorder "c-a")
           (chat_db Healthy) may_20 "user" "早饭8元"); reflexivity.
Defined.

(** X17.  [save_message] hides its failures: on a store that can be
    opened, when the statement fails or when the user has no row (the
    foreign key refuses the turn), it returns normally and the store is
    what it was, so the message is lost without a sign to the caller. *)
Theorem save_message_failure_is_silent (a : agent) (db : database)
    (now : datetime) (msg_type text : string) :
  get_connection db = Ret tt ->
  db_health db = StatementsFail \/ user_exists db (user_id a) = false ->
  save_message a db now msg_type text = Ret db.
Proof.
  intros Hc H. unfold save_message. rewrite Hc. cbn [bind].
  unfold get_connection in Hc. unfold execute.
  destruct (db_health db) eqn:Hh; try discriminate Hc;
    cbn [bind try_except_Exception]; [|reflexivity].
  destruct H as [H|H]; [discriminate H|]. rewrite H. reflexivity.
Qed.

Lemma save_message_failure_is_silent_witness :
  get_connection no_user_db = Ret tt
  /\ (db_health no_user_db = StatementsFail
      \/ user_exists no_user_db (user_id (recorder "c-a")) = false)
  /\ save_message (recorder "c-a") no_user_db may_20 "user" "午饭35元"
     = Ret no_user_db.
Proof.
  split; [reflexivity|]. split; [right; reflexivity|].
  apply (save_message_failure_is_silent (recorder "c-a") no_user_db may_20
           "user" "午饭35元"); [reflexivity|right; reflexivity].
Defined.

Example save_message_outcomes :
  save_message (recorder "c-a") (chat_db StatementsFail) may_20 "user" "午饭35元"
  = Ret (chat_db StatementsFail)
  /\ save_message (recorder "c-a") (chat_db Unreachable) may_20 "user" "午饭35元"
     = Raise cannot_open.
Proof. split; reflexivity. Qed.

(** The history after a successful [save_message] with a timestamp later
    than those of the conversation's turns. *)
Lemma saved_message_history (a : agent) (db : database) (now : datetime)
    (msg_type text : string) :
  db_health db = Healthy ->
  user_exists db (user_id a) = true ->
  later_than_all (isoformat now)
    (turns_of db (user_id a) (agent_type a) (conversation_id a)) = true ->
  let db' := with_conversations db
               (conversations db ++ [saved_row db a now msg_type text])%list
               (c_id (saved_row db a now msg_type text)) in
  history_rows db' a
  = (rev (firstn 19 (order_by_desc c_timestamp
            (turns_of db (user_id a) (agent_type a) (conversation_id a))))
     ++ [saved_row db a now msg_type text])%list
  /\ get_history a db'
     = Ret (join newline
              (map history_line
                 (rev (firstn 19 (order_by_desc c_timestamp
                    (turns_of db (user_id a) (agent_type a) (conversation_id a)))))
               ++ [msg_type ++ ": " ++ text])).
Proof.
  intros Hh Hu Hl db'.
  assert (E : history_rows db' a
              = (rev (firstn 19 (order_by_desc c_timestamp
                        (turns_of db (user_id a) (agent_type a) (conversation_id a))))
                 ++ [saved_row db a now msg_type text])%list).
  { unfold history_rows, recent_turns.
    fold (turns_of db' (user_id a) (agent_type a) (conversation_id a)).
    unfold db'. rewrite turns_after_save, order_by_desc_newest.
    - reflexivity.
    - intros y Hy. unfold later_than_all in Hl. rewrite forallb_forall in Hl.
      specialize (Hl y Hy). apply negb_true_iff in Hl. exact Hl. }
  split; [exact E|].
  unfold get_history, get_connection, execute. unfold db' at 1 2.
  cbn [db_health with_conversations].
  rewrite Hh. cbn [bind try_except_Exception]. rewrite E, map_app. reflexivity.
Qed.

(** X18.  After a message is saved with a timestamp later than those of
    the turns of the conversation, the history the prompt is built from
    ends with that message, written "msg_type: text", after the lines of
    the 19 most recent earlier turns. *)
Theorem saved_message_ends_history (a : agent) (db : database) (now : datetime)
    (msg_type text : string) :
  db_health db = Healthy ->
  user_exists db (user_id a) = true ->
  later_than_all (isoformat now)
    (turns_of db (user_id a) (agent_type a) (conversation_id a)) = true ->
  exists db',
    save_message a db now msg_type text = Ret db'
    /\ history_rows db' a
       = (rev (firstn 19 (order_by_desc c_timestamp
                 (turns_of db (user_id a) (agent_type a) (conversation_id a))))
          ++ [saved_row db a now msg_type text])%list
    /\ get_history a db'
       = Ret (join newline
                (map history_line
                   (rev (firstn 19 (order_by_desc c_timestamp
                      (turns_of db (user_id a) (agent_type a) (conversation_id a)))))
                 ++ [msg_type ++ ": " ++ text])).
Proof.
  intros Hh Hu Hl. rewrite (save_message_healthy a db now msg_type text Hh Hu).
  eexists. split; [reflexivity|].
  exact (saved_message_history a db now msg_type text Hh Hu Hl).
Qed.

Lemma saved_message_ends_history_witness :
  db_health long_chat_db = Healthy
  /\ user_exists long_chat_db (user_id (recorder "c-long")) = true
  /\ later_than_all (isoformat may_20)
       (turns_of long_chat_db (user_id (recorder "c-long"))
                 (agent_type (recorder "c-long"))
                 (conversation_id (recorder "c-long"))) = true
  /\ exists db',
       save_message (recorder "c-long") long_chat_db may_20 "user" "早饭8元" = Ret db'
       /\ history_rows db' (recorder "c-long")
          = (rev (firstn 19 (order_by_desc c_timestamp
                    (turns_of long_chat_db (user_id (recorder "c-long"))
                              (agent_type (recorder "c-long"))
                              (conversation_id (recorder "c-long")))))
             ++ [saved_row long_chat_db (recorder "c-long") may_20 "user" "早饭8元"])%list
       /\ get_history (recorder "c-long") db'
          = Ret (join newline
                   (map history_line
                      (rev (firstn 19 (order_by_desc c_timestamp
                         (turns_of long_chat_db (user_id (recorder "c-long"))
                                   (agent_type (recorder "c-long"))
                                   (conversation_id (recorder "c-long"))))))
                    ++ ["user" ++ ": " ++ "早饭8元"])).
Proof.
  split; [reflexivity|]. split; [reflexivity|]. split; [vm_compute; reflexivity|].
  apply (saved_message_ends_history (recorder "c-long") long_chat_db may_20
           "user" "早饭8元"); [reflexivity|reflexivity|vm_compute; reflexivity].
Defined.

Lemma text_max_newest (l : list string) (s : string) :
  (forall x, In x l -> text_le s x = false) ->
  text_max (l ++ [s]) = s.
Proof.
  intros H.
  assert (N : (l ++ [s])%list <> []) by (destruct l; discriminate).
  pose proof (text_max_attained _ N) as I.
  apply in_app_or in I. destruct I as [I|[I|[]]]; [|symmetry; exact I].
  pose proof (text_max_upper (l ++ [s]) s) as U.
  rewrite (H _ I) in U. discriminate U. apply in_or_app. right. left. reflexivity.
Qed.

Lemma head_of_order_by_desc {A} (dec : forall a b : A, {a = b} + {a <> b})
    (key : A -> string) (x : A) (l : list A) :
  In x l ->
  (forall y, In y l -> y <> x -> text_le (key x) (key y) = false) ->
  exists rest, order_by_desc key l = x :: rest.
Proof.
  intros Hx H.
  pose proof (order_by_desc_perm key l) as P.
  pose proof (order_by_desc_sorted key l) as S.
  destruct (order_by_desc key l) as [|h t].
  - apply Permutation_nil in P. subst. destruct Hx.
  - destruct (dec h x) as [->|N]; [exists t; reflexivity|].
    exfalso.
    assert (Hh : In h l) by (apply (Permutation_in _ P); left; reflexivity).
    pose proof (H h Hh N) as L.
    apply Permutation_sym in P. apply (Permutation_in _ P) in Hx.
    destruct Hx as [E|Hx]; [congruence|].
    apply StronglySorted_inv in S. destruct S as [_ F].
    rewrite Forall_forall in F. specialize (F x Hx). unfold descending in F.
    congruence.
Qed.

(** X19.  A message saved with a timestamp later than those of all the
    stored turns of the user and agent type puts its conversation at the
    head of the conversation list, labelled with that timestamp. *)
Theorem saved_conversation_heads_the_list (display_time : string -> string)
    (a : agent) (db : database) (now : datetime) (msg_type text : string) :
  db_health db = Healthy ->
  user_exists db (user_id a) = true ->
  later_than_all (isoformat now)
    (filter (owned_by (user_id a) (agent_type a)) (conversations db)) = true ->
  exists db' rest,
    save_message a db now msg_type text = Ret db'
    /\ get_conversation_list display_time db' (user_id a) (agent_type a)
       = Ret (("对话 " ++ display_time (isoformat now), conversation_id a) :: rest).
Proof.
  intros Hh Hu Hl. rewrite (save_message_healthy a db now msg_type text Hh Hu).
  set (row := saved_row db a now msg_type text).
  set (old := filter (owned_by (user_id a) (agent_type a)) (conversations db)) in *.
  unfold later_than_all in Hl. rewrite forallb_forall in Hl.
  assert (Hlt : forall c, In c old -> text_le (isoformat now) (c_timestamp c) = false).
  { intros c Hc. apply negb_true_iff. apply Hl. exact Hc. }
  assert (Own : filter (owned_by (user_id a) (agent_type a))
                       (conversations db ++ [row])%list = (old ++ [row])%list).
  { rewrite filter_app. cbn [filter]. unfold owned_by at 2, row, saved_row. cbn.
    rewrite Z.eqb_refl, String.eqb_refl. reflexivity. }
  assert (Max : text_max
                  (map c_timestamp
                     (filter (fun c => String.eqb (c_conversation_id c)
                                                  (conversation_id a))
                             (old ++ [row])%list)) = isoformat now).
  { rewrite filter_app, map_app. cbn [filter].
    unfold row at 1, saved_row at 1. cbn [c_conversation_id].
    rewrite String.eqb_refl. cbn [map]. unfold row, saved_row.
    cbn [c_timestamp]. apply text_max_newest.
    intros x Hx. apply in_map_iff in Hx. destruct Hx as (c & <- & Hc).
    apply filter_In in Hc. apply Hlt. tauto. }
  assert (Hhead : exists rest,
            select_conversations
              (with_conversations db (conversations db ++ [row])%list (c_id row))
              (user_id a) (agent_type a)
            = (conversation_id a, isoformat now) :: rest).
  { unfold select_conversations. cbn [conversations with_conversations].
    rewrite Own. apply (head_of_order_by_desc pair_dec).
    - apply nodup_In. unfold group_by_conversation. apply in_map_iff.
      exists (conversation_id a). split.
      + f_equal. exact Max.
      + apply nodup_In. rewrite map_app. apply in_or_app. right. left. reflexivity.
    - intros [cid m] Hy Ny. apply nodup_In in Hy. unfold group_by_conversation in Hy.
      apply in_map_iff in Hy. destruct Hy as (cid' & E & Hc). injection E as -> <-.
      cbn [snd].
      destruct (String.eqb_spec (conversation_id a) cid) as [Ec|Ec].
      + exfalso. apply Ny. subst cid. f_equal. exact Max.
      + rewrite filter_app, map_app. cbn [filter].
        unfold row at 1, saved_row at 1. cbn [c_conversation_id].
        apply String.eqb_neq in Ec. rewrite Ec. apply String.eqb_neq in Ec.
        cbn [map]. rewrite app_nil_r.
        apply nodup_In in Hc. rewrite map_app in Hc. apply in_app_or in Hc.
        destruct Hc as [Hc|[Hc|[]]]; [|cbn in Hc; congruence].
        apply in_map_iff in Hc. destruct Hc as (c & Ecid & Hc).
        assert (N : map c_timestamp
                      (filter (fun c0 => String.eqb (c_conversation_id c0) cid) old)
                    <> []).
        { intros E0. apply map_eq_nil in E0.
          assert (I : In c (filter (fun c0 => String.eqb (c_conversation_id c0) cid) old)).
          { apply filter_In. split; [exact Hc|]. rewrite Ecid. apply String.eqb_refl. }
          rewrite E0 in I. destruct I. }
        apply text_max_attained in N. apply in_map_iff in N.
        destruct N as (c' & <- & Hc'). apply filter_In in Hc'. apply Hlt. tauto. }
  destruct Hhead as (rest & E).
  eexists. exists (map (fun r => ("对话 " ++ display_time (snd r), fst r)) rest).
  split; [reflexivity|].
  unfold get_conversation_list, get_connection, execute.
  cbn [db_health with_conversations]. rewrite Hh. cbn [bind try_except_Exception].
  fold row. rewrite E. reflexivity.
Qed.

Lemma saved_conversation_heads_the_list_witness :
  db_health (chat_db Healthy) = Healthy
  /\ user_exists (chat_db Healthy) (user_id (recorder "c-a")) = true
  /\ later_than_all (isoformat may_20)
       (filter (owned_by (user_id (recorder "c-a")) (agent_type (recorder "c-a")))
               (conversations (chat_db Healthy))) = true
  /\ exists db' rest,
       save_message (recorder "c-a") (chat_db Healthy) may_20 "user" "早饭8元" = Ret db'
       /\ get_conversation_list (fun s => s) db' (user_id (recorder "c-a"))
            (agent_type (recorder "c-a"))
          = Ret (("对话 " ++ (fun s => s) (isoformat may_20),
                  conversation_id (recorder "c-a")) :: rest).
Proof.
  split; [reflexivity|]. split; [reflexivity|]. split; [vm_compute; reflexivity|].
  apply (saved_conversation_heads_the_list (fun s => s) (recorder "c-a")
           (chat_db Healthy) may_20 "user" "早饭8元");
    [reflexivity|reflexivity|vm_compute; reflexivity].
Defined.

Lemma join_ends_nonempty (sep x : string) (l : list string) :
  x <> "" -> join sep (l ++ [x]) <> "".
Proof.
  intros Hx. unfold join. induction l as [|y l IH]; cbn [app String.concat].
  - exact Hx.
  - destruct (l ++ [x])%list as [|z t] eqn:E.
    + destruct l; discriminate E.
    + intros H. destruct y; cbn in H; [|discriminate H].
      destruct sep; cbn in H; [|discriminate H]. apply IH. exact H.
Qed.

(** X22.  A chat handler saves the user's message before it calls [step],
    and [step] builds its prompt from the stored turns.  So when that save
    succeeds with a timestamp later than those of the conversation's turns,
    the prompt is never the bare message: it carries the history, whose
    last line is the new message itself, and then the message once more
    after "用户现在说：". *)
Theorem handler_prompt_repeats_message (a : agent) (db : database)
    (now : datetime) (message : string) :
  db_health db = Healthy ->
  user_exists db (user_id a) = true ->
  later_than_all (isoformat now)
    (turns_of db (user_id a) (agent_type a) (conversation_id a)) = true ->
  exists db' earlier,
    save_message a db now "user" message = Ret db'
    /\ (List.length earlier <= 19)%nat
    /\ prompt a db' (mkmessage "用户" USER message)
       = Ret (mkmessage "用户" USER
                ("历史对话：" ++ newline
                 ++ join newline (earlier ++ ["user: " ++ message])
                 ++ newline ++ "用户现在说：" ++ message)).
Proof.
  intros Hh Hu Hl.
  destruct (saved_message_history a db now "user" message Hh Hu Hl) as (E & G).
  rewrite (save_message_healthy a db now "user" message Hh Hu).
  eexists. eexists. split; [reflexivity|]. split.
  2:{ unfold prompt. rewrite G. cbn [bind]. unfold full_content.
      rewrite (proj2 (String.eqb_neq _ _)); [reflexivity|].
      apply join_ends_nonempty. discriminate. }
  rewrite length_map, length_rev, length_firstn. apply Nat.le_min_l.
Qed.

Lemma handler_prompt_repeats_message_witness :
  db_health (chat_db Healthy) = Healthy
  /\ user_exists (chat_db Healthy) (user_id (recorder "c-a")) = true
  /\ later_than_all (isoformat may_20)
       (turns_of (chat_db Healthy) (user_id (recorder "c-a"))
                 (agent_type (recorder "c-a")) (conversation_id (recorder "c-a")))
     = true
  /\ exists db' earlier,
       save_message (recorder "c-a") (chat_db Healthy) may_20 "user" "晚饭50元"
       = Ret db'
       /\ (List.length earlier <= 19)%nat
       /\ prompt (recorder "c-a") db' (mkmessage "用户" USER "晚饭50元")
          = Ret (mkmessage "用户" USER
                   ("历史对话：" ++ newline
                    ++ join newline (earlier ++ ["user: " ++ "晚饭50元"])
                    ++ newline ++ "用户现在说：" ++ "晚饭50元")).
Proof.
  split; [reflexivity|]. split; [reflexivity|]. split; [vm_compute; reflexivity|].
  apply (handler_prompt_repeats_message (recorder "c-a") (chat_db Healthy) may_20
           "晚饭50元"); [reflexivity|reflexivity|vm_compute; reflexivity].
Defined.

End SessionProperties.

(** ** The chat window *)

Module WindowProperties.

Local Open Scope string_scope.

Lemma save_message_outcome (a : agent) (db db' : database) (now : datetime)
    (msg_type text : string) :
  save_message a db now msg_type text = Ret db' ->
  db' = db
  \/ (db_health db = Healthy /\ user_exists db (user_id a) = true
      /\ db' = with_conversations db
                 (conversations db ++ [saved_row db a now msg_type text])%list
                 (c_id (saved_row db a now msg_type text))).
Proof.
  unfold save_message, get_connection, execute.
  destruct (db_health db) eqn:Hh; cbn [bind try_except_Exception];
    try discriminate.
  - destruct (user_exists db (user_id a)) eqn:Hu; cbn [try_except_Exception];
      intros E; injection E as <-; [right|left]; auto.
  - intros E; injection E as <-. left. reflexivity.
Qed.

Lemma save_message_extends (a : agent) (db db' : database) (now : datetime)
    (msg_type text : string) :
  save_message a db now msg_type text = Ret db' ->
  exists added, conversations db' = (conversations db ++ added)%list
                /\ (List.length added <= 1)%nat.
Proof.
  intros E. destruct (save_message_outcome _ _ _ _ _ _ E) as [->|(_ & _ & ->)].
  - exists []. rewrite app_nil_r. split; [reflexivity|cbn; lia].
  - eexists. split; [reflexivity|cbn; lia].
Qed.

Section Handler.

Variable json_loads : string -> option json.
Variable json_str : json -> string.
Variable chat_step :
  list base_message -> base_message -> list base_message * result response.

Lemma step_returns (a : agent) (db : database) (user_msg : base_message) :
  get_connection db = Ret tt ->
  exists a' r, step json_loads json_str chat_step a db user_msg = Ret (a', r).
Proof.
  intros Hc. unfold step, prompt, get_history. rewrite Hc. cbn [bind].
  destruct (try_except_Exception _ _) as [h|e] eqn:T.
  - cbn [bind].
    destruct (generate json_loads json_str chat_step a _) as [memory' outcome].
    destruct outcome as [r|e]; cbn [bind try_except_Exception]; eauto.
  - exfalso. destruct (execute db); discriminate T.
Qed.

End Handler.

(** X20.  A chat handler answers every message that is not empty,
    whatever fails on the way (the store, the model, the shape of its
    response): the transcript returned is the one it was given followed by
    the user's message and one assistant entry, the input box is cleared,
    the session keeps its user, agent type and conversation identifier, and
    the stored turns are the former ones followed by at most two new
    ones. *)
Theorem handle_chat_always_answers (json_loads : string -> option json)
    (json_str : json -> string)
    (chat_step : list base_message -> base_message
                 -> list base_message * result response)
    (a : agent) (db : database) (now1 now2 : datetime)
    (message : string) (chat_history : list chat_entry) :
  message <> "" ->
  exists a' db' answer added,
    _handle_chat json_loads json_str chat_step a db now1 now2 message chat_history
    = (a', db',
       ((chat_history ++ [mkchat "user" message; mkchat "assistant" answer])%list, ""))
    /\ user_id a' = user_id a /\ agent_type a' = agent_type a
    /\ conversation_id a' = conversation_id a
    /\ conversations db' = (conversations db ++ added)%list
    /\ (List.length added <= 2)%nat.
Proof.
  intros Hm. unfold _handle_chat.
  apply String.eqb_neq in Hm. rewrite Hm.
  destruct (save_message a db now1 "user" message) as [db1|e] eqn:S1.
  2:{ exists a, db, (error_msg e), []. rewrite app_nil_r.
      repeat split; try reflexivity. cbn; lia. }
  destruct (save_message_extends _ _ _ _ _ _ S1) as (add1 & E1 & L1).
  destruct (step json_loads json_str chat_step a db1 (mkmessage "用户" USER message))
    as [[a1 response]|e] eqn:St.
  2:{ exists a, db1, (error_msg e), add1. repeat split; try reflexivity; [exact E1|lia]. }
  destruct (AgentClaims.step_keeps_identity _ _ _ _ _ _ _ _ St) as (I1 & I2 & I3).
  destruct (bot_reply_of response) as [bot_reply|e].
  2:{ exists a1, db1, (error_msg e), add1. repeat split; try assumption; lia. }
  destruct (save_message a1 db1 now2 "assistant" bot_reply) as [db2|e] eqn:S2.
  2:{ exists a1, db1, (error_msg e), add1. repeat split; try assumption; lia. }
  destruct (save_message_extends _ _ _ _ _ _ S2) as (add2 & E2 & L2).
  exists a1, db2, bot_reply, (add1 ++ add2)%list.
  repeat split; try assumption.
  - rewrite E2, E1, app_assoc. reflexivity.
  - rewrite length_app. lia.
Qed.

Lemma handle_chat_always_answers_witness :
  "午饭35元" <> ""
  /\ exists a' db' answer added,
       _handle_chat no_json json_text failing_model (recorder "c-a")
                    (chat_db Unreachable) may_20 may_20 "午饭35元" []
       = (a', db',
          (([] ++ [mkchat "user" "午饭35元"; mkchat "assistant" answer])%list, ""))
       /\ user_id a' = user_id (recorder "c-a")
       /\ agent_type a' = agent_type (recorder "c-a")
       /\ conversation_id a' = conversation_id (recorder "c-a")
       /\ conversations db' = (conversations (chat_db Unreachable) ++ added)%list
       /\ (List.length added <= 2)%nat.
Proof.
  split; [discriminate|].
  apply (handle_chat_always_answers no_json json_text failing_model (recorder "c-a")
           (chat_db Unreachable) may_20 may_20 "午饭35元" []).
  discriminate.
Defined.

Example handle_chat_outcomes :
  snd (_handle_chat no_json json_text failing_model (recorder "c-a")
         (chat_db Unreachable) may_20 may_20 "午饭35元" [])
  = ([mkchat "user" "午饭35元";
      mkchat "assistant" "处理消息时出错: unable to open database file"], "")
  /\ snd (_handle_chat no_json json_text failing_model (recorder "c-a")
            (chat_db Healthy) may_20 may_20 "午饭35元" [])
     = ([mkchat "user" "午饭35元";
         mkchat "assistant"
           "处理请求时出错: Connection error.。请尝试重新表述您的问题。"], "")
  /\ _handle_chat no_json json_text failing_model (recorder "c-a")
       (chat_db Healthy) may_20 may_20 "" [mkchat "user" "你好"]
     = (recorder "c-a", chat_db Healthy, ([mkchat "user" "你好"], "")).
Proof. repeat split. Qed.

Lemma load_history_healthy (user_id : Z) (label : string) (a : agent) (db : database) :
  db_health db = Healthy ->
  _load_history user_id label a db
  = map transcript_entry (transcript_rows db user_id label (conversation_id a)).
Proof.
  intros Hh. unfold _load_history, get_connection, execute. rewrite Hh. reflexivity.
Qed.

Lemma not_before_any_spec (stamp : string) (rows : list conversation_row) :
  not_before_any stamp rows = true
  <-> forall c, In c rows -> text_le (c_timestamp c) stamp = true.
Proof. unfold not_before_any. apply forallb_forall. Qed.

(** The transcript after a successful [save_message] with a timestamp that
    is not earlier than those of the turns of the conversation. *)
Lemma transcript_after_save (a : agent) (db : database) (now : datetime)
    (msg_type text : string) :
  not_before_any (isoformat now)
    (turns_of db (user_id a) (agent_type a) (conversation_id a)) = true ->
  transcript_rows
    (with_conversations db
       (conversations db ++ [saved_row db a now msg_type text])%list
       (c_id (saved_row db a now msg_type text)))
    (user_id a) (agent_type a) (conversation_id a)
  = (transcript_rows db (user_id a) (agent_type a) (conversation_id a)
     ++ [saved_row db a now msg_type text])%list.
Proof.
  intros H. unfold transcript_rows.
  pose proof (SessionProperties.turns_after_save db a now msg_type text
                (c_id (saved_row db a now msg_type text))) as T.
  unfold turns_of in T. rewrite T.
  apply SessionProperties.order_by_asc_latest.
  intros y Hy. apply (proj1 (not_before_any_spec _ _) H). exact Hy.
Qed.

Lemma transcript_after_save_as (a : agent) (db : database) (now : datetime)
    (msg_type text : string) (uid : Z) (label cid : string) :
  uid = user_id a -> label = agent_type a -> cid = conversation_id a ->
  not_before_any (isoformat now) (turns_of db uid label cid) = true ->
  transcript_rows
    (with_conversations db
       (conversations db ++ [saved_row db a now msg_type text])%list
       (c_id (saved_row db a now msg_type text)))
    uid label cid
  = (transcript_rows db uid label cid ++ [saved_row db a now msg_type text])%list.
Proof. intros -> -> ->. apply transcript_after_save. Qed.

(** X21.  On a store that answers, for a user with a row and with clock
    readings that do not run backwards, a chat handler stores what it
    shows: called with the stored transcript of the conversation, it
    returns the stored transcript of afterwards (the former one, the user's
    message and the reply).  Failing that, the user's message alone has
    been stored and the entry shown after it is an error text that is not
    stored; this is what a response of the model without any text leads
    to. *)
Theorem handle_chat_stores_what_it_shows (json_loads : string -> option json)
    (json_str : json -> string)
    (chat_step : list base_message -> base_message
                 -> list base_message * result response)
    (a : agent) (db : database) (now1 now2 : datetime) (message : string) :
  db_health db = Healthy ->
  user_exists db (user_id a) = true ->
  message <> "" ->
  not_before_any (isoformat now1)
    (turns_of db (user_id a) (agent_type a) (conversation_id a)) = true ->
  text_le (isoformat now1) (isoformat now2) = true ->
  exists a' db' shown,
    _handle_chat json_loads json_str chat_step a db now1 now2 message
                 (_load_history (user_id a) (agent_type a) a db)
    = (a', db', (shown, ""))
    /\ (shown = _load_history (user_id a) (agent_type a) a' db'
        \/ exists e,
             shown = (_load_history (user_id a) (agent_type a) a' db'
                      ++ [mkchat "assistant" (error_msg e)])%list
             /\ _load_history (user_id a) (agent_type a) a' db'
                = (_load_history (user_id a) (agent_type a) a db
                   ++ [mkchat "user" message])%list).
Proof.
  intros Hh Hu Hm Ho H12. unfold _handle_chat.
  apply String.eqb_neq in Hm. rewrite Hm.
  rewrite (SessionProperties.save_message_healthy a db now1 "user" message Hh Hu).
  set (row1 := saved_row db a now1 "user" message).
  set (db1 := with_conversations db (conversations db ++ [row1])%list (c_id row1)).
  assert (Hh1 : db_health db1 = Healthy) by exact Hh.
  assert (Hc1 : get_connection db1 = Ret tt)
    by (unfold get_connection; rewrite Hh1; reflexivity).
  destruct (WindowProperties.step_returns json_loads json_str chat_step a db1
              (mkmessage "用户" USER message) Hc1) as (a1 & response & St).
  rewrite St.
  destruct (AgentClaims.step_keeps_identity _ _ _ _ _ _ _ _ St) as (I1 & I2 & I3).
  assert (L1 : _load_history (user_id a) (agent_type a) a1 db1
               = (_load_history (user_id a) (agent_type a) a db
                  ++ [mkchat "user" message])%list).
  { rewrite !load_history_healthy by assumption. rewrite I3.
    unfold db1, row1. rewrite transcript_after_save by exact Ho.
    rewrite map_app. reflexivity. }
  destruct (bot_reply_of response) as [bot_reply|e].
  2:{ exists a1, db1. eexists. split; [reflexivity|]. right. exists e.
      split; [|exact L1]. rewrite L1. unfold exchange.
      rewrite <- app_assoc. reflexivity. }
  assert (Hu1 : user_exists db1 (user_id a1) = true) by (rewrite I1; exact Hu).
  rewrite (SessionProperties.save_message_healthy a1 db1 now2 "assistant" bot_reply
             Hh1 Hu1).
  exists a1. eexists. eexists. split; [reflexivity|]. left.
  match goal with
  | |- _ = _load_history _ _ _ ?d =>
      rewrite (load_history_healthy (user_id a) (agent_type a) a1 d Hh)
  end.
  rewrite (transcript_after_save_as a1 db1 now2 "assistant" bot_reply
             (user_id a) (agent_type a) (conversation_id a1)
             (eq_sym I1) (eq_sym I2) eq_refl).
  - rewrite map_app.
    rewrite <- (load_history_healthy (user_id a) (agent_type a) a1 db1 Hh1).
    rewrite L1. unfold exchange. rewrite <- app_assoc. reflexivity.
  - rewrite I3. unfold db1, row1.
    rewrite SessionProperties.turns_after_save.
    apply not_before_any_spec. intros c Hc. apply in_app_or in Hc.
    destruct Hc as [Hc|[<-|[]]].
    + apply text_le_trans with (b := isoformat now1); [|exact H12].
      apply (proj1 (not_before_any_spec _ _) Ho). exact Hc.
    + exact H12.
Qed.

Lemma handle_chat_stores_what_it_shows_witness :
  db_health (chat_db Healthy) = Healthy
  /\ user_exists (chat_db Healthy) (user_id (recorder "c-a")) = true
  /\ "晚饭50元" <> ""
  /\ not_before_any (isoformat may_20)
       (turns_of (chat_db Healthy) (user_id (recorder "c-a"))
                 (agent_type (recorder "c-a")) (conversation_id (recorder "c-a")))
     = true
  /\ text_le (isoformat may_20) (isoformat may_20) = true
  /\ exists a' db' shown,
       _handle_chat no_json json_text failing_model (recorder "c-a")
                    (chat_db Healthy) may_20 may_20 "晚饭50元"
                    (_load_history (user_id (recorder "c-a"))
                                   (agent_type (recorder "c-a")) (recorder "c-a")
                                   (chat_db Healthy))
       = (a', db', (shown, ""))
       /\ (shown = _load_history (user_id (recorder "c-a"))
                                 (agent_type (recorder "c-a")) a' db'
           \/ exists e,
                shown = (_load_history (user_id (recorder "c-a"))
                                       (agent_type (recorder "c-a")) a' db'
                         ++ [mkchat "assistant" (error_msg e)])%list
                /\ _load_history (user_id (recorder "c-a"))
                                 (agent_type (recorder "c-a")) a' db'
                   = (_load_history (user_id (recorder "c-a"))
                                    (agent_type (recorder "c-a")) (recorder "c-a")
                                    (chat_db Healthy)
                      ++ [mkchat "user" "晚饭50元"])%list).
Proof.
  split; [reflexivity|]. split; [reflexivity|]. split; [discriminate|].
  split; [vm_compute; reflexivity|]. split; [vm_compute; reflexivity|].
  apply (handle_chat_stores_what_it_shows no_json json_text failing_model
           (recorder "c-a") (chat_db Healthy) may_20 may_20 "晚饭50元");
    [reflexivity|reflexivity|discriminate|vm_compute; reflexivity
    |vm_compute; reflexivity].
Defined.

Example handle_chat_transcripts :
  (let '(a', db', (shown, _)) :=
     _handle_chat no_json json_text
       (answering_model (mkresponse (Some [assistant_says "记好了"]) None (Some []) None))
       (recorder "c-a") (chat_db Healthy) may_20 may_20 "晚饭50元"
       (_load_history 1 "小账" (recorder "c-a") (chat_db Healthy)) in
   shown = [mkchat "user" "午饭35元"; mkchat "assistant" "已记录";
            mkchat "user" "晚饭50元"; mkchat "assistant" "记好了"]
   /\ _load_history 1 "小账" a' db' = shown)
  /\ (let '(a', db', (shown, _)) :=
        _handle_chat no_json json_text
          (answering_model (mkresponse None None (Some []) None))
          (recorder "c-a") (chat_db Healthy) may_20 may_20 "晚饭50元"
          (_load_history 1 "小账" (recorder "c-a") (chat_db Healthy)) in
      firstn 3 shown = [mkchat "user" "午饭35元"; mkchat "assistant" "已记录";
                        mkchat "user" "晚饭50元"]
      /\ List.length shown = 4%nat
      /\ _load_history 1 "小账" a' db'
         = [mkchat "user" "午饭35元"; mkchat "assistant" "已记录";
            mkchat "user" "晚饭50元"]).
Proof. split; vm_compute; repeat split; reflexivity. Qed.

Lemma insert_asc_perm {A} (key : A -> string) (x : A) (l : list A) :
  Permutation (insert_asc key x l) (x :: l).
Proof.
  induction l as [|y l IH]; cbn [insert_asc]; [reflexivity|].
  destruct (text_le (key x) (key y)); [reflexivity|].
  rewrite IH. apply perm_swap.
Qed.

Lemma order_by_asc_perm {A} (key : A -> string) (l : list A) :
  Permutation (order_by_asc key l) l.
Proof.
  induction l as [|x l IH]; cbn [order_by_asc fold_right]; [reflexivity|].
  fold (order_by_asc key l). rewrite insert_asc_perm. constructor. exact IH.
Qed.

(** Every conversation the list names has a stored turn. *)
Lemma listed_conversation_has_turns (display_time : string -> string)
    (db : database) (user_id : Z) (label : string)
    (l : list (string * string)) (name cid : string) :
  get_conversation_list display_time db user_id label = Ret l ->
  In (name, cid) l ->
  turns_of db user_id label cid <> [].
Proof.
  unfold get_conversation_list, get_connection, execute.
  destruct (db_health db); cbn [bind try_except_Exception]; try discriminate;
    intros E; injection E as <-; [|intros []].
  intros H. apply in_map_iff in H. destruct H as ([cid' stamp] & E & H).
  injection E as _ ->. cbn [fst] in *.
  unfold select_conversations in H.
  apply (Permutation_in _ (order_by_desc_perm snd _)) in H.
  apply nodup_In in H. apply (in_map fst) in H. cbn [fst] in H.
  rewrite ConversationClaims.group_by_conversation_ids in H.
  apply nodup_In in H. apply in_map_iff in H. destruct H as (c & Ec & Hc).
  apply filter_In in Hc. destruct Hc as [Hc Ho].
  intros N.
  assert (I : In c (turns_of db user_id label cid)).
  { unfold turns_of. apply filter_In. split; [exact Hc|].
    unfold turn_of. unfold owned_by in Ho. rewrite Ho, Ec. apply String.eqb_refl. }
  rewrite N in I. destruct I.
Qed.

(** X23.  Picking a display name from the conversation list loads the
    first conversation of the list that bears the name: the session adopts
    its identifier with an empty memory, and the transcript shown is that
    of its stored turns, oldest first, which is not empty.  A conversation
    listed further down under the same name is out of reach. *)
Theorem selected_conversation_is_loaded (display_time : string -> string)
    (a : agent) (db : database) (name cid : string)
    (before after : list (string * string)) :
  db_health db = Healthy ->
  get_conversation_list display_time db (user_id a) (agent_type a)
  = Ret (before ++ (name, cid) :: after)%list ->
  ~ In name (map fst before) ->
  name <> "" ->
  cid <> "" ->
  let a' := mkagent (user_id a) (agent_type a) cid [] in
  _load_selected_conversation display_time (user_id a) (agent_type a) a db (Some name)
  = Ret (a', map transcript_entry
               (transcript_rows db (user_id a) (agent_type a) cid))
  /\ transcript_rows db (user_id a) (agent_type a) cid <> [].
Proof.
  intros Hh Hl Hb Hn Hc a'.
  assert (T : turns_of db (user_id a) (agent_type a) cid <> []).
  { apply (listed_conversation_has_turns display_time db _ _ _ name cid Hl).
    apply in_or_app. right. left. reflexivity. }
  split.
  - unfold _load_selected_conversation. cbn [given].
    rewrite (proj2 (String.eqb_neq _ _) Hn). rewrite Hl. cbn [bind].
    unfold selected_id. rewrite PeriodProperties.find_app_skip.
    + cbn [find fst]. rewrite String.eqb_refl. cbn [option_map snd given].
      rewrite (proj2 (String.eqb_neq _ _) Hc).
      rewrite (ConversationClaims.load_conversation_known_id a db cid Hh T).
      cbn [bind]. fold a'.
      rewrite (load_history_healthy _ _ a' db Hh). reflexivity.
    + intros [n c] Hin. cbn [fst]. apply String.eqb_neq. intros ->.
      apply Hb. apply (in_map fst) in Hin. exact Hin.
  - intros E. apply T. unfold transcript_rows in E.
    pose proof (order_by_asc_perm c_timestamp
                  (filter (turn_of (user_id a) (agent_type a) cid) (conversations db)))
      as P.
    rewrite E in P. apply Permutation_nil in P. exact P.
Qed.

Lemma selected_conversation_is_loaded_witness :
  db_health same_minute_db = Healthy
  /\ get_conversation_list minute_of same_minute_db (user_id (recorder "c-0"))
       (agent_type (recorder "c-0"))
     = Ret ([] ++ ("对话 2024-05-01 12:00", "c-2")
                  :: [("对话 2024-05-01 12:00", "c-1")])%list
  /\ ~ In "对话 2024-05-01 12:00" (map fst (@nil (string * string)))
  /\ "对话 2024-05-01 12:00" <> ""
  /\ "c-2" <> ""
  /\ let a' := mkagent (user_id (recorder "c-0")) (agent_type (recorder "c-0"))
                       "c-2" [] in
     _load_selected_conversation minute_of (user_id (recorder "c-0"))
       (agent_type (recorder "c-0")) (recorder "c-0") same_minute_db
       (Some "对话 2024-05-01 12:00")
     = Ret (a', map transcript_entry
                  (transcript_rows same_minute_db (user_id (recorder "c-0"))
                                   (agent_type (recorder "c-0")) "c-2"))
     /\ transcript_rows same_minute_db (user_id (recorder "c-0"))
                        (agent_type (recorder "c-0")) "c-2" <> [].
Proof.
  split; [reflexivity|]. split; [reflexivity|]. split; [simpl; tauto|].
  split; [discriminate|]. split; [discriminate|].
  apply (selected_conversation_is_loaded minute_of (recorder "c-0") same_minute_db
           "对话 2024-05-01 12:00" "c-2" [] [("对话 2024-05-01 12:00", "c-1")]);
    [reflexivity|reflexivity|simpl; tauto|discriminate|discriminate].
Defined.

Example load_selected_conversation_outcomes :
  _load_selected_conversation minute_of 1 "小账" (recorder "c-0") same_minute_db
    (Some "对话 2024-05-01 12:00")
  = Ret (recorder "c-2", [mkchat "user" "打车20元"])
  /\ _load_selected_conversation minute_of 1 "小账" (recorder "c-0") same_minute_db
       (Some "对话 2024-05-01 12:01")
     = Ret (recorder "c-0", [])
  /\ _load_selected_conversation minute_of 1 "小账" (recorder "c-0") same_minute_db
       None
     = Ret (recorder "c-0", [])
  /\ _load_selected_conversation minute_of 1 "小账" (recorder "c-0")
       (chat_db Unreachable) (Some "对话 2024-05-01 12:00")
     = Raise cannot_open.
Proof. repeat split. Qed.

End WindowProperties.

(** ** _process_tool_results *)

Module ToolResultProperties.

Local Open Scope string_scope.

Section Results.

Variable json_loads : string -> option json.
Variable json_str : json -> string.

Lemma tool_result_lines_raises (r : string) (j : json) :
  json_loads r = Some j -> is_object j = false ->
  exists e, tool_result_lines json_loads json_str r = Raise e
            /\ exn_class_of e = AttributeError.
Proof.
  intros E N. unfold tool_result_lines. rewrite E.
  destruct j; try discriminate N; eexists; split; reflexivity.
Qed.

Lemma tool_result_lines_outcome (r : string) :
  (exists s, tool_result_lines json_loads json_str r = Ret s)
  \/ (exists e, tool_result_lines json_loads json_str r = Raise e
                /\ exn_class_of e = AttributeError).
Proof.
  unfold tool_result_lines. destruct (json_loads r) as [j|]; [|left; eauto].
  destruct j; try (right; eexists; split; reflexivity).
  left. destruct (match lookup "status" fields with
                  | Some (JString s) => String.eqb s "success"
                  | _ => false
                  end); eauto.
Qed.

Lemma tool_results_text_raises (results : list string) (r : string) (j : json) :
  In r results -> json_loads r = Some j -> is_object j = false ->
  exists e, tool_results_text json_loads json_str results = Raise e
            /\ exn_class_of e = AttributeError.
Proof.
  intros Hin E N. induction results as [|x results IH]; [destruct Hin|].
  cbn [tool_results_text].
  destruct (tool_result_lines_outcome x) as [(s & Hs)|(e & He & C)].
  - rewrite Hs. cbn [bind]. destruct Hin as [->|Hin].
    + destruct (tool_result_lines_raises r j E N) as (e & He & _). congruence.
    + destruct (IH Hin) as (e & He & C). rewrite He. exists e. auto.
  - rewrite He. exists e. auto.
Qed.

End Results.

(** X24.  [_process_tool_results] never loses the text of the model: for
    a response with a first message, the reply is that text itself (no tool
    results), or that text followed by a blank line and the lines of the
    results, or the error form, which ends with "原始回复: " and that
    text. *)
Theorem process_tool_results_keeps_the_answer (json_loads : string -> option json)
    (json_str : json -> string) (r : response) (m : base_message)
    (rest : list base_message) :
  msgs r = Some (m :: rest) ->
  _process_tool_results json_loads json_str r = content m
  \/ (exists lines,
        _process_tool_results json_loads json_str r
        = content m ++ newline ++ newline ++ lines)
  \/ (exists e,
        _process_tool_results json_loads json_str r
        = "处理工具结果时出错: " ++ exn_str e ++ newline ++ "原始回复: " ++ content m).
Proof.
  intros Hm. unfold _process_tool_results, original_content, original_content_or_default.
  rewrite Hm. destruct (tool_results r) as [[|x results]|].
  - left. reflexivity.
  - destruct (tool_results_text json_loads json_str (x :: results)) as [s|e];
      cbn [bind]; right; [left|right]; eauto.
  - right. right. eauto.
Qed.

Lemma process_tool_results_keeps_the_answer_witness :
  msgs (mkresponse (Some [assistant_says "记好了"]) None (Some ["add_transaction"])
                   (Some ["ok"; "raw"]))
  = Some (assistant_says "记好了" :: [])
  /\ (_process_tool_results envelope_json json_text
        (mkresponse (Some [assistant_says "记好了"]) None (Some ["add_transaction"])
                    (Some ["ok"; "raw"]))
      = content (assistant_says "记好了")
      \/ (exists lines,
            _process_tool_results envelope_json json_text
              (mkresponse (Some [assistant_says "记好了"]) None
                          (Some ["add_transaction"]) (Some ["ok"; "raw"]))
            = content (assistant_says "记好了") ++ newline ++ newline ++ lines)
      \/ (exists e,
            _process_tool_results envelope_json json_text
              (mkresponse (Some [assistant_says "记好了"]) None
                          (Some ["add_transaction"]) (Some ["ok"; "raw"]))
            = "处理工具结果时出错: " ++ exn_str e ++ newline ++ "原始回复: "
              ++ content (assistant_says "记好了"))).
Proof.
  split; [reflexivity|].
  apply (process_tool_results_keeps_the_answer envelope_json json_text
           (mkresponse (Some [assistant_says "记好了"]) None (Some ["add_transaction"])
                       (Some ["ok"; "raw"]))
           (assistant_says "记好了") []).
  reflexivity.
Defined.

(** X25.  One tool result that decodes to something other than a JSON
    object spoils the whole reply: the lines of all the other results are
    dropped and the reply is the error form around the text of the model.
    (A result that does not decode at all is passed on as
    "工具返回: ..." and harms nothing.) *)
Theorem non_object_result_hides_the_others (json_loads : string -> option json)
    (json_str : json -> string) (r : response) (m : base_message)
    (rest : list base_message) (results : list string) (bad : string) (j : json) :
  msgs r = Some (m :: rest) ->
  tool_results r = Some results ->
  In bad results ->
  json_loads bad = Some j ->
  is_object j = false ->
  exists e,
    exn_class_of e = AttributeError
    /\ _process_tool_results json_loads json_str r
       = "处理工具结果时出错: " ++ exn_str e ++ newline ++ "原始回复: " ++ content m.
Proof.
  intros Hm Hr Hin E N.
  destruct (tool_results_text_raises json_loads json_str results bad j Hin E N)
    as (e & He & C).
  exists e. split; [exact C|].
  unfold _process_tool_results, original_content_or_default. rewrite Hm, Hr.
  destruct results as [|x results]; [destruct Hin|]. rewrite He. reflexivity.
Qed.

Lemma non_object_result_hides_the_others_witness :
  msgs (mkresponse (Some [assistant_says "记好了"]) None (Some ["add_transaction"])
                    (Some ["ok"; "list"; "raw"]))
  = Some (assistant_says "记好了" :: [])
  /\ tool_results (mkresponse (Some [assistant_says "记好了"]) None (Some ["add_transaction"])
                    (Some ["ok"; "list"; "raw"]))
     = Some ["ok"; "list"; "raw"]
  /\ In "list" ["ok"; "list"; "raw"]
  /\ envelope_json "list" = Some (JArray [])
  /\ is_object (JArray []) = false
  /\ exists e,
       exn_class_of e = AttributeError
       /\ _process_tool_results envelope_json json_text
            (mkresponse (Some [assistant_says "记好了"]) None (Some ["add_transaction"])
                    (Some ["ok"; "list"; "raw"]))
          = "处理工具结果时出错: " ++ exn_str e ++ newline ++ "原始回复: "
            ++ content (assistant_says "记好了").
Proof.
  split; [reflexivity|]. split; [reflexivity|]. split; [simpl; tauto|].
  split; [reflexivity|]. split; [reflexivity|].
  apply (non_object_result_hides_the_others envelope_json json_text
           (mkresponse (Some [assistant_says "记好了"]) None (Some ["add_transaction"])
                    (Some ["ok"; "list"; "raw"]))
           (assistant_says "记好了") [] ["ok"; "list"; "raw"] "list" (JArray []));
    [reflexivity|reflexivity|simpl; tauto|reflexivity|reflexivity].
Defined.

Example process_tool_results_example :
  _process_tool_results envelope_json json_text
    (mkresponse (Some [assistant_says "记好了"]) None (Some ["add_transaction"])
                (Some ["ok"; "raw"; "bad"]))
  = "记好了" ++ newline ++ newline
    ++ "操作成功: 已记录支出: 35元" ++ newline
    ++ "工具返回: raw" ++ newline
    ++ "操作失败: 记录失败" ++ newline.
Proof. reflexivity. Qed.

End ToolResultProperties.

(** ** The saving tips *)

Module AdviceProperties.

Local Open Scope string_scope.

Lemma initialize_db_healthy (db : database) (t : tips_table) :
  db_health db = Healthy ->
  _initialize_db db t = Ret (db, fold_left insert_tip default_tips t).
Proof.
  intros Hh. unfold _initialize_db, get_connection, execute. rewrite Hh. reflexivity.
Qed.

Lemma tips_after_insert (t : tips_table) (values : string * string * string * Q) :
  map tip_of_row (tips (insert_tip t values))
  = (map tip_of_row (tips t) ++ [default_tip values])%list.
Proof.
  destruct values as [[[c x] d] s]. cbn [insert_tip tips]. rewrite map_app.
  reflexivity.
Qed.

Lemma tips_after_inserts (values : list (string * string * string * Q)) :
  forall t,
    map tip_of_row (tips (fold_left insert_tip values t))
    = (map tip_of_row (tips t) ++ map default_tip values)%list.
Proof.
  induction values as [|v values IH]; intros t; cbn [fold_left map].
  - rewrite app_nil_r. reflexivity.
  - rewrite IH, tips_after_insert, <- app_assoc. reflexivity.
Qed.

Lemma count_occ_default (d : tip) :
  In d (map default_tip default_tips) ->
  count_occ tip_dec (map default_tip default_tips) d = 1%nat.
Proof.
  cbn [map default_tips default_tip In].
  intros [<-|[<-|[<-|[<-|[<-|[]]]]]]; vm_compute; reflexivity.
Qed.

(** X26.  Every start of the program adds the five default tips once
    more: [INSERT OR IGNORE] finds nothing to ignore in a table whose only
    key is the row id.  After [n] starts on a store that answers, the table
    holds [5 * n] rows more and every default tip shows [n] times more than
    before. *)
Theorem default_tips_pile_up (n : nat) (db : database) (t : tips_table) (d : tip) :
  db_health db = Healthy ->
  In d (map default_tip default_tips) ->
  exists t',
    restarted n db t = Ret t'
    /\ List.length (tips t') = (List.length (tips t) + 5 * n)%nat
    /\ copies d t' = (copies d t + n)%nat.
Proof.
  intros Hh Hd. revert t. induction n as [|n IH]; intros t; cbn [restarted].
  - exists t. repeat split; lia.
  - rewrite (initialize_db_healthy db t Hh). cbn [bind fst snd].
    destruct (IH (fold_left insert_tip default_tips t)) as (t' & E & L & C).
    exists t'. split; [exact E|].
    assert (M := tips_after_inserts default_tips t).
    split.
    + rewrite L. rewrite <- (length_map tip_of_row), M, length_app, !length_map.
      cbn [default_tips List.length]. lia.
    + rewrite C. unfold copies. rewrite M, count_occ_app, count_occ_default by exact Hd.
      lia.
Qed.

Lemma default_tips_pile_up_witness :
  db_health one_user_db = Healthy
  /\ In (mkadvice "餐饮" "自带午餐代替外卖，每周可省100-150元" "简单" 120)
        (map default_tip default_tips)
  /\ exists t',
       restarted 3 one_user_db empty_tips = Ret t'
       /\ List.length (tips t') = (List.length (tips empty_tips) + 5 * 3)%nat
       /\ copies (mkadvice "餐饮" "自带午餐代替外卖，每周可省100-150元" "简单" 120) t'
          = (copies (mkadvice "餐饮" "自带午餐代替外卖，每周可省100-150元" "简单" 120)
                    empty_tips + 3)%nat.
Proof.
  split; [reflexivity|]. split; [simpl; tauto|].
  apply (default_tips_pile_up 3 one_user_db empty_tips
           (mkadvice "餐饮" "自带午餐代替外卖，每周可省100-150元" "简单" 120));
    [reflexivity|simpl; tauto].
Defined.

Section Random.

Variable random_order : list tip_row -> list tip_row.
Hypothesis random_order_permutes : forall l, Permutation (random_order l) l.

Lemma saving_tips_healthy (db : database) (t : tips_table)
    (category difficulty : option string) :
  db_health db = Healthy ->
  get_saving_tips random_order db t category difficulty
  = Ret (TipsOk (map tip_of_row
                   (firstn 3 (random_order
                                (filter (tip_matches category difficulty) (tips t)))))).
Proof.
  intros Hh. unfold get_saving_tips, get_connection, execute. rewrite Hh. reflexivity.
Qed.

Lemma chosen_length (l : list tip_row) :
  List.length (firstn 3 (random_order l)) = Nat.min 3 (List.length l).
Proof.
  rewrite length_firstn. f_equal. apply Permutation_length, random_order_permutes.
Qed.

End Random.

(** X27.  On a store that answers, [get_saving_tips] returns stored tips
    that match what was asked for (an empty text asks for nothing), three
    of them when three or more match and all of them otherwise, whatever
    order the random ordering puts them in. *)
Theorem saving_tips_are_matching_rows (random_order : list tip_row -> list tip_row)
    (db : database) (t : tips_table) (category difficulty : option string) :
  (forall l, Permutation (random_order l) l) ->
  db_health db = Healthy ->
  exists chosen,
    get_saving_tips random_order db t category difficulty
    = Ret (TipsOk (map tip_of_row chosen))
    /\ List.length chosen
       = Nat.min 3 (List.length (filter (tip_matches category difficulty) (tips t)))
    /\ forall r, In r chosen ->
         In r (tips t)
         /\ (forall c, category = Some c -> c <> "" -> tip_category r = c)
         /\ (forall d, difficulty = Some d -> d <> "" -> tip_difficulty r = d).
Proof.
  intros Hp Hh. rewrite (saving_tips_healthy random_order db t category difficulty Hh).
  eexists. split; [reflexivity|]. split; [apply chosen_length; exact Hp|].
  intros r Hr.
  assert (Hr' : In r (random_order (filter (tip_matches category difficulty) (tips t)))).
  { rewrite <- (firstn_skipn 3 (random_order _)). apply in_or_app. left. exact Hr. }
  clear Hr. rename Hr' into Hr.
  apply (Permutation_in _ (Hp _)) in Hr. apply filter_In in Hr.
  destruct Hr as [Hr M]. split; [exact Hr|].
  unfold tip_matches in M. apply andb_prop in M. destruct M as [M1 M2]. split.
  - intros c -> Hc. cbn [given] in M1.
    rewrite (proj2 (String.eqb_neq _ _) Hc) in M1. apply String.eqb_eq. exact M1.
  - intros d -> Hd. cbn [given] in M2.
    rewrite (proj2 (String.eqb_neq _ _) Hd) in M2. apply String.eqb_eq. exact M2.
Qed.

Lemma saving_tips_are_matching_rows_witness :
  (forall l, Permutation (table_order l) l)
  /\ db_health one_user_db = Healthy
  /\ exists chosen,
       get_saving_tips table_order one_user_db tips_after_two_starts
                       (Some "餐饮") (Some "")
       = Ret (TipsOk (map tip_of_row chosen))
       /\ List.length chosen
          = Nat.min 3 (List.length (filter (tip_matches (Some "餐饮") (Some ""))
                                           (tips tips_after_two_starts)))
       /\ forall r, In r chosen ->
            In r (tips tips_after_two_starts)
            /\ (forall c, Some "餐饮" = Some c -> c <> "" -> tip_category r = c)
            /\ (forall d, Some "" = Some d -> d <> "" -> tip_difficulty r = d).
Proof.
  split; [intros l; apply Permutation_refl|]. split; [reflexivity|].
  apply (saving_tips_are_matching_rows table_order one_user_db tips_after_two_starts
           (Some "餐饮") (Some ""));
    [intros l; apply Permutation_refl|reflexivity].
Defined.

Example saving_tips_examples :
  get_saving_tips table_order one_user_db tips_after_two_starts (Some "餐饮") None
  = Ret (TipsOk [mkadvice "餐饮" "自带午餐代替外卖，每周可省100-150元" "简单" 120;
                 mkadvice "餐饮" "自带午餐代替外卖，每周可省100-150元" "简单" 120])
  /\ get_saving_tips table_order one_user_db tips_after_one_start None (Some "中等")
     = Ret (TipsOk [mkadvice "购物" "加入收藏夹，24小时后再决定是否购买" "中等" 200])
  /\ get_saving_tips table_order (chat_db StatementsFail) tips_after_one_start None None
     = Ret (TipsFailed "database is locked")
  /\ get_saving_tips table_order (chat_db Unreachable) tips_after_one_start None None
     = Raise cannot_open.
Proof. repeat split. Qed.

Lemma category_of_item_given (item : string) :
  given (Some (category_of_item item)) = Some (category_of_item item).
Proof.
  unfold category_of_item.
  destruct (find _ category_map) as [entry|] eqn:F; [|reflexivity].
  apply find_some in F. destruct F as [F _]. cbn [category_map In] in F.
  repeat (destruct F as [<-|F]; [reflexivity|]). destruct F.
Qed.

Lemma firstn_covered {A} (n : nat) (l1 l2 : list A) :
  (n <= List.length l1)%nat -> firstn n (l1 ++ l2) = firstn n l1.
Proof.
  intros H. rewrite firstn_app.
  replace (n - List.length l1)%nat with 0%nat by lia.
  cbn [firstn]. apply app_nil_r.
Qed.

(** The texts of the tips [get_alternative_suggestion] starts from. *)
Lemma alternative_tips (random_order : list tip_row -> list tip_row)
    (db : database) (t : tips_table) (item : string) (estimated_price : Q) :
  (forall l, Permutation (random_order l) l) ->
  exists texts,
    al_suggestions (get_alternative_suggestion random_order db t item estimated_price)
    = firstn 3 (map TipText texts
                ++ (if Qgtb estimated_price 100 then [SecondHand item] else [])
                ++ [PriceAlert (estimated_price * (8 # 10))%Q])
    /\ List.length texts = Nat.min 3 (reachable_tips db t (category_of_item item)).
Proof.
  intros Hp. unfold get_alternative_suggestion, reachable_tips.
  cbn [al_suggestions]. unfold get_saving_tips, get_connection, execute.
  destruct (db_health db); cbn [bind].
  - eexists. rewrite map_map. split; [rewrite <- map_map; reflexivity|].
    rewrite !length_map, length_firstn. f_equal.
    rewrite (Permutation_length (Hp _)). f_equal. apply filter_ext.
    intros r. unfold tip_matches. rewrite category_of_item_given. cbn [given].
    apply andb_true_r.
  - exists []. split; reflexivity.
  - exists []. split; reflexivity.
Qed.

(** X28.  [get_alternative_suggestion] always answers, with one to three
    suggestions: the tips stored for the category of the item come first
    and crowd the two general suggestions out.  With [n] tips of the
    category within reach (none when the store fails), the price alert at
    80% of the price is among the suggestions exactly when the tips and the
    second-hand suggestion (made for prices above 100) leave room for it,
    and the second-hand suggestion exactly when the price is above 100 and
    at most two tips are stored. *)
Theorem alternative_suggestions_crowded_out
    (random_order : list tip_row -> list tip_row)
    (db : database) (t : tips_table) (item : string) (estimated_price : Q) :
  (forall l, Permutation (random_order l) l) ->
  let answer := get_alternative_suggestion random_order db t item estimated_price in
  let n := reachable_tips db t (category_of_item item) in
  let k := if Qgtb estimated_price 100 then 1%nat else 0%nat in
  List.length (al_suggestions answer) = Nat.min 3 (n + k + 1)
  /\ (In (PriceAlert (estimated_price * (8 # 10))%Q) (al_suggestions answer)
      <-> (n + k <= 2)%nat)
  /\ (In (SecondHand item) (al_suggestions answer) <-> k = 1%nat /\ (n <= 2)%nat).
Proof.
  intros Hp answer n k.
  destruct (alternative_tips random_order db t item estimated_price Hp)
    as (texts & E & L).
  fold answer in E. fold n in L. rewrite E.
  assert (Hk : List.length (if Qgtb estimated_price 100 then [SecondHand item] else [])
               = k) by (unfold k; destruct (Qgtb estimated_price 100); reflexivity).
  assert (NoPA : ~ In (PriceAlert (estimated_price * (8 # 10))%Q)
                      (map TipText texts
                       ++ (if Qgtb estimated_price 100 then [SecondHand item] else []))).
  { intros H. apply in_app_or in H. destruct H as [H|H].
    - apply in_map_iff in H. destruct H as (x & Hx & _). discriminate Hx.
    - destruct (Qgtb estimated_price 100); [destruct H as [H|[]]; discriminate H|destruct H]. }
  assert (NoSH : ~ In (SecondHand item) (map TipText texts)).
  { intros H. apply in_map_iff in H. destruct H as (x & Hx & _). discriminate Hx. }
  split; [|split].
  - rewrite length_firstn, !length_app, length_map, Hk. cbn [List.length]. lia.
  - split.
    + intros H. destruct (le_lt_dec (n + k) 2) as [Le|Gt]; [exact Le|]. exfalso.
      rewrite app_assoc, firstn_covered in H
        by (rewrite length_app, length_map, Hk; lia).
      apply NoPA. rewrite <- (firstn_skipn 3 (_ ++ _)). apply in_or_app. left. exact H.
    + intros Le. rewrite firstn_all2
        by (rewrite !length_app, length_map, Hk; cbn [List.length]; lia).
      apply in_or_app. right. apply in_or_app. right. left. reflexivity.
  - split.
    + intros H. destruct (le_lt_dec n 2) as [Le|Gt].
      * split; [|exact Le]. unfold k.
        destruct (Qgtb estimated_price 100); [reflexivity|]. exfalso.
        cbn [app] in H.
        assert (H' : In (SecondHand item)
                        (map TipText texts
                         ++ [PriceAlert (estimated_price * (8 # 10))%Q])).
        { rewrite <- (firstn_skipn 3 (_ ++ _)). apply in_or_app. left. exact H. }
        apply in_app_or in H'. destruct H' as [H'|[H'|[]]]; [tauto|discriminate H'].
      * exfalso. rewrite firstn_covered in H by (rewrite length_map; lia).
        apply NoSH. rewrite <- (firstn_skipn 3 (map _ _)). apply in_or_app. left.
        exact H.
    + intros [K Le]. unfold k in K.
      destruct (Qgtb estimated_price 100); [|discriminate K].
      rewrite app_assoc, firstn_app.
      apply in_or_app. left.
      rewrite firstn_all2 by (rewrite length_app, length_map; cbn [List.length]; lia).
      apply in_or_app. right. left. reflexivity.
Qed.

Lemma alternative_suggestions_crowded_out_witness :
  (forall l, Permutation (table_order l) l)
  /\ let answer := get_alternative_suggestion table_order one_user_db
                     tips_after_two_starts "外卖套餐" 120 in
     let n := reachable_tips one_user_db tips_after_two_starts
                (category_of_item "外卖套餐") in
     let k := if Qgtb 120 100 then 1%nat else 0%nat in
     List.length (al_suggestions answer) = Nat.min 3 (n + k + 1)
     /\ (In (PriceAlert (120 * (8 # 10))%Q) (al_suggestions answer)
         <-> (n + k <= 2)%nat)
     /\ (In (SecondHand "外卖套餐") (al_suggestions answer)
         <-> k = 1%nat /\ (n <= 2)%nat).
Proof.
  split; [intros l; apply Permutation_refl|].
  apply (alternative_suggestions_crowded_out table_order one_user_db
           tips_after_two_starts "外卖套餐" 120).
  intros l. apply Permutation_refl.
Defined.

Example alternative_suggestion_examples :
  al_suggestions (get_alternative_suggestion table_order one_user_db
                    tips_after_two_starts "外卖套餐" 120)
  = [TipText "自带午餐代替外卖，每周可省100-150元";
     TipText "自带午餐代替外卖，每周可省100-150元";
     SecondHand "外卖套餐"]
  /\ al_suggestions (get_alternative_suggestion table_order one_user_db
                       tips_after_one_start "新手机" 3000)
     = [TipText "加入收藏夹，24小时后再决定是否购买"; SecondHand "新手机";
        PriceAlert (3000 * (8 # 10))]
  /\ al_suggestions (get_alternative_suggestion table_order (chat_db Unreachable)
                       tips_after_one_start "咖啡" 30)
     = [PriceAlert (30 * (8 # 10))]
  /\ category_of_item "电影票和外卖" = "餐饮".
Proof. repeat split. Qed.

End AdviceProperties.

(** ** The analysis of the financial capacity *)

Module PlanningProperties.

Local Open Scope string_scope.

Lemma analysis_healthy (round2 : Q -> Q) (db : database) (user_id : Z)
    (today : datetime) (goal_type : string) (ago : date) :
  db_health db = Healthy ->
  sub_days (dt_date today) 90 = Ret ago ->
  let income := income_between db user_id (strftime_ymd ago)
                               (strftime_ymd (dt_date today)) in
  let expense := expense_between db user_id (strftime_ymd ago)
                                 (strftime_ymd (dt_date today)) in
  let monthly_savings := (monthly_mean income - monthly_mean expense)%Q in
  exists a,
    analyze_financial_capacity round2 db user_id today goal_type = Ret (AnalysisOk a)
    /\ an_financial_health a = health_status_of (monthly_mean income) monthly_savings
    /\ an_recommendations a
       = _generate_financial_recommendations goal_type monthly_savings
           (savings_rate_of (monthly_mean income) monthly_savings).
Proof.
  intros Hh Ha. cbv zeta.
  unfold analyze_financial_capacity, get_connection, execute.
  rewrite Hh, Ha. cbn [bind]. eexists. split; [reflexivity|]. split; reflexivity.
Qed.

Lemma income_between_nonneg (db : database) (user_id : Z) (s e : string) :
  (0 <= income_between db user_id s e)%Q.
Proof.
  apply SummaryProperties.sum_amount_nonneg. intros t Ht.
  apply filter_In in Ht. destruct Ht as [_ Ht]. unfold income_row in Ht.
  apply andb_prop in Ht. destruct Ht as [Ht _].
  apply andb_prop in Ht. destruct Ht as [_ Ht]. apply Qgtb_true. exact Ht.
Qed.

Lemma expense_between_nonneg (db : database) (user_id : Z) (s e : string) :
  (0 <= expense_between db user_id s e)%Q.
Proof. apply SummaryProperties.sum_abs_nonneg. Qed.

Lemma monthly_mean_third (total : Q) :
  (0 <= total)%Q -> (3 * monthly_mean total == total)%Q.
Proof.
  intros H. unfold monthly_mean. destruct (Qgtb total 0) eqn:G; [field|].
  apply Qgtb_false in G. lra.
Qed.

(** The status "需要改善" in terms of the two totals. *)
Lemma health_by_totals (income expense : Q) :
  (0 <= income)%Q -> (0 <= expense)%Q ->
  health_status_of (monthly_mean income)
                   (monthly_mean income - monthly_mean expense) = "需要改善"
  <-> (income <= expense)%Q.
Proof.
  intros Hi He.
  pose proof (monthly_mean_third income Hi) as Mi.
  pose proof (monthly_mean_third expense He) as Me.
  set (mi := monthly_mean income) in *. set (me := monthly_mean expense) in *.
  unfold health_status_of.
  destruct (Qgtb (mi - me) 0) eqn:S.
  - apply Qgtb_true in S. split; [|lra].
    destruct (Qgtb (savings_rate_of mi (mi - me)) 20); [discriminate|].
    destruct (Qgtb (savings_rate_of mi (mi - me)) 10); discriminate.
  - apply Qgtb_false in S. split; [lra|reflexivity].
Qed.

(** X29.  Over whole amounts (the rows of the user dated in the last 90
    days, with their total) the analysis reports the status "需要改善"
    exactly when the expenses of those 90 days reach the income, whatever
    the goal type. *)
Theorem needs_improvement_iff_expenses_reach_income (round2 : Q -> Q)
    (db : database) (user_id : Z) (today : datetime) (goal_type : string)
    (ago : date) :
  db_health db = Healthy ->
  sub_days (dt_date today) 90 = Ret ago ->
  whole_rows (rows_between db user_id (strftime_ymd ago)
                           (strftime_ymd (dt_date today))) = true ->
  let income := income_between db user_id (strftime_ymd ago)
                               (strftime_ymd (dt_date today)) in
  let expense := expense_between db user_id (strftime_ymd ago)
                                 (strftime_ymd (dt_date today)) in
  exists a,
    analyze_financial_capacity round2 db user_id today goal_type = Ret (AnalysisOk a)
    /\ (an_financial_health a = "需要改善" <-> (income <= expense)%Q).
Proof.
  intros Hh Ha _ income expense.
  destruct (analysis_healthy round2 db user_id today goal_type ago Hh Ha)
    as (a & E & H & _).
  exists a. split; [exact E|]. rewrite H.
  apply health_by_totals;
    [apply income_between_nonneg|apply expense_between_nonneg].
Qed.

Lemma needs_improvement_iff_expenses_reach_income_witness :
  db_health spring_db = Healthy
  /\ sub_days (dt_date may_20) 90 = Ret (mkdate 2024 2 20)
  /\ whole_rows (rows_between spring_db 1 (strftime_ymd (mkdate 2024 2 20))
                              (strftime_ymd (dt_date may_20))) = true
  /\ let income := income_between spring_db 1 (strftime_ymd (mkdate 2024 2 20))
                                  (strftime_ymd (dt_date may_20)) in
     let expense := expense_between spring_db 1 (strftime_ymd (mkdate 2024 2 20))
                                    (strftime_ymd (dt_date may_20)) in
     exists a,
       analyze_financial_capacity keep spring_db 1 may_20 "saving" = Ret (AnalysisOk a)
       /\ (an_financial_health a = "需要改善" <-> (income <= expense)%Q).
Proof.
  split; [reflexivity|]. split; [vm_compute; reflexivity|].
  split; [vm_compute; reflexivity|].
  apply (needs_improvement_iff_expenses_reach_income keep spring_db 1 may_20 "saving"
           (mkdate 2024 2 20));
    [reflexivity|vm_compute; reflexivity|vm_compute; reflexivity].
Defined.

Lemma spending_advice_in (goal_type : string) (monthly_savings savings_rate : Q) :
  In spending_advice
     (_generate_financial_recommendations goal_type monthly_savings savings_rate)
  <-> Qgtb 10 savings_rate = true.
Proof.
  unfold _generate_financial_recommendations. split.
  - intros H. destruct (Qgtb 10 savings_rate); [reflexivity|]. exfalso.
    cbn [app] in H.
    destruct (String.eqb goal_type "saving" && Qgtb 1000 monthly_savings);
      [destruct H as [H|[]]; discriminate H|].
    destruct (String.eqb goal_type "investment" && Qgtb 15 savings_rate);
      [destruct H as [H|[]]; discriminate H|].
    destruct (String.eqb goal_type "purchase"); [|destruct H].
    destruct (Qgtb 500 monthly_savings); destruct H as [H|[]]; discriminate H.
  - intros ->. left. reflexivity.
Qed.

(** X30.  The advice to hold the monthly spending down goes with the
    status the analysis reports, whatever the goal type and the amounts:
    it is always given with the status "需要改善" and never with "优秀" or
    "良好" (both are read off the same savings rate). *)
Theorem spending_advice_agrees_with_health (round2 : Q -> Q) (db : database)
    (user_id : Z) (today : datetime) (goal_type : string) (ago : date) :
  db_health db = Healthy ->
  sub_days (dt_date today) 90 = Ret ago ->
  exists a,
    analyze_financial_capacity round2 db user_id today goal_type = Ret (AnalysisOk a)
    /\ (an_financial_health a = "需要改善" ->
        In "建议控制每月支出，目标储蓄率应达到10%以上" (an_recommendations a))
    /\ (an_financial_health a = "优秀" \/ an_financial_health a = "良好" ->
        ~ In "建议控制每月支出，目标储蓄率应达到10%以上" (an_recommendations a)).
Proof.
  intros Hh Ha.
  destruct (analysis_healthy round2 db user_id today goal_type ago Hh Ha)
    as (a & E & H & R).
  cbv zeta in H, R.
  exists a. split; [exact E|]. rewrite H, R.
  fold spending_advice. rewrite spending_advice_in.
  set (mi := monthly_mean _). set (ms := (mi - _)%Q).
  unfold health_status_of, savings_rate_of.
  destruct (Qgtb ms 0); [|split; [reflexivity|intros [N|N]; discriminate N]].
  set (rate := if Qgtb mi 0 then (ms / mi * 100)%Q else 0%Q).
  split.
  - destruct (Qgtb rate 20); [discriminate|].
    destruct (Qgtb rate 10); discriminate.
  - intros N C. apply Qgtb_true in C.
    destruct (Qgtb rate 20) eqn:R20.
    + apply Qgtb_true in R20. lra.
    + destruct (Qgtb rate 10) eqn:R10.
      * apply Qgtb_true in R10. lra.
      * destruct N as [N|N]; discriminate N.
Qed.

Lemma spending_advice_agrees_with_health_witness :
  db_health spring_db = Healthy
  /\ sub_days (dt_date may_20) 90 = Ret (mkdate 2024 2 20)
  /\ exists a,
       analyze_financial_capacity keep spring_db 1 may_20 "purchase"
       = Ret (AnalysisOk a)
       /\ (an_financial_health a = "需要改善" ->
           In "建议控制每月支出，目标储蓄率应达到10%以上" (an_recommendations a))
       /\ (an_financial_health a = "优秀" \/ an_financial_health a = "良好" ->
           ~ In "建议控制每月支出，目标储蓄率应达到10%以上" (an_recommendations a)).
Proof.
  split; [reflexivity|]. split; [vm_compute; reflexivity|].
  apply (spending_advice_agrees_with_health keep spring_db 1 may_20 "purchase"
           (mkdate 2024 2 20)); [reflexivity|vm_compute; reflexivity].
Defined.

Example analysis_examples :
  (exists a,
     analyze_financial_capacity keep spring_db 1 may_20 "purchase" = Ret (AnalysisOk a)
     /\ an_financial_health a = "良好"
     /\ (an_monthly_income a == 3000)%Q /\ (an_monthly_expense a == 2500)%Q
     /\ (an_monthly_savings a == 500)%Q
     /\ an_recommendations a = ["当前储蓄能力可以支持合理的消费计划"])
  /\ analyze_financial_capacity keep (chat_db StatementsFail) 1 may_20 "saving"
     = Ret (AnalysisFailed "database is locked")
  /\ get_goal_recommendations keep (chat_db StatementsFail) 1 may_20 None
     = Ret (mkgoaladvice [EmergencyFund] (0 * 3))
  /\ get_goal_recommendations keep (chat_db Unreachable) 1 may_20 None
     = Raise cannot_open.
Proof.
  split; [|repeat split].
  eexists. split; [vm_compute; reflexivity|]. repeat split.
Qed.

End PlanningProperties.

(** ** Rational amounts and binary64 *)

Module Binary64Facts.

Import PrimFloat.

(** For every whole spend up to 400 and every whole budget up to 250 the
    verdict on rationals and the verdict in binary64 give the same kind of
    warning. *)
Example whole_amount_verdicts_agree :
  forallb (fun spent => forallb (kinds_agree spent) (Zrange 0 251)) (Zrange 0 401)
  = true.
Proof. vm_compute. reflexivity. Qed.

(** Amounts with cents are not binary64 values, and there the two part: a
    spend of 4.48 is 80% of a budget of 5.60, which gives no warning on
    rationals; in binary64 the percentage comes out above 80 and the reminder
    is given. *)
#[warnings="-inexact-float"]
Example cents_can_differ :
  warning_kind (448 # 100) (560 # 100) = 0%nat
  /\ warning_kind64 4.48%float 5.6%float = 1%nat
  /\ ltb 80%float (percentage64 4.48%float 5.6%float) = true.
Proof. repeat split. Qed.

End Binary64Facts.
